(** * textual-date-spinner: the day/month/year spinner of [spinner.py]

    A shallow embedding of [NumberSpinner] and [BasicDatePicker] and the
    properties of their rollover and clamping logic.

    Conventions of the embedding.
    - Python integers are [Z]; the text of an [Input] widget is a [string]
      of ASCII characters.
    - A widget method that reads or writes widget state, or posts a message,
      is a computation in the monad [M]: it threads the date picker and the
      list of posted, not yet handled messages, and it may raise.
    - [post_message] only appends to the pending messages; a handler runs
      to completion before the next message is handled.  [dispatch] runs
      the handlers of one message, [step] handles any one pending message,
      [run] handles them first-in first-out.
    - Layout ([compose]), the cursor of an [Input] and the handler of focus
      loss ([_leave_input]) are left out; no property below is about
      them. *)

From Stdlib Require Import ZArith Lia Bool List String Ascii.
From Stdlib Require Import Decimal DecimalString DecimalZ DecimalPos.
Import ListNotations.

#[local] Open Scope string_scope.
#[local] Open Scope Z_scope.

(** ** Python's [str] and [int] on decimal texts *)

Module Text.

(** [str(n)]: decimal digits, a leading minus sign for negative numbers. *)
Definition str (n : Z) : string := NilZero.string_of_int (Z.to_int n).

Definition len (s : string) : Z := Z.of_nat (String.length s).

Definition is_digit (c : ascii) : bool :=
  match c with
  | "0" | "1" | "2" | "3" | "4" | "5" | "6" | "7" | "8" | "9" => true
  | _ => false
  end%char.

(** The ASCII characters [int] skips around a number: tab, line feed,
    vertical tab, form feed, carriage return and the blank.  The
    separators 28 to 31, white space for [str.isspace], are not among
    them: [int] of a text with one of them raises [ValueError]. *)
Definition is_space (c : ascii) : bool :=
  let n := nat_of_ascii c in
  (Nat.leb 9 n && Nat.leb n 13) || Nat.eqb n 32.

Fixpoint lstrip (s : string) : string :=
  match s with
  | EmptyString => EmptyString
  | String c s' => if is_space c then lstrip s' else s
  end.

Fixpoint rstrip (s : string) : string :=
  match s with
  | EmptyString => EmptyString
  | String c s' =>
      match rstrip s' with
      | EmptyString => if is_space c then EmptyString else String c EmptyString
      | r => String c r
      end
  end.

Definition strip (s : string) : string := rstrip (lstrip s).

(** Digits may be grouped by single underscores, each one between two
    digits.  [ungroup prev s] removes them, where [prev] tells whether the
    character before [s] was a digit; [None] when an underscore is
    misplaced. *)
Fixpoint ungroup (prev : bool) (s : string) : option string :=
  match s with
  | EmptyString => Some EmptyString
  | String c s' =>
      if Ascii.eqb c "_" then
        match s' with
        | EmptyString => None
        | String c' _ => if prev && is_digit c' then ungroup false s' else None
        end
      else option_map (String c) (ungroup (is_digit c) s')
  end.

Definition uint_of_digits (s : string) : option Z :=
  match ungroup false s with
  | Some s' => option_map Z.of_uint (NilZero.uint_of_string s')
  | None => None
  end.

(** [int(s)] for a text: [None] stands for [ValueError].  White space
    around the number is dropped, a sign may precede the digits, and
    there is at least one digit. *)
Definition int (s : string) : option Z :=
  match strip s with
  | EmptyString => None
  | String c s' =>
      if Ascii.eqb c "-" then option_map Z.opp (uint_of_digits s')
      else if Ascii.eqb c "+" then uint_of_digits s'
      else uint_of_digits (String c s')
  end.

(** [re.sub(r"\D*", "", s)]: every character that is not a digit goes. *)
Fixpoint only_digits (s : string) : string :=
  match s with
  | EmptyString => EmptyString
  | String c s' => if is_digit c then String c (only_digits s') else only_digits s'
  end.

Fixpoint all_digits (s : string) : bool :=
  match s with
  | EmptyString => true
  | String c s' => is_digit c && all_digits s'
  end.

End Text.

(** ** The calendar: [calendar.monthrange] and [datetime.date] *)

Inductive exn : Type :=
| ValueError
| IllegalMonthError (month : Z)
| OverflowError.

(** [IllegalMonthError] is a subclass of [ValueError]; [OverflowError] is
    not. *)
Definition is_ValueError (e : exn) : bool :=
  match e with
  | ValueError => true
  | IllegalMonthError _ => true
  | OverflowError => false
  end.

Module Calendar.

(** [calendar.isleap] *)
Definition isleap (year : Z) : bool :=
  (year mod 4 =? 0) && (negb (year mod 100 =? 0) || (year mod 400 =? 0)).

(** [calendar.mdays], indexed by the month number *)
Definition mdays (month : Z) : Z :=
  match month with
  | 1 => 31 | 2 => 28 | 3 => 31 | 4 => 30 | 5 => 31 | 6 => 30
  | 7 => 31 | 8 => 31 | 9 => 30 | 10 => 31 | 11 => 30 | 12 => 31
  | _ => 0
  end.

Definition days_in_month (year month : Z) : Z :=
  mdays month + (if (month =? 2) && isleap year then 1 else 0).

(** [calendar.monthrange(year, month)[1]]: the number of days of the month.
    The weekday in the first component is not used by the program. *)
Definition monthrange (year month : Z) : exn + Z :=
  if (1 <=? month) && (month <=? 12) then inr (days_in_month year month)
  else inl (IllegalMonthError month).

End Calendar.

(** [DateTuple], and the fields of a [datetime.date] *)
Record DateTuple : Type := mkDate { year : Z; month : Z; day : Z }.

Module Date.

Definition MINYEAR : Z := 1.
Definition MAXYEAR : Z := 9999.

Definition is_valid (y m d : Z) : bool :=
  (MINYEAR <=? y) && (y <=? MAXYEAR) && (1 <=? m) && (m <=? 12) &&
  (1 <=? d) && (d <=? Calendar.days_in_month y m).

(** The numbers a C [int] holds.  The constructor of [date] converts its
    three arguments to C [int]s before it looks at the calendar. *)
Definition c_int (n : Z) : bool := (- 2 ^ 31 <=? n) && (n <? 2 ^ 31).

(** [date(year, month, day)] raises [OverflowError] when an argument does
    not fit a C [int], and [ValueError] outside the calendar. *)
Definition new (y m d : Z) : exn + DateTuple :=
  if negb (c_int y && c_int m && c_int d) then inl OverflowError
  else if is_valid y m d then inr (mkDate y m d)
  else inl ValueError.

End Date.

(** ** Widgets, messages and the handler monad *)

(** The class of a spinner inside the picker: ["day"], ["month"], ["year"] *)
Inductive Role : Type := Day | Month | Year.

Inductive Direction : Type := up | down.

Definition Role_eqb (a b : Role) : bool :=
  match a, b with
  | Day, Day | Month, Month | Year, Year => true
  | _, _ => false
  end.

(** A [NumberSpinner]: its bounds and its [Input] (the text and the focus) *)
Record NumberSpinner : Type := mkSpinner {
  min : Z;
  max : Z;
  input_value : string;
  input_has_focus : bool
}.

(** The three spinners a [BasicDatePicker] owns *)
Record BasicDatePicker : Type := mkPicker {
  day_spinner : NumberSpinner;
  month_spinner : NumberSpinner;
  year_spinner : NumberSpinner
}.

(** The messages of the program.  The sender is named by its role.
    [ButtonPressed] is [Button.Pressed] of a spinner's up or down button,
    [InputChanged] is [Input.Changed] with the text at the time of the
    change, [Changed] is [BasicDatePicker.Changed] for the owner. *)
Inductive Message : Type :=
| ButtonPressed (number_spinner : Role) (button : Direction)
| InputChanged (number_spinner : Role) (value : string)
| ButtonSpin (number_spinner : Role) (direction : Direction) (transient_number : Z)
| NumberChanged (number_spinner : Role) (number : Z)
| Changed (date_part : Role) (value : Z).

Record World : Type := mkWorld {
  picker : BasicDatePicker;
  queue : list Message
}.

Inductive Outcome (A : Type) : Type :=
| Return (a : A) (w : World)
| Raise (e : exn) (w : World).
Arguments Return {A} a w.
Arguments Raise {A} e w.

Definition M (A : Type) : Type := World -> Outcome A.

Definition ret {A} (a : A) : M A := fun w => Return a w.

Definition bind {A B} (c : M A) (k : A -> M B) : M B :=
  fun w => match c w with
           | Return a w' => k a w'
           | Raise e w' => Raise e w'
           end.

Definition raise {A} (e : exn) : M A := fun w => Raise e w.

Notation "x <- c ;; k" := (bind c (fun x => k))
  (at level 61, c at next level, right associativity).
Notation "c ;; k" := (bind c (fun _ => k))
  (at level 61, right associativity).

Definition lift {A} (r : exn + A) : M A :=
  match r with
  | inr a => ret a
  | inl e => raise e
  end.

(** [try: c except ValueError: h] *)
Definition try_except_ValueError {A} (c : M A) (h : M A) : M A :=
  fun w => match c w with
           | Return a w' => Return a w'
           | Raise e w' => if is_ValueError e then h w' else Raise e w'
           end.

Definition spinner (r : Role) (p : BasicDatePicker) : NumberSpinner :=
  match r with
  | Day => day_spinner p
  | Month => month_spinner p
  | Year => year_spinner p
  end.

Definition with_spinner (r : Role) (s : NumberSpinner) (p : BasicDatePicker)
  : BasicDatePicker :=
  match r with
  | Day => mkPicker s (month_spinner p) (year_spinner p)
  | Month => mkPicker (day_spinner p) s (year_spinner p)
  | Year => mkPicker (day_spinner p) (month_spinner p) s
  end.

Definition get_spinner (r : Role) : M NumberSpinner :=
  fun w => Return (spinner r (picker w)) w.

(** The world after [post_message(m)] *)
Definition post (m : Message) (w : World) : World :=
  mkWorld (picker w) (queue w ++ [m]).

Definition post_message (m : Message) : M unit :=
  fun w => Return tt (post m w).

(** The world after an assignment to [input.value] of spinner [r].  The
    [Input] posts [Input.Changed] when the text it holds changes. *)
Definition write_input (r : Role) (text : string) (w : World) : World :=
  let s := spinner r (picker w) in
  mkWorld (with_spinner r (mkSpinner (min s) (max s) text (input_has_focus s))
             (picker w))
          (if String.eqb (input_value s) text then queue w
           else queue w ++ [InputChanged r text]).

Definition set_input_value (r : Role) (text : string) : M unit :=
  fun w => Return tt (write_input r text w).

(** The world after an assignment to [spinner.max] *)
Definition write_max (r : Role) (v : Z) (w : World) : World :=
  let s := spinner r (picker w) in
  mkWorld (with_spinner r (mkSpinner (min s) v (input_value s) (input_has_focus s))
             (picker w))
          (queue w).

Definition set_max (r : Role) (v : Z) : M unit :=
  fun w => Return tt (write_max r v w).

(** ** [NumberSpinner] *)

Module NumberSpinner.

(** The [value] property: [int(self.input.value)], and [self.min] when the
    text is not a number. *)
Definition value (s : NumberSpinner) : Z :=
  match Text.int (input_value s) with
  | Some n => n
  | None => min s
  end.

Definition number_valid (s : NumberSpinner) : bool :=
  (min s <=? value s) && (value s <=? max s).

(** [NumberSpinner.__init__(min_val, max_val, initial_value)].  A new
    [Input] does not have the focus. *)
Definition init (min_val max_val : Z) (initial_value : option Z) : NumberSpinner :=
  let value :=
    match initial_value with
    | Some v => v
    | None => min_val
    end in
  let self := mkSpinner min_val max_val (Text.str value) false in
  if negb (number_valid self)
  then mkSpinner min_val max_val (Text.str min_val) false
  else self.

Definition get_value (self : Role) : M Z :=
  s <- get_spinner self ;; ret (value s).

Definition set_value_no_msg (self : Role) (v : Z) : M unit :=
  set_input_value self (Text.str v).

(** The setter of [value] *)
Definition set_value (self : Role) (v : Z) : M unit :=
  set_input_value self (Text.str v) ;;
  n <- get_value self ;;
  post_message (NumberChanged self n).

(** [constrain_value]; the cursor of the [Input] is not part of the state *)
Definition constrain_value (self : Role) : M unit :=
  s <- get_spinner self ;;
  if Text.len (input_value s) =? 0 then ret tt
  else
    v <- get_value self ;;
    (if v >? max s then set_value_no_msg self (max s) else ret tt) ;;
    v <- get_value self ;;
    (if v <? min s then set_value_no_msg self (min s) else ret tt).

(** [_up_down_btn], the handler of the two buttons *)
Definition _up_down_btn (self : Role) (button : Direction) : M unit :=
  current_value <- get_value self ;;
  s <- get_spinner self ;;
  match button with
  | up =>
      let current_value := current_value + 1 in
      (if current_value <=? max s then set_value self current_value else ret tt) ;;
      post_message (ButtonSpin self up current_value)
  | down =>
      let current_value := current_value - 1 in
      (if current_value >=? min s then set_value self current_value else ret tt) ;;
      post_message (ButtonSpin self down current_value)
  end.

(** [_typed_anything], the handler of [Input.Changed]: [event_value] is the
    text the message carries, [event.input.value] the text the [Input]
    holds when the handler runs. *)
Definition _typed_anything (self : Role) (event_value : string) : M unit :=
  let result := Text.only_digits event_value in
  s <- get_spinner self ;;
  if negb (Text.len (input_value s) =? Text.len result)
  then set_input_value self result
  else
    (if negb (input_has_focus s) && number_valid s
     then constrain_value self else ret tt) ;;
    n <- get_value self ;;
    post_message (NumberChanged self n).

End NumberSpinner.

(** ** [BasicDatePicker] *)

Module BasicDatePicker.

Import NumberSpinner.

(** [BasicDatePicker.__init__]: [today] is [date.today()] *)
Definition init (today : DateTuple) (min_year : Z) (initial_value : option DateTuple)
  : BasicDatePicker :=
  let initial :=
    match initial_value with
    | Some v => v
    | None => today
    end in
  mkPicker (NumberSpinner.init 1 31 (Some (day initial)))
           (NumberSpinner.init 1 12 (Some (month initial)))
           (NumberSpinner.init min_year (year today + 1) (Some (year initial))).

(** The [highest_day] property *)
Definition highest_day : M Z :=
  m <- get_value Month ;;
  (if m >? 12 then set_value Month 12 else ret tt) ;;
  y <- get_value Year ;;
  m <- get_value Month ;;
  lift (Calendar.monthrange y m).

(** [_on_spin], the handler of [NumberSpinner.ButtonSpin].  The conditions
    of the [if]/[elif] chain are evaluated in order and from left to
    right, each [and] stopping at its first false operand. *)
Definition _on_spin (ev : Role) (direction : Direction) (transient_number : Z)
  : M unit :=
  spinner <- get_spinner ev ;;
  if Role_eqb ev Year then ret tt else
  y <- get_spinner Year ;;
  if Role_eqb ev Month && (transient_number >? max spinner)
     && (value y <=? max y)
  then
    v <- get_value Year ;; set_value Year (v + 1) ;;
    m <- get_spinner Month ;; set_value Month (min m)
  else
  december <-
    (if Role_eqb ev Day then
       m <- get_value Month ;;
       if m =? 12 then h <- highest_day ;; ret (transient_number =? h + 1)
       else ret false
     else ret false) ;;
  if december
  then
    set_value Month 1 ;;
    set_value Day 1 ;;
    v <- get_value Year ;; set_value Year (v + 1)
  else
  spinner <- get_spinner ev ;;
  y <- get_spinner Year ;;
  m <- get_spinner Month ;;
  if Role_eqb ev Month && (transient_number <? min spinner)
     && (value y >=? min y)
  then
    v <- get_value Year ;; set_value Year (v - 1) ;;
    m <- get_spinner Month ;; set_value Month (max m)
  else if Role_eqb ev Day && (transient_number >? max spinner)
          && (value m <=? max m)
  then
    v <- get_value Month ;; set_value Month (v + 1) ;;
    d <- get_spinner Day ;; set_value Day (min d)
  else if Role_eqb ev Day && (transient_number =? 0) && (value m =? 1)
  then
    (if negb (value y =? min y)
     then
       set_value Month 12 ;;
       v <- get_value Year ;; set_value Year (v - 1) ;;
       d <- get_spinner Day ;; set_value Day (max d)
     else
       set_value Month 1 ;;
       set_value Day 1)
  else if Role_eqb ev Day && (transient_number <? min spinner)
          && (value m >=? min m)
  then
    v <- get_value Month ;; set_value Month (v - 1) ;;
    d <- get_spinner Day ;; set_value Day (max d)
  else ret tt.

(** [_on_change], the first handler of [NumberSpinner.NumberChanged] *)
Definition _on_change (ev : Role) (number : Z) : M unit :=
  let date_part :=
    if Role_eqb ev Day then Day
    else if Role_eqb ev Month then Month
    else Year in
  post_message (Changed date_part number).

(** [validate], the handler of [NumberChanged] from the month and the year *)
Definition validate : M unit :=
  h <- highest_day ;;
  set_max Day h ;;
  constrain_value Day.

(** The getter of [date] *)
Definition date : M (option DateTuple) :=
  try_except_ValueError
    (y <- get_value Year ;;
     m <- get_value Month ;;
     d <- get_value Day ;;
     r <- lift (Date.new y m d) ;;
     ret (Some r))
    (ret None).

(** The setter of [date] *)
Definition set_date (v : DateTuple) : M unit :=
  set_value Day (day v) ;;
  set_value Month (month v) ;;
  set_value Year (year v).

End BasicDatePicker.

(** ** Message dispatch *)

(** The handlers of one message, in the order of their declaration.
    [Changed] leaves the picker for its owner. *)
Definition dispatch (m : Message) : M unit :=
  match m with
  | ButtonPressed r b => NumberSpinner._up_down_btn r b
  | InputChanged r v => NumberSpinner._typed_anything r v
  | ButtonSpin r d t => BasicDatePicker._on_spin r d t
  | NumberChanged r n =>
      BasicDatePicker._on_change r n ;;
      match r with
      | Day => ret tt
      | Month | Year => BasicDatePicker.validate
      end
  | Changed _ _ => ret tt
  end.

(** One step handles any one of the pending messages. *)
Inductive step : World -> World -> Prop :=
| step_dispatch p q1 m q2 w' :
    dispatch m (mkWorld p (q1 ++ q2)) = Return tt w' ->
    step (mkWorld p (q1 ++ m :: q2)) w'.

Inductive steps : World -> World -> Prop :=
| steps_refl w : steps w w
| steps_step w1 w2 w3 : step w1 w2 -> steps w2 w3 -> steps w1 w3.

(** No message is pending. *)
Definition settled (w : World) : Prop := queue w = [].

(** The pending messages handled first-in first-out, until none is left;
    [None] when the fuel runs out. *)
Fixpoint run (fuel : nat) (w : World) : option (Outcome unit) :=
  match queue w with
  | [] => Some (Return tt w)
  | m :: q =>
      match fuel with
      | O => None
      | S fuel' =>
          match dispatch m (mkWorld (picker w) q) with
          | Return _ w' => run fuel' w'
          | Raise e w' => Some (Raise e w')
          end
      end
  end.

(** A picker with nothing pending *)
Definition idle (p : BasicDatePicker) : World := mkWorld p [].

(** The user presses a button of spinner [r] of such a picker. *)
Definition press (r : Role) (b : Direction) (p : BasicDatePicker) : World :=
  mkWorld p [ButtonPressed r b].

(** A caller's action [c] on a picker with nothing pending, followed by the
    handling of all messages it caused. *)
Definition perform (c : M unit) (fuel : nat) (p : BasicDatePicker)
  : option (Outcome unit) :=
  match c (idle p) with
  | Return _ w => run fuel w
  | Raise e w => Some (Raise e w)
  end.

(** The three numbers a picker shows: year, month, day *)
Definition shown (p : BasicDatePicker) : Z * Z * Z :=
  (NumberSpinner.value (year_spinner p),
   NumberSpinner.value (month_spinner p),
   NumberSpinner.value (day_spinner p)).

(** The component of a date that the spinner of a role shows *)
Definition part (r : Role) (v : DateTuple) : Z :=
  match r with
  | Day => day v
  | Month => month v
  | Year => year v
  end.

(** The number of days of the month a picker shows *)
Definition ceiling (p : BasicDatePicker) : Z :=
  Calendar.days_in_month (NumberSpinner.value (year_spinner p))
    (NumberSpinner.value (month_spinner p)).

(** [min <= value <= max] *)
Definition in_bounds (s : NumberSpinner) : Prop :=
  min s <= NumberSpinner.value s <= max s.

(** Pickers for the examples: made on 2026-11-04 for the years from 2010,
    so that the year maximum is 2027, and showing the date given *)
Definition today : DateTuple := mkDate 2026 11 4.

Definition picker_at (y m d : Z) : BasicDatePicker :=
  BasicDatePicker.init today 2010 (Some (mkDate y m d)).

(** The world after the assignment [spinner.value = v] *)
Definition assign (r : Role) (v : Z) (w : World) : World :=
  post (NumberChanged r v) (write_input r (Text.str v) w).

(** ** The calendar in the words of the specification *)

Module Gregorian.

Definition divisible (n y : Z) : bool := y mod n =? 0.

(** A leap year is divisible by 4, except the centuries that are not
    divisible by 400. *)
Definition leap (y : Z) : bool :=
  divisible 4 y && negb (divisible 100 y && negb (divisible 400 y)).

(** 28, 29, 30 or 31 days, by the month and the leap year rule *)
Definition days_in_month (y m : Z) : Z :=
  if m =? 2 then (if leap y then 29 else 28)
  else if (m =? 4) || (m =? 6) || (m =? 9) || (m =? 11) then 30
  else 31.

End Gregorian.

(** ** Worlds at rest *)

(** A pending message is quiet when its handlers will not rewrite a text:
    it is no button message, and the digits of a pending [Input.Changed]
    are as many as the characters the [Input] holds. *)
Definition quiet (p : BasicDatePicker) (m : Message) : Prop :=
  match m with
  | ButtonPressed _ _ => False
  | ButtonSpin _ _ _ => False
  | InputChanged r t =>
      Text.len (input_value (spinner r p)) = Text.len (Text.only_digits t)
  | NumberChanged _ _ => True
  | Changed _ _ => True
  end.

(** A world is at rest when the month number is a month, the day number, if
    there is one, lies between the day minimum and the length of the month,
    and every pending message is quiet. *)
Definition at_rest (w : World) : Prop :=
  let p := picker w in
  1 <= NumberSpinner.value (month_spinner p) <= 12 /\
  (input_value (day_spinner p) = "" \/
   min (day_spinner p) <= NumberSpinner.value (day_spinner p)
   <= Calendar.days_in_month (NumberSpinner.value (year_spinner p))
        (NumberSpinner.value (month_spinner p))) /\
  Forall (quiet p) (queue w).

(** No [Input.Changed] of spinner [r] is pending. *)
Definition no_input_changed (r : Role) (q : list Message) : Prop :=
  forall t, ~ In (InputChanged r t) q.

(** How many more messages a pending message can cause, itself included *)
Definition weight (m : Message) : nat :=
  match m with
  | InputChanged _ _ => 3
  | NumberChanged _ _ => 2
  | _ => 1
  end.

Definition total_weight (q : list Message) : nat :=
  fold_right (fun m n => (weight m + n)%nat) O q.

(** ** Tactics for the handler monad *)

(** Unfolds the primitive computations. *)
Ltac unfold_m :=
  unfold NumberSpinner.set_value, NumberSpinner.set_value_no_msg,
    NumberSpinner.get_value, bind, ret, raise, lift, get_spinner,
    set_input_value, set_max, post_message in *;
  cbv beta in *.

(** Unfolds [_on_spin] down to its chain of conditions. *)
Ltac open_on_spin :=
  unfold BasicDatePicker._on_spin;
  unfold bind, get_spinner, ret, NumberSpinner.get_value;
  cbn [Role_eqb andb spinner]; unfold bind, get_spinner, ret; cbn [spinner].

(** ** Further notions for the properties of the handlers *)

(** [reassigned ok w w']: [w'] is [w] after assignments to the values of
    spinners whose roles [ok] admits. *)
Inductive reassigned (ok : Role -> bool) (w : World) : World -> Prop :=
| reassigned_refl : reassigned ok w w
| reassigned_assign r v w' :
    ok r = true -> reassigned ok w w' -> reassigned ok w (assign r v w').

(** The spinners a spin message of spinner [ev] can lead [_on_spin] to
    assign to *)
Definition may_assign (ev r : Role) : bool :=
  match ev with
  | Day => true
  | Month => negb (Role_eqb r Day)
  | Year => false
  end.

(** The number a button press makes of [v] *)
Definition spun (b : Direction) (v : Z) : Z :=
  match b with
  | up => v + 1
  | down => v - 1
  end.

(** ** Settling *)

(** A pending message that makes [validate] run: a [NumberChanged] of the
    month or the year, or an [Input.Changed] of theirs, whose handler posts
    one. *)
Definition is_sync (m : Message) : bool :=
  match m with
  | NumberChanged Month _ => true
  | NumberChanged Year _ => true
  | InputChanged Month _ => true
  | InputChanged Year _ => true
  | _ => false
  end.

Definition pending_sync (q : list Message) : bool := existsb is_sync q.

(** The picker with the day maximum renewed and the day number brought
    down to it: what [validate] makes of a picker whose month number is a
    month and whose day number is not below the day minimum. *)
Definition validated (p : BasicDatePicker) : BasicDatePicker :=
  let d := day_spinner p in
  mkPicker
    (mkSpinner (min d) (ceiling p)
       (if NumberSpinner.value d >? ceiling p then Text.str (ceiling p)
        else input_value d)
       (input_has_focus d))
    (month_spinner p) (year_spinner p).

(** A picker [validate] can work on without surprise: the month number is a
    month, the day text is there and its number is not below the day
    minimum, which is not above the length of the month; and a day number
    above that length is written with as many characters as the length. *)
Definition syncable (p : BasicDatePicker) : Prop :=
  1 <= NumberSpinner.value (month_spinner p) <= 12 /\
  input_value (day_spinner p) <> "" /\
  min (day_spinner p) <= NumberSpinner.value (day_spinner p) /\
  min (day_spinner p) <= ceiling p /\
  (ceiling p < NumberSpinner.value (day_spinner p) ->
   Text.len (Text.str (ceiling p)) = Text.len (input_value (day_spinner p))).

(** Pending messages whose handlers change the picker by [validate] only:
    no button press, no spin of the day, a spin of the month only within
    the month bounds, and [Input.Changed] with as many digits as the
    [Input] holds characters. *)
Definition mild (p : BasicDatePicker) (m : Message) : Prop :=
  match m with
  | ButtonPressed _ _ => False
  | ButtonSpin Day _ _ => False
  | ButtonSpin Month _ t => min (month_spinner p) <= t <= max (month_spinner p)
  | ButtonSpin Year _ _ => True
  | InputChanged r t =>
      Text.len (input_value (spinner r p)) = Text.len (Text.only_digits t)
  | NumberChanged _ _ => True
  | Changed _ _ => True
  end.

(** [calm p0 w]: the world [w] comes from the syncable picker [p0] with
    mild messages pending; its picker is still [p0], with [validate] yet to
    run, or it is [validated p0]. *)
Definition calm (p0 : BasicDatePicker) (w : World) : Prop :=
  syncable p0 /\
  Forall (mild p0) (queue w) /\
  ((picker w = p0 /\ pending_sync (queue w) = true) \/ picker w = validated p0).

(** Three more messages are to come when [validate] will rewrite the day. *)
Definition debt (p : BasicDatePicker) : nat :=
  if NumberSpinner.value (day_spinner p) >? ceiling p then 3%nat else 0%nat.

(** Pending messages whose handlers leave the picker [p] alone *)
Definition harmless (p : BasicDatePicker) (m : Message) : Prop :=
  match m with
  | ButtonPressed _ _ => False
  | ButtonSpin r d t =>
      forall q, BasicDatePicker._on_spin r d t (mkWorld p q) = Return tt (mkWorld p q)
  | InputChanged r t =>
      Text.len (input_value (spinner r p)) = Text.len (Text.only_digits t)
  | NumberChanged _ _ => True
  | Changed _ _ => True
  end.

(** [inert w]: nothing pending in [w] makes [validate] run or changes the
    picker otherwise. *)
Definition inert (w : World) : Prop :=
  pending_sync (queue w) = false /\ Forall (harmless (picker w)) (queue w).

(** [settles_at w P]: in whatever order the pending messages of [w] are
    handled, no handler raises: in every world reached from [w], the
    handlers of each pending message, whichever is taken next, return.
    When nothing is pending the picker satisfies [P]; and handled first-in
    first-out the messages do run out. *)
Definition settles_at (w : World) (P : BasicDatePicker -> Prop) : Prop :=
  (forall p q1 m q2,
     steps w (mkWorld p (q1 ++ m :: q2)) ->
     exists w'', dispatch m (mkWorld p (q1 ++ q2)) = Return tt w'') /\
  (forall w', steps w w' -> settled w' -> P (picker w')) /\
  (exists fuel w', run fuel w = Some (Return tt w') /\ settled w' /\ P (picker w')).

(** * Properties *)

(** ** Texts *)

Example str_ex : Text.str 0 = "0" /\ Text.str 2024 = "2024" /\ Text.str (-5) = "-5".
Proof. repeat split. Qed.

Example int_ex :
  Text.int "2024" = Some 2024 /\ Text.int "007" = Some 7 /\ Text.int "" = None /\
  Text.int "-5" = Some (-5) /\ Text.int " +1_000 " = Some 1000 /\
  Text.int "1__0" = None /\ Text.int "_1" = None /\ Text.int "1_" = None /\
  Text.int "-" = None /\ Text.int "1 2" = None /\ Text.int "- 5" = None /\
  Text.int "12a" = None /\ Text.int "   " = None.
Proof. repeat split. Qed.

Section TextFacts.

Import Text.

Lemma digit_plain c :
  is_digit c = true ->
  is_space c = false /\ Ascii.eqb c "_" = false /\
  Ascii.eqb c "-" = false /\ Ascii.eqb c "+" = false.
Proof.
  destruct c as [[|] [|] [|] [|] [|] [|] [|] [|]]; cbn; intros H;
    try discriminate H; repeat split.
Qed.

Lemma all_digits_uint d : all_digits (NilEmpty.string_of_uint d) = true.
Proof. induction d; cbn; auto. Qed.

Lemma lstrip_digits c s : is_digit c = true -> lstrip (String c s) = String c s.
Proof. intros H. cbn. now destruct (digit_plain c H) as [-> _]. Qed.

Lemma rstrip_digits s : all_digits s = true -> rstrip s = s.
Proof.
  induction s as [|c s IH]; cbn; [reflexivity|].
  intros H. apply andb_prop in H as [Hc Hs].
  rewrite (IH Hs). destruct s; [|reflexivity].
  now destruct (digit_plain c Hc) as [-> _].
Qed.

Lemma ungroup_digits s b : all_digits s = true -> ungroup b s = Some s.
Proof.
  revert b. induction s as [|c s IH]; cbn; [reflexivity|].
  intros b H. apply andb_prop in H as [Hc Hs].
  destruct (digit_plain c Hc) as (_ & -> & _).
  now rewrite (IH _ Hs).
Qed.

Lemma only_digits_digits s : all_digits s = true -> only_digits s = s.
Proof.
  induction s as [|c s IH]; cbn; [reflexivity|].
  intros H. apply andb_prop in H as [-> Hs]. now rewrite (IH Hs).
Qed.

Lemma uint_of_digits_uint d :
  d <> Nil ->
  uint_of_digits (NilEmpty.string_of_uint d) = Some (Z.of_uint d).
Proof.
  intros Hd. unfold uint_of_digits.
  rewrite ungroup_digits by apply all_digits_uint.
  replace (NilEmpty.string_of_uint d) with (NilZero.string_of_uint d)
    by now destruct d.
  now rewrite NilZero.usu.
Qed.

Lemma string_of_uint_cons d :
  d <> Nil ->
  exists c s, NilEmpty.string_of_uint d = String c s /\ is_digit c = true.
Proof. destruct d; intros H; try congruence; cbn; eauto. Qed.

Lemma to_uint_nonnil p : Pos.to_uint p <> Nil.
Proof.
  intros H. pose proof (DecimalPos.Unsigned.of_to p) as E.
  rewrite H in E. discriminate E.
Qed.

(** The text [str] writes for a positive number *)
Lemma str_pos p : str (Z.pos p) = NilEmpty.string_of_uint (Pos.to_uint p).
Proof.
  unfold str. cbn. pose proof (to_uint_nonnil p).
  now destruct (Pos.to_uint p).
Qed.

Lemma str_neg p :
  str (Z.neg p) = String "-" (NilEmpty.string_of_uint (Pos.to_uint p)).
Proof.
  unfold str. cbn. pose proof (to_uint_nonnil p).
  now destruct (Pos.to_uint p).
Qed.

(** [int(str(n)) == n] *)
Lemma int_str n : int (str n) = Some n.
Proof.
  destruct n as [|p|p].
  - reflexivity.
  - rewrite str_pos.
    destruct (string_of_uint_cons _ (to_uint_nonnil p)) as (c & s & E & Hc).
    pose proof (all_digits_uint (Pos.to_uint p)) as Hall.
    unfold int, strip. rewrite E, (lstrip_digits _ _ Hc).
    rewrite <- E, (rstrip_digits _ Hall), E.
    destruct (digit_plain c Hc) as (_ & _ & -> & ->).
    rewrite <- E, uint_of_digits_uint by apply to_uint_nonnil.
    f_equal. exact (DecimalZ.of_to (Z.pos p)).
  - rewrite str_neg.
    pose proof (all_digits_uint (Pos.to_uint p)) as Hall.
    unfold int, strip.
    change (lstrip (String "-" ?s)) with (String "-" s).
    assert (R : rstrip (String "-" (NilEmpty.string_of_uint (Pos.to_uint p)))
                = String "-" (NilEmpty.string_of_uint (Pos.to_uint p))).
    { cbn [rstrip]. rewrite (rstrip_digits _ Hall).
      destruct (string_of_uint_cons _ (to_uint_nonnil p)) as (c & s & -> & _).
      reflexivity. }
    rewrite R. cbn [Ascii.eqb Bool.eqb].
    rewrite uint_of_digits_uint by apply to_uint_nonnil.
    cbn [option_map]. f_equal. exact (DecimalZ.of_to (Z.neg p)).
Qed.

Lemma str_nonempty n : (len (str n) =? 0) = false.
Proof.
  pose proof (int_str n) as H. destruct (str n); [discriminate H|].
  apply Z.eqb_neq. unfold len. cbn [String.length]. lia.
Qed.

(** The text of a number that is not negative consists of digits. *)
Lemma only_digits_str n : 0 <= n -> only_digits (str n) = str n.
Proof.
  destruct n as [|p|p]; intros H; [reflexivity| |lia].
  rewrite str_pos. apply only_digits_digits, all_digits_uint.
Qed.

End TextFacts.

(** ** Reading and writing spinners *)

Lemma spinner_with_spinner r s p : spinner r (with_spinner r s p) = s.
Proof. now destruct r. Qed.

Lemma spinner_with_spinner_other r r' s p :
  r <> r' -> spinner r' (with_spinner r s p) = spinner r' p.
Proof. destruct r, r'; intros H; try reflexivity; now destruct H. Qed.

Lemma with_spinner_same r p : with_spinner r (spinner r p) p = p.
Proof. now destruct r, p. Qed.

Lemma value_str lo hi n f :
  NumberSpinner.value (mkSpinner lo hi (Text.str n) f) = n.
Proof. unfold NumberSpinner.value. cbn. now rewrite int_str. Qed.

Lemma spinner_eta s :
  mkSpinner (min s) (max s) (input_value s) (input_has_focus s) = s.
Proof. now destruct s. Qed.

Lemma write_input_spinner r t w :
  spinner r (picker (write_input r t w))
  = mkSpinner (min (spinner r (picker w))) (max (spinner r (picker w))) t
      (input_has_focus (spinner r (picker w))).
Proof. unfold write_input. cbn. apply spinner_with_spinner. Qed.

Lemma write_input_other r r' t w :
  r <> r' -> spinner r' (picker (write_input r t w)) = spinner r' (picker w).
Proof. intros H. unfold write_input. cbn. now apply spinner_with_spinner_other. Qed.

Lemma write_input_twice r t1 t2 w :
  picker (write_input r t2 (write_input r t1 w)) = picker (write_input r t2 w).
Proof. unfold write_input. cbn. rewrite spinner_with_spinner. now destruct r. Qed.

Lemma post_picker m w : picker (post m w) = picker w.
Proof. reflexivity. Qed.

(** The three ways [constrain_value] ends: the world is left as it is, or
    the text becomes that of the upper or of the lower bound. *)
Lemma constrain_value_result r w :
  let s := spinner r (picker w) in
  let v := NumberSpinner.value s in
  (NumberSpinner.constrain_value r w = Return tt w /\
   (input_value s = "" \/ min s <= v <= max s))
  \/ (NumberSpinner.constrain_value r w = Return tt (write_input r (Text.str (max s)) w) /\
      input_value s <> "" /\ v > max s /\ min s <= max s)
  \/ (exists w', NumberSpinner.constrain_value r w = Return tt w' /\
      picker w' = picker (write_input r (Text.str (min s)) w) /\
      input_value s <> "" /\ (v < min s \/ max s < min s)).
Proof.
  cbv zeta. unfold NumberSpinner.constrain_value. unfold_m.
  destruct (input_value (spinner r (picker w))) as [|c0 t0] eqn:Et.
  { left. cbn. split; [reflexivity | now left]. }
  rewrite <- Et.
  assert (Hne : input_value (spinner r (picker w)) <> "")
    by (rewrite Et; discriminate).
  replace (Text.len (input_value (spinner r (picker w))) =? 0) with false
    by (rewrite Et; symmetry; apply Z.eqb_neq; unfold Text.len; cbn; lia).
  cbv beta iota.
  set (s := spinner r (picker w)) in *. set (v := NumberSpinner.value s).
  destruct (Z.gtb_spec v (max s)) as [Hgt|Hle].
  - rewrite write_input_spinner, value_str.
    destruct (Z.ltb_spec (max s) (min s)) as [Hlt|Hge].
    + right; right. eexists. split; [reflexivity|].
      split; [apply write_input_twice|]. split; [exact Hne | now right].
    + right; left. repeat split; try assumption; lia.
  - fold s. fold v. destruct (Z.ltb_spec v (min s)) as [Hlt|Hge].
    + right; right. eexists. split; [reflexivity|].
      split; [reflexivity|]. split; [exact Hne | now left].
    + left. split; [reflexivity | right; lia].
Qed.

Lemma get_value_eq r w :
  NumberSpinner.get_value r w = Return (NumberSpinner.value (spinner r (picker w))) w.
Proof. reflexivity. Qed.

Lemma set_value_eq r v w : NumberSpinner.set_value r v w = Return tt (assign r v w).
Proof.
  unfold NumberSpinner.set_value, assign. unfold_m.
  now rewrite write_input_spinner, value_str.
Qed.

Lemma assign_spinner r v w :
  spinner r (picker (assign r v w))
  = mkSpinner (min (spinner r (picker w))) (max (spinner r (picker w)))
      (Text.str v) (input_has_focus (spinner r (picker w))).
Proof. unfold assign. rewrite post_picker. apply write_input_spinner. Qed.

Lemma assign_other r r' v w :
  r <> r' -> spinner r' (picker (assign r v w)) = spinner r' (picker w).
Proof. intros H. unfold assign. rewrite post_picker. now apply write_input_other. Qed.

Lemma assign_value r v w :
  NumberSpinner.value (spinner r (picker (assign r v w))) = v.
Proof. rewrite assign_spinner. apply value_str. Qed.

Lemma bind_Return {A B} (c : M A) (k : A -> M B) w a w' :
  c w = Return a w' -> bind c k w = k a w'.
Proof. unfold bind. now intros ->. Qed.

Lemma monthrange_ok y m :
  1 <= m <= 12 -> Calendar.monthrange y m = inr (Calendar.days_in_month y m).
Proof.
  intros H. unfold Calendar.monthrange.
  now replace ((1 <=? m) && (m <=? 12)) with true
    by (symmetry; apply andb_true_intro; split; apply Z.leb_le; lia).
Qed.

(** [highest_day] for a month number within 1..12 is a plain read. *)
Lemma highest_day_plain w :
  1 <= NumberSpinner.value (spinner Month (picker w)) <= 12 ->
  BasicDatePicker.highest_day w
  = Return (Calendar.days_in_month
              (NumberSpinner.value (spinner Year (picker w)))
              (NumberSpinner.value (spinner Month (picker w)))) w.
Proof.
  intros H. unfold BasicDatePicker.highest_day.
  rewrite (bind_Return _ _ _ _ _ (get_value_eq Month w)).
  destruct (Z.gtb_spec (NumberSpinner.value (spinner Month (picker w))) 12);
    [lia|].
  unfold bind at 1, ret at 1.
  rewrite (bind_Return _ _ _ _ _ (get_value_eq Year w)).
  rewrite (bind_Return _ _ _ _ _ (get_value_eq Month w)).
  now rewrite monthrange_ok.
Qed.

(** [highest_day] for a month number above 12 writes 12 into the month. *)
Lemma highest_day_above w :
  NumberSpinner.value (spinner Month (picker w)) > 12 ->
  BasicDatePicker.highest_day w
  = Return (Calendar.days_in_month
              (NumberSpinner.value (spinner Year (picker w))) 12)
      (assign Month 12 w).
Proof.
  intros H. unfold BasicDatePicker.highest_day.
  rewrite (bind_Return _ _ _ _ _ (get_value_eq Month w)).
  destruct (Z.gtb_spec (NumberSpinner.value (spinner Month (picker w))) 12);
    [|lia].
  rewrite (bind_Return _ _ _ _ _ (set_value_eq Month 12 w)).
  rewrite (bind_Return _ _ _ _ _ (get_value_eq Year _)).
  rewrite (bind_Return _ _ _ _ _ (get_value_eq Month _)).
  rewrite assign_value, assign_other by discriminate.
  now rewrite monthrange_ok by lia.
Qed.

(** [highest_day] for a month number below 1 raises, as [monthrange] does. *)
Lemma highest_day_below w :
  NumberSpinner.value (spinner Month (picker w)) < 1 ->
  BasicDatePicker.highest_day w
  = Raise (IllegalMonthError (NumberSpinner.value (spinner Month (picker w)))) w.
Proof.
  intros H. unfold BasicDatePicker.highest_day.
  rewrite (bind_Return _ _ _ _ _ (get_value_eq Month w)).
  destruct (Z.gtb_spec (NumberSpinner.value (spinner Month (picker w))) 12);
    [lia|].
  unfold bind at 1, ret at 1.
  rewrite (bind_Return _ _ _ _ _ (get_value_eq Year w)).
  rewrite (bind_Return _ _ _ _ _ (get_value_eq Month w)).
  unfold Calendar.monthrange.
  now replace (1 <=? _) with false by (symmetry; apply Z.leb_gt; lia).
Qed.

(** What the getter of [date] gives *)
Lemma date_result w :
  BasicDatePicker.date w
  = let '(y, m, d) := shown (picker w) in
    if Date.c_int y && Date.c_int m && Date.c_int d
    then Return (if Date.is_valid y m d then Some (mkDate y m d) else None) w
    else Raise OverflowError w.
Proof.
  unfold BasicDatePicker.date, try_except_ValueError, shown.
  rewrite (bind_Return _ _ _ _ _ (get_value_eq Year w)).
  rewrite (bind_Return _ _ _ _ _ (get_value_eq Month w)).
  rewrite (bind_Return _ _ _ _ _ (get_value_eq Day w)).
  unfold Date.new. cbn [spinner].
  destruct (Date.c_int _ && Date.c_int _ && Date.c_int _); [|reflexivity].
  cbn [negb]. destruct (Date.is_valid _ _ _); reflexivity.
Qed.

(** ** [NumberSpinner]: construction and clamping *)

(** C7 (as amended): the constructor keeps an initial value that lies within
    [min_val, max_val], and replaces every other initial value, above
    [max_val] as well as below [min_val], by [min_val]; without an initial
    value the spinner starts at [min_val]. *)
Theorem init_keeps_or_resets (min_val max_val : Z) (initial_value : option Z) :
  let s := NumberSpinner.init min_val max_val initial_value in
  min s = min_val /\ max s = max_val /\
  NumberSpinner.value s
  = match initial_value with
    | Some v => if (min_val <=? v) && (v <=? max_val) then v else min_val
    | None => min_val
    end /\
  input_value s = Text.str (NumberSpinner.value s).
Proof.
  cbv zeta. unfold NumberSpinner.init, NumberSpinner.number_valid.
  rewrite value_str. cbn [min max input_value].
  destruct initial_value as [v|].
  - destruct ((min_val <=? v) && (v <=? max_val));
      cbn [negb min max input_value]; rewrite value_str; repeat split.
  - destruct ((min_val <=? min_val) && (min_val <=? max_val));
      cbn [negb min max input_value]; rewrite value_str; repeat split.
Qed.

(** C7, the claim as stated fails: an initial value above the maximum is
    not stored as the maximum.  [NumberSpinner(1, 31, 40)] holds 1. *)
Lemma init_above_max_is_not_max :
  1 <= 31 /\ 40 > 31 /\
  NumberSpinner.value (NumberSpinner.init 1 31 (Some 40)) = 1 /\
  NumberSpinner.value (NumberSpinner.init 1 31 (Some 40)) <> 31.
Proof. repeat split; try lia; discriminate. Qed.

(** C8: for a spinner with [min <= max], [constrain_value] returns; it
    leaves the bounds and the other spinners alone; on an empty text it
    changes nothing; on a non-empty text the value ends within
    [min, max], at [max] when it was above, at [min] when it was below,
    and unchanged when it was within; and running it a second time changes
    nothing any more. *)
Theorem constrain_value_clamps (r : Role) (w : World)
  (Hmm : min (spinner r (picker w)) <= max (spinner r (picker w))) :
  exists w',
    NumberSpinner.constrain_value r w = Return tt w' /\
    min (spinner r (picker w')) = min (spinner r (picker w)) /\
    max (spinner r (picker w')) = max (spinner r (picker w)) /\
    (forall r', r <> r' -> spinner r' (picker w') = spinner r' (picker w)) /\
    (input_value (spinner r (picker w)) = "" -> w' = w) /\
    (input_value (spinner r (picker w)) <> "" ->
     in_bounds (spinner r (picker w')) /\
     (NumberSpinner.value (spinner r (picker w)) > max (spinner r (picker w)) ->
      NumberSpinner.value (spinner r (picker w')) = max (spinner r (picker w))) /\
     (NumberSpinner.value (spinner r (picker w)) < min (spinner r (picker w)) ->
      NumberSpinner.value (spinner r (picker w')) = min (spinner r (picker w))) /\
     (in_bounds (spinner r (picker w)) -> w' = w)) /\
    NumberSpinner.constrain_value r w' = Return tt w'.
Proof.
  unfold in_bounds.
  destruct (constrain_value_result r w) as [[E H]|[(E & Hne & Hv & _)|(w' & E & Ep & Hne & Hv)]].
  - exists w. repeat split; try assumption; try reflexivity;
      try (destruct H as [H|H]; [congruence | lia]).
  - exists (write_input r (Text.str (max (spinner r (picker w)))) w).
    split; [exact E|]. rewrite write_input_spinner. cbn [min max].
    rewrite value_str. repeat split; try lia; try congruence.
    + intros r' Hr. now apply write_input_other.
    + destruct (constrain_value_result r
                  (write_input r (Text.str (max (spinner r (picker w)))) w))
        as [[E' _]|[(_ & _ & Hv' & _)|(w'' & _ & _ & _ & Hv')]];
        [exact E' | exfalso | exfalso];
        rewrite write_input_spinner in Hv'; cbn [min max] in Hv';
        rewrite value_str in Hv'; lia.
  - exists w'. split; [exact E|]. rewrite Ep, write_input_spinner. cbn [min max].
    rewrite value_str. repeat split; try lia; try congruence.
    + intros r' Hr. now apply write_input_other.
    + destruct (constrain_value_result r w')
        as [[E' _]|[(_ & _ & Hv' & _)|(w'' & _ & _ & _ & Hv')]];
        [exact E' | exfalso | exfalso];
        rewrite Ep, write_input_spinner in Hv'; cbn [min max] in Hv';
        rewrite value_str in Hv'; lia.
Qed.

(** C8 at work: a day spinner that reads 40 is brought back to 31. *)
Lemma constrain_value_clamps_witness :
  let w := idle (mkPicker (mkSpinner 1 31 "40" false)
                          (mkSpinner 1 12 "1" false)
                          (mkSpinner 2010 2027 "2024" false)) in
  min (spinner Day (picker w)) <= max (spinner Day (picker w)) /\
  exists w',
    NumberSpinner.constrain_value Day w = Return tt w' /\
    NumberSpinner.value (spinner Day (picker w')) = 31.
Proof.
  cbv zeta. split; [cbn; lia|].
  destruct (constrain_value_clamps Day
              (idle (mkPicker (mkSpinner 1 31 "40" false)
                              (mkSpinner 1 12 "1" false)
                              (mkSpinner 2010 2027 "2024" false))))
    as (w' & E & _ & _ & _ & _ & H & _); [cbn; lia|].
  exists w'. split; [exact E|].
  destruct H as (_ & H & _); [discriminate|]. apply H. reflexivity.
Defined.

(** ** [BasicDatePicker]: the accessors *)

(** C9, the code at a year that does not fit a C [int]: the year text is
    2147483648, typed into the year's [Input] or assigned to it.  Whatever
    the day and the month spinners hold, [date(...)] raises
    [OverflowError], which [except ValueError] does not catch: the getter
    of [date] raises.  One less, and it gives [None]. *)
Theorem date_raises_overflow_error
  (d m : NumberSpinner) (focus : bool) (q : list Message) :
  let w := mkWorld (mkPicker d m (mkSpinner 2010 2027 "2147483648" focus)) q in
  BasicDatePicker.date w = Raise OverflowError w /\
  BasicDatePicker.date
    (idle (mkPicker (mkSpinner 1 31 "1" false) (mkSpinner 1 12 "1" false)
             (mkSpinner 2010 2027 "2147483647" focus)))
  = Return None
      (idle (mkPicker (mkSpinner 1 31 "1" false) (mkSpinner 1 12 "1" false)
               (mkSpinner 2010 2027 "2147483647" focus))).
Proof.
  cbv zeta. split.
  - rewrite date_result. unfold shown. cbn [picker year_spinner].
    change (NumberSpinner.value (mkSpinner 2010 2027 "2147483648" focus))
      with 2147483648.
    reflexivity.
  - rewrite date_result. reflexivity.
Qed.

(** The 31st of February is no date: the getter gives [None]. *)
Example date_of_feb_31 :
  BasicDatePicker.date
    (idle (mkPicker (mkSpinner 1 31 "31" false) (mkSpinner 1 12 "2" false)
             (mkSpinner 2010 2027 "2024" false)))
  = Return None
      (idle (mkPicker (mkSpinner 1 31 "31" false) (mkSpinner 1 12 "2" false)
               (mkSpinner 2010 2027 "2024" false))).
Proof. reflexivity. Qed.

(** C10: reading [highest_day] while the month spinner holds a number above
    12 writes 12 into the month spinner (the picker is not the same
    afterwards) and gives the number of days of December; the bounds and
    focus of the month spinner, and the day and year spinners, are as
    before. *)
Theorem highest_day_writes_month (w : World)
  (Hm : NumberSpinner.value (month_spinner (picker w)) > 12) :
  exists w',
    BasicDatePicker.highest_day w
    = Return (Calendar.days_in_month
                (NumberSpinner.value (year_spinner (picker w))) 12) w' /\
    input_value (month_spinner (picker w')) = "12" /\
    NumberSpinner.value (month_spinner (picker w')) = 12 /\
    picker w' <> picker w /\
    min (month_spinner (picker w')) = min (month_spinner (picker w)) /\
    max (month_spinner (picker w')) = max (month_spinner (picker w)) /\
    input_has_focus (month_spinner (picker w'))
    = input_has_focus (month_spinner (picker w)) /\
    day_spinner (picker w') = day_spinner (picker w) /\
    year_spinner (picker w') = year_spinner (picker w).
Proof.
  exists (assign Month 12 w). split; [now apply highest_day_above|].
  repeat split.
  intros E. apply (f_equal (fun p => NumberSpinner.value (month_spinner p))) in E.
  cbn in E. rewrite <- E in Hm. vm_compute in Hm. discriminate Hm.
Qed.

(** C10 at work: a month spinner that shows 13 shows 12 after the read. *)
Lemma highest_day_writes_month_witness :
  let w := idle (mkPicker (mkSpinner 1 31 "1" false) (mkSpinner 1 12 "13" false)
                   (mkSpinner 2010 2027 "2024" false)) in
  NumberSpinner.value (month_spinner (picker w)) > 12 /\
  exists w',
    BasicDatePicker.highest_day w = Return 31 w' /\
    NumberSpinner.value (month_spinner (picker w')) = 12.
Proof.
  cbv zeta. split; [reflexivity|].
  destruct (highest_day_writes_month
              (idle (mkPicker (mkSpinner 1 31 "1" false) (mkSpinner 1 12 "13" false)
                       (mkSpinner 2010 2027 "2024" false))))
    as (w' & E & _ & H & _); [reflexivity|].
  exists w'. split; [exact E | exact H].
Defined.

(** When the month number is at most 12 the read changes nothing. *)
Lemma highest_day_pure w n w' :
  NumberSpinner.value (month_spinner (picker w)) <= 12 ->
  BasicDatePicker.highest_day w = Return n w' -> w' = w.
Proof.
  intros H E.
  destruct (Z_lt_le_dec (NumberSpinner.value (spinner Month (picker w))) 1) as [L|L].
  - rewrite highest_day_below in E by exact L. discriminate E.
  - rewrite highest_day_plain in E by (cbn [spinner] in *; lia). now injection E.
Qed.

(** ** Worlds at rest stay as they are *)

Lemma write_max_shown r h w : shown (picker (write_max r h w)) = shown (picker w).
Proof. destruct r; reflexivity. Qed.

Lemma write_max_day w h :
  day_spinner (picker (write_max Day h w))
  = mkSpinner (min (day_spinner (picker w))) h (input_value (day_spinner (picker w)))
      (input_has_focus (day_spinner (picker w))).
Proof. reflexivity. Qed.

Lemma value_max_irrelevant lo hi hi' t f :
  NumberSpinner.value (mkSpinner lo hi t f) = NumberSpinner.value (mkSpinner lo hi' t f).
Proof. reflexivity. Qed.

Lemma quiet_write_max h w m :
  quiet (picker w) m -> quiet (picker (write_max Day h w)) m.
Proof. destruct m as [| r t | | |]; cbn; auto. destruct r; auto. Qed.

(** [constrain_value] changes nothing when the number is within bounds. *)
Lemma constrain_value_in_bounds r w :
  in_bounds (spinner r (picker w)) ->
  NumberSpinner.constrain_value r w = Return tt w.
Proof.
  unfold in_bounds. intros H.
  destruct (constrain_value_result r w)
    as [[E _]|[(_ & _ & Hv & _)|(w' & _ & _ & _ & Hv)]];
    [exact E | lia | lia].
Qed.

Lemma constrain_value_empty r w :
  input_value (spinner r (picker w)) = "" ->
  NumberSpinner.constrain_value r w = Return tt w.
Proof.
  intros H.
  destruct (constrain_value_result r w)
    as [[E _]|[(_ & Hne & _)|(w' & _ & _ & Hne & _)]];
    [exact E | congruence | congruence].
Qed.

(** [validate] in a world at rest only renews the day maximum. *)
Lemma validate_at_rest w :
  at_rest w ->
  BasicDatePicker.validate w
  = Return tt (write_max Day (ceiling (picker w)) w).
Proof.
  intros (Hm & Hd & _). unfold BasicDatePicker.validate, ceiling.
  rewrite (bind_Return _ _ _ _ _ (highest_day_plain w Hm)).
  unfold bind at 1, set_max at 1. cbn [spinner].
  destruct Hd as [Hd|Hd].
  - now apply constrain_value_empty.
  - apply constrain_value_in_bounds. unfold in_bounds. cbn [spinner].
    rewrite write_max_day. cbn [min max].
    rewrite (value_max_irrelevant _ _ (max (day_spinner (picker w)))), spinner_eta.
    exact Hd.
Qed.

(** [_typed_anything] for a quiet [Input.Changed] only posts [NumberChanged]. *)
Lemma typed_anything_quiet r t w :
  quiet (picker w) (InputChanged r t) ->
  NumberSpinner._typed_anything r t w
  = Return tt (post (NumberChanged r (NumberSpinner.value (spinner r (picker w)))) w).
Proof.
  cbn [quiet]. intros Hq. unfold NumberSpinner._typed_anything.
  unfold bind at 1, get_spinner at 1. rewrite Hq, Z.eqb_refl. cbn [negb].
  assert (E : (if negb (input_has_focus (spinner r (picker w)))
                   && NumberSpinner.number_valid (spinner r (picker w))
               then NumberSpinner.constrain_value r else ret tt) w = Return tt w).
  { destruct (negb _); [|reflexivity]. cbn [andb].
    destruct (NumberSpinner.number_valid _) eqn:V; [|reflexivity].
    apply constrain_value_in_bounds. unfold in_bounds.
    unfold NumberSpinner.number_valid in V. apply andb_prop in V as [V1 V2].
    apply Z.leb_le in V1, V2. lia. }
  rewrite (bind_Return _ _ _ _ _ E).
  now rewrite (bind_Return _ _ _ _ _ (get_value_eq r w)).
Qed.

Lemma Forall_quiet_remove p q1 m q2 :
  Forall (quiet p) (q1 ++ m :: q2) -> quiet p m /\ Forall (quiet p) (q1 ++ q2).
Proof.
  intros H. apply Forall_app in H as [H1 H2]. inversion H2; subst.
  split; [assumption|]. apply Forall_app. now split.
Qed.

Lemma total_weight_app q1 q2 :
  total_weight (q1 ++ q2) = (total_weight q1 + total_weight q2)%nat.
Proof.
  unfold total_weight. induction q1 as [|m q1 IH]; simpl;
    [reflexivity|]. rewrite IH. lia.
Qed.

Lemma total_weight_cons m q :
  total_weight (m :: q) = (weight m + total_weight q)%nat.
Proof. reflexivity. Qed.

Lemma write_max_same_picker p :
  picker (write_max Day (max (day_spinner p)) (idle p)) = p.
Proof. destruct p as [[] ? ?]. reflexivity. Qed.

Lemma at_rest_write_max p q h q' :
  at_rest (mkWorld p q) -> Forall (quiet p) q' ->
  at_rest (mkWorld (picker (write_max Day h (idle p))) q').
Proof.
  intros (Hm & Hd & _) Hq. refine (conj Hm (conj Hd _)).
  cbn [queue]. eapply Forall_impl; [|exact Hq].
  intros m. apply (quiet_write_max h (idle p)).
Qed.

(** Handling a pending message of a world at rest leaves a world at rest
    with less to do; the picker is the one before, up to the day maximum. *)
Lemma at_rest_dispatch p q1 m q2 :
  at_rest (mkWorld p (q1 ++ m :: q2)) ->
  exists h q,
    dispatch m (mkWorld p (q1 ++ q2))
    = Return tt (mkWorld (picker (write_max Day h (idle p))) q) /\
    at_rest (mkWorld (picker (write_max Day h (idle p))) q) /\
    (total_weight q < total_weight (q1 ++ m :: q2))%nat /\
    (h = max (day_spinner p) \/ h = ceiling p).
Proof.
  intros R. pose proof R as (Hm & Hd & Hq). cbn [picker queue] in *.
  apply Forall_quiet_remove in Hq as [Hqm Hq].
  assert (R' : at_rest (mkWorld p (q1 ++ q2))) by exact (conj Hm (conj Hd Hq)).
  assert (W : forall x, (total_weight ((q1 ++ q2) ++ [x]) + weight m
                         = total_weight (q1 ++ m :: q2) + weight x)%nat).
  { intros x. rewrite !total_weight_app, !total_weight_cons.
    change (total_weight []) with O. lia. }
  destruct m as [r b | r t | r d t | r n | r n]; cbn [quiet] in Hqm; try contradiction.
  - (* Input.Changed *)
    exists (max (day_spinner p)),
      ((q1 ++ q2) ++ [NumberChanged r (NumberSpinner.value (spinner r p))])%list.
    rewrite write_max_same_picker. split; [|split; [|split; [|now left]]].
    + cbn [dispatch]. now rewrite typed_anything_quiet.
    + refine (conj Hm (conj Hd _)). cbn [queue picker].
      apply Forall_app. split; [assumption|]. now repeat constructor.
    + specialize (W (NumberChanged r (NumberSpinner.value (spinner r p)))). cbn in W. lia.
  - (* NumberChanged *)
    assert (Rp : at_rest (post (Changed r n) (mkWorld p (q1 ++ q2)))).
    { refine (conj Hm (conj Hd _)). cbn [queue picker post].
      apply Forall_app. split; [assumption|]. now repeat constructor. }
    assert (Wc : (total_weight ((q1 ++ q2) ++ [Changed r n])
                  < total_weight (q1 ++ NumberChanged r n :: q2))%nat).
    { specialize (W (Changed r n)). cbn in W. lia. }
    destruct r.
    + exists (max (day_spinner p)), ((q1 ++ q2) ++ [Changed Day n])%list.
      rewrite write_max_same_picker.
      split; [reflexivity|]. split; [assumption|]. split; [assumption | now left].
    + exists (ceiling p), ((q1 ++ q2) ++ [Changed Month n])%list.
      split; [|split; [|split; [|now right]]].
      * cbn [dispatch]. unfold BasicDatePicker._on_change. cbn [Role_eqb].
        unfold bind, post_message. rewrite (validate_at_rest _ Rp). reflexivity.
      * apply (at_rest_write_max p (q1 ++ q2)%list); [assumption | apply Rp].
      * exact Wc.
    + exists (ceiling p), ((q1 ++ q2) ++ [Changed Year n])%list.
      split; [|split; [|split; [|now right]]].
      * cbn [dispatch]. unfold BasicDatePicker._on_change. cbn [Role_eqb].
        unfold bind, post_message. rewrite (validate_at_rest _ Rp). reflexivity.
      * apply (at_rest_write_max p (q1 ++ q2)%list); [assumption | apply Rp].
      * exact Wc.
  - (* Changed *)
    exists (max (day_spinner p)), (q1 ++ q2)%list.
    rewrite write_max_same_picker.
    split; [reflexivity|]. split; [assumption|]. split; [|now left].
    rewrite !total_weight_app, total_weight_cons. cbn [weight]. lia.
Qed.

Lemma at_rest_step w w' :
  at_rest w -> step w w' ->
  at_rest w' /\ (total_weight (queue w') < total_weight (queue w))%nat /\
  exists h, picker w' = picker (write_max Day h (idle (picker w))) /\
            (h = max (day_spinner (picker w)) \/ h = ceiling (picker w)).
Proof.
  intros R S. destruct S as [p q1 m q2 w' E].
  destruct (at_rest_dispatch p q1 m q2 R) as (h & q & E' & R' & W & Hh).
  rewrite E' in E. injection E as <-. cbn [queue picker].
  split; [exact R'|]. split; [exact W|]. now exists h.
Qed.

(** However the pending messages of a world at rest are handled, the world
    stays at rest and the picker is the one before, up to the day maximum,
    which is the one before or the number of days of the month shown. *)
Lemma at_rest_steps w w' :
  at_rest w -> steps w w' ->
  at_rest w' /\
  exists h, picker w' = picker (write_max Day h (idle (picker w))) /\
            (h = max (day_spinner (picker w)) \/ h = ceiling (picker w)).
Proof.
  intros R S. induction S as [w|w1 w2 w3 S12 S23 IH].
  - split; [exact R|]. exists (max (day_spinner (picker w))).
    rewrite write_max_same_picker. split; [reflexivity | now left].
  - destruct (at_rest_step _ _ R S12) as (R2 & _ & h2 & E2 & H2).
    destruct (IH R2) as (R3 & h3 & E3 & H3).
    split; [exact R3|]. exists h3. rewrite E3, E2. split; [reflexivity|].
    rewrite E2 in H3.
    change (max (day_spinner (picker (write_max Day h2 (idle (picker w1))))))
      with h2 in H3.
    change (ceiling (picker (write_max Day h2 (idle (picker w1)))))
      with (ceiling (picker w1)) in H3.
    destruct H3 as [-> | ->]; [exact H2 | now right].
Qed.

Lemma at_rest_steps_shown w w' :
  at_rest w -> steps w w' -> shown (picker w') = shown (picker w).
Proof.
  intros R S. destruct (at_rest_steps _ _ R S) as (_ & h & -> & _).
  apply (write_max_shown Day h (idle (picker w))).
Qed.

(** A step is possible as long as a message is pending. *)
Lemma at_rest_progress w :
  at_rest w -> queue w <> [] -> exists w', step w w'.
Proof.
  intros R Hq. destruct w as [p [|m q]]; [now destruct Hq|].
  destruct (at_rest_dispatch p [] m q R) as (h & q' & E & _).
  eexists. apply (step_dispatch p [] m q). exact E.
Qed.


(** ** The setter of [date] *)

Lemma set_date_eq v w :
  BasicDatePicker.set_date v w
  = Return tt (assign Year (year v) (assign Month (month v) (assign Day (day v) w))).
Proof.
  unfold BasicDatePicker.set_date.
  rewrite (bind_Return _ _ _ _ _ (set_value_eq Day _ w)).
  rewrite (bind_Return _ _ _ _ _ (set_value_eq Month _ _)).
  apply set_value_eq.
Qed.

Lemma assigned_shown y m d w :
  shown (picker (assign Year y (assign Month m (assign Day d w)))) = (y, m, d).
Proof.
  unfold shown.
  change (year_spinner ?p) with (spinner Year p).
  change (month_spinner ?p) with (spinner Month p).
  change (day_spinner ?p) with (spinner Day p).
  rewrite assign_value.
  rewrite (assign_other Year Month), assign_value by discriminate.
  rewrite (assign_other Year Day), (assign_other Month Day), assign_value by discriminate.
  reflexivity.
Qed.

Lemma assigned_values y m d w :
  let p := picker (assign Year y (assign Month m (assign Day d w))) in
  NumberSpinner.value (year_spinner p) = y /\
  NumberSpinner.value (month_spinner p) = m /\
  NumberSpinner.value (day_spinner p) = d.
Proof.
  cbv zeta. pose proof (assigned_shown y m d w) as E. unfold shown in E.
  split; [exact (f_equal (fun t => fst (fst t)) E)|].
  split; [exact (f_equal (fun t => snd (fst t)) E) | exact (f_equal snd E)].
Qed.

Lemma is_valid_inv y m d :
  Date.is_valid y m d = true ->
  1 <= y <= 9999 /\ 1 <= m <= 12 /\ 1 <= d <= Calendar.days_in_month y m.
Proof.
  unfold Date.is_valid, Date.MINYEAR, Date.MAXYEAR. intros H.
  repeat (apply andb_prop in H as [H ?]).
  repeat match goal with H : (_ <=? _) = true |- _ => apply Z.leb_le in H end. lia.
Qed.

(** The numbers of a date of the calendar fit C [int]s. *)
Lemma is_valid_c_int y m d :
  Date.is_valid y m d = true ->
  Date.c_int y && Date.c_int m && Date.c_int d = true.
Proof.
  intros H. apply is_valid_inv in H as (Hy & Hm & Hd).
  assert (Calendar.days_in_month y m <= 31).
  { unfold Calendar.days_in_month.
    assert (Calendar.mdays m <= 30 \/ (Calendar.mdays m = 31 /\ (m =? 2) = false)).
    { assert (C : m = 1 \/ m = 2 \/ m = 3 \/ m = 4 \/ m = 5 \/ m = 6 \/ m = 7 \/
                  m = 8 \/ m = 9 \/ m = 10 \/ m = 11 \/ m = 12) by lia.
      repeat (destruct C as [->|C]); try subst m; cbn; lia. }
    destruct ((m =? 2) && Calendar.isleap y) eqn:E; [|lia].
    apply andb_prop in E as [E _]. rewrite E in *. lia. }
  unfold Date.c_int. rewrite !andb_true_iff, !Z.leb_le, !Z.ltb_lt. lia.
Qed.

Lemma quiet_input_changed_str p r n :
  0 <= n -> input_value (spinner r p) = Text.str n ->
  quiet p (InputChanged r (Text.str n)).
Proof. intros H E. cbn [quiet]. now rewrite only_digits_str, E. Qed.

Lemma queue_assign r n w :
  exists l,
    queue (assign r n w) = (queue w ++ l)%list /\
    Forall (fun m => m = InputChanged r (Text.str n) \/ m = NumberChanged r n) l.
Proof.
  unfold assign, post, write_input. cbn [queue].
  destruct (String.eqb _ _).
  - exists [NumberChanged r n]. split; [reflexivity|].
    constructor; [now right | constructor].
  - exists [InputChanged r (Text.str n); NumberChanged r n].
    rewrite <- app_assoc. split; [reflexivity|].
    constructor; [now left | constructor; [now right | constructor]].
Qed.

Lemma no_input_changed_assign r r' n w :
  r <> r' -> no_input_changed r' (queue w) ->
  no_input_changed r' (queue (assign r n w)).
Proof.
  intros Hr H t Hin.
  destruct (queue_assign r n w) as (l & E & Hl). rewrite E in Hin.
  apply in_app_or in Hin as [Hin|Hin]; [now apply (H t)|].
  rewrite Forall_forall in Hl. destruct (Hl _ Hin) as [X|X]; [|discriminate X].
  injection X as -> _. now apply Hr.
Qed.

(** An assignment of a number that is not negative to a spinner without a
    pending [Input.Changed] keeps the pending messages quiet. *)
Lemma quiet_assign r n w :
  0 <= n -> no_input_changed r (queue w) ->
  Forall (quiet (picker w)) (queue w) ->
  Forall (quiet (picker (assign r n w))) (queue (assign r n w)).
Proof.
  intros Hn Hf Hq.
  destruct (queue_assign r n w) as (l & -> & Hl).
  apply Forall_app. split.
  - rewrite Forall_forall in *. intros m Hin. specialize (Hq m Hin).
    destruct m as [| r' t | | |]; cbn [quiet] in *; try assumption.
    rewrite assign_other; [exact Hq|].
    intros <-. now apply (Hf t).
  - eapply Forall_impl; [|exact Hl]. cbv beta. intros m [-> | ->]; [|exact I].
    apply quiet_input_changed_str; [exact Hn|].
    now rewrite assign_spinner.
Qed.

(** The pending messages after assignments to a picker with nothing
    pending, each to another spinner, are quiet. *)
Ltac quiet_queue :=
  repeat (apply quiet_assign;
          [ lia
          | repeat (apply no_input_changed_assign; [discriminate|]);
            intros ? []
          | ]);
  constructor.

Lemma set_date_at_rest p v :
  Date.is_valid (year v) (month v) (day v) = true ->
  min (day_spinner p) <= day v ->
  at_rest (assign Year (year v) (assign Month (month v) (assign Day (day v) (idle p)))).
Proof.
  intros Hv Hmin. apply is_valid_inv in Hv as (Hy & Hm & Hd).
  unfold at_rest. cbv zeta.
  destruct (assigned_values (year v) (month v) (day v) (idle p)) as (Ey & Em & Ed).
  rewrite Ey, Em, Ed.
  split; [exact Hm|]. split.
  - right. split; [|apply Hd]. exact Hmin.
  - quiet_queue.
Qed.

Lemma date_of_shown w v :
  shown (picker w) = (year v, month v, day v) ->
  Date.is_valid (year v) (month v) (day v) = true ->
  BasicDatePicker.date w = Return (Some v) w.
Proof.
  intros E Hv. rewrite date_result, E, Hv, (is_valid_c_int _ _ _ Hv). now destruct v.
Qed.


(** ** [_on_spin]: the rollover rules *)

(** The month overflow rule, as the code has it: it applies while the year
    number is at most the year maximum. *)
Lemma on_spin_month_overflow w direction t :
  t > max (month_spinner (picker w)) ->
  NumberSpinner.value (year_spinner (picker w)) <= max (year_spinner (picker w)) ->
  BasicDatePicker._on_spin Month direction t w
  = Return tt (assign Month (min (month_spinner (picker w)))
                 (assign Year (NumberSpinner.value (year_spinner (picker w)) + 1) w)).
Proof.
  intros Ht Hy. open_on_spin.
  destruct (Z.gtb_spec t (max (month_spinner (picker w)))); [|lia].
  destruct (Z.leb_spec (NumberSpinner.value (year_spinner (picker w)))
              (max (year_spinner (picker w)))); [|lia].
  cbn [andb]. rewrite set_value_eq. cbv beta iota. rewrite set_value_eq.
  reflexivity.
Qed.

(** The December rule *)
Lemma on_spin_december w direction t :
  NumberSpinner.value (month_spinner (picker w)) = 12 ->
  t = Calendar.days_in_month (NumberSpinner.value (year_spinner (picker w))) 12 + 1 ->
  BasicDatePicker._on_spin Day direction t w
  = Return tt (assign Year (NumberSpinner.value (year_spinner (picker w)) + 1)
                 (assign Day 1 (assign Month 1 w))).
Proof.
  intros Hm Ht. open_on_spin.
  rewrite Hm. cbn [Z.eqb Pos.eqb].
  rewrite highest_day_plain by (cbn [spinner]; lia).
  cbn [spinner]. rewrite Hm, <- Ht, Z.eqb_refl.
  rewrite !set_value_eq. reflexivity.
Qed.

(** The January rule *)
Lemma on_spin_january w direction :
  NumberSpinner.value (month_spinner (picker w)) = 1 ->
  0 <= max (day_spinner (picker w)) ->
  BasicDatePicker._on_spin Day direction 0 w
  = Return tt
      (if NumberSpinner.value (year_spinner (picker w)) =? min (year_spinner (picker w))
       then assign Day 1 (assign Month 1 w)
       else assign Day (max (day_spinner (picker w)))
              (assign Year (NumberSpinner.value (year_spinner (picker w)) - 1)
                 (assign Month 12 w))).
Proof.
  intros Hm Hmax. open_on_spin.
  rewrite Hm. cbn [Z.eqb Pos.eqb andb].
  destruct (Z.gtb_spec 0 (max (day_spinner (picker w)))); [lia|].
  cbn [andb]. cbv beta iota. rewrite Hm. cbn [Z.eqb Pos.eqb].
  destruct (NumberSpinner.value (year_spinner (picker w)) =? min (year_spinner (picker w)));
    cbn [negb]; cbv beta iota; repeat (rewrite set_value_eq; cbv beta iota);
    reflexivity.
Qed.

(** What the button handler does: the number moves by one when the result
    stays within the bound on its side, and the result is announced either
    way. *)
Lemma up_down_btn_eq r b w :
  let s := spinner r (picker w) in
  let v := NumberSpinner.value s in
  NumberSpinner._up_down_btn r b w
  = Return tt
      match b with
      | up => post (ButtonSpin r up (v + 1))
                (if v + 1 <=? max s then assign r (v + 1) w else w)
      | down => post (ButtonSpin r down (v - 1))
                  (if v - 1 >=? min s then assign r (v - 1) w else w)
      end.
Proof.
  cbv zeta. unfold NumberSpinner._up_down_btn.
  rewrite (bind_Return _ _ _ _ _ (get_value_eq r w)).
  unfold bind at 1, get_spinner at 1.
  destruct b.
  - destruct (_ <=? _).
    + now rewrite (bind_Return _ _ _ _ _ (set_value_eq r _ w)).
    + reflexivity.
  - destruct (_ >=? _).
    + now rewrite (bind_Return _ _ _ _ _ (set_value_eq r _ w)).
    + reflexivity.
Qed.

Lemma january_clamp_at_rest p :
  min (day_spinner p) = 1 ->
  at_rest (assign Day 1 (assign Month 1 (idle p))).
Proof.
  intros Hmin. unfold at_rest. cbv zeta.
  change (month_spinner ?p) with (spinner Month p).
  change (day_spinner ?p) with (spinner Day p).
  change (year_spinner ?p) with (spinner Year p).
  rewrite (assign_other Day Month), (assign_other Day Year), !assign_value,
    !assign_spinner by discriminate.
  rewrite (assign_other Month Day), (assign_other Month Year) by discriminate.
  cbn [min max input_value idle picker spinner].
  split; [lia|]. split.
  - right. rewrite Hmin. unfold Calendar.days_in_month. cbn. lia.
  - quiet_queue.
Qed.

Lemma january_roll_at_rest p :
  min (day_spinner p) = 1 -> max (day_spinner p) = 31 ->
  1 <= NumberSpinner.value (year_spinner p) ->
  at_rest (assign Day (max (day_spinner p))
             (assign Year (NumberSpinner.value (year_spinner p) - 1)
                (assign Month 12 (idle p)))).
Proof.
  intros Hmin Hmax Hy. unfold at_rest. cbv zeta.
  change (month_spinner ?p) with (spinner Month p).
  change (day_spinner ?p) with (spinner Day p).
  change (year_spinner ?p) with (spinner Year p).
  rewrite (assign_other Day Month), (assign_other Day Year), !assign_value,
    !assign_spinner by discriminate.
  rewrite (assign_other Year Month), assign_value by discriminate.
  rewrite (assign_other Year Day), (assign_other Month Day) by discriminate.
  cbn [min max input_value idle picker spinner].
  split; [lia|]. split.
  - right. rewrite Hmin, Hmax. unfold Calendar.days_in_month. cbn. lia.
  - cbn [idle picker spinner]. rewrite Hmax. quiet_queue.
Qed.

(** The January rule at a transient number of 0.  The day spinner of a
    picker with nothing pending holds a number
    that is not below its minimum 1, the month is January and the day
    maximum is January's 31.  A press of the day's down button whose
    transient number is below 1 leaves the day as it is and announces the
    transient number; the picker's handler of that announcement then, when
    the year is not at its minimum, sets the month to 12, takes one from
    the year and sets the day to 31, the last day of that December; and
    when the year is at its minimum, sets month and day to 1 and leaves the
    year.  However the pending messages are handled afterwards, the picker
    goes on showing that date (for the roll into December, when the year
    before is not negative, so that its text has no sign). *)
Lemma january_rule_at_zero (p : BasicDatePicker)
  (Hmin : min (day_spinner p) = 1)
  (Hday : 1 <= NumberSpinner.value (day_spinner p))
  (Ht : NumberSpinner.value (day_spinner p) - 1 < 1)
  (Hmonth : NumberSpinner.value (month_spinner p) = 1)
  (Hmax : max (day_spinner p) = 31) :
  let y := NumberSpinner.value (year_spinner p) in
  let t := NumberSpinner.value (day_spinner p) - 1 in
  dispatch (ButtonPressed Day down) (idle p)
  = Return tt (mkWorld p [ButtonSpin Day down t]) /\
  exists w',
    dispatch (ButtonSpin Day down t) (idle p) = Return tt w' /\
    (y <> min (year_spinner p) ->
     shown (picker w') = (y - 1, 12, 31) /\
     Calendar.days_in_month (y - 1) 12 = 31 /\
     (1 <= y -> forall w'', steps w' w'' -> shown (picker w'') = (y - 1, 12, 31))) /\
    (y = min (year_spinner p) ->
     shown (picker w') = (min (year_spinner p), 1, 1) /\
     forall w'', steps w' w'' ->
       shown (picker w'') = (min (year_spinner p), 1, 1)).
Proof.
  cbv zeta.
  assert (E0 : NumberSpinner.value (day_spinner p) - 1 = 0) by lia.
  rewrite E0. split.
  - cbn [dispatch]. rewrite up_down_btn_eq. cbn [idle picker spinner].
    rewrite E0, Hmin. reflexivity.
  - cbn [dispatch].
    rewrite on_spin_january by (cbn [idle picker]; (assumption || lia)).
    cbn [idle picker]. fold (idle p).
    destruct (Z.eqb_spec (NumberSpinner.value (year_spinner p)) (min (year_spinner p)))
      as [Ey|Ey].
    + eexists. split; [reflexivity|]. split; [intros N; now destruct N|].
      intros _.
      assert (S0 : shown (picker (assign Day 1 (assign Month 1 (idle p))))
                   = (min (year_spinner p), 1, 1)).
      { unfold shown.
        change (month_spinner ?p) with (spinner Month p).
        change (day_spinner ?p) with (spinner Day p).
        change (year_spinner ?p) with (spinner Year p).
        rewrite (assign_other Day Month), (assign_other Day Year), !assign_value
          by discriminate.
        rewrite (assign_other Month Year) by discriminate.
        cbn [idle picker spinner]. now rewrite Ey. }
      split; [exact S0|].
      intros w'' St.
      rewrite (at_rest_steps_shown _ _ (january_clamp_at_rest p Hmin) St).
      exact S0.
    + eexists. split; [reflexivity|]. split; [|intros N; now destruct Ey].
      intros _.
      assert (S0 : shown (picker (assign Day (max (day_spinner p))
                                    (assign Year (NumberSpinner.value (year_spinner p) - 1)
                                       (assign Month 12 (idle p)))))
                   = (NumberSpinner.value (year_spinner p) - 1, 12, 31)).
      { unfold shown.
        change (month_spinner ?p) with (spinner Month p).
        change (day_spinner ?p) with (spinner Day p).
        change (year_spinner ?p) with (spinner Year p).
        rewrite (assign_other Day Month), (assign_other Day Year), !assign_value
          by discriminate.
        rewrite (assign_other Year Month), assign_value by discriminate.
        now rewrite Hmax. }
      split; [exact S0|]. split; [reflexivity|].
      intros Hy w'' St.
      rewrite (at_rest_steps_shown _ _ (january_roll_at_rest p Hmin Hmax Hy) St).
      exact S0.
Qed.

(** The day goes down from 2023-01-01 and from 2010-01-01, 2010 being the
    minimum year. *)
Lemma january_rule_at_zero_example :
  (min (day_spinner (picker_at 2023 1 1)) = 1 /\
   1 <= NumberSpinner.value (day_spinner (picker_at 2023 1 1)) /\
   NumberSpinner.value (day_spinner (picker_at 2023 1 1)) - 1 < 1 /\
   NumberSpinner.value (month_spinner (picker_at 2023 1 1)) = 1 /\
   max (day_spinner (picker_at 2023 1 1)) = 31) /\
  (exists w',
     dispatch (ButtonSpin Day down 0) (idle (picker_at 2023 1 1)) = Return tt w' /\
     shown (picker w') = (2022, 12, 31)) /\
  (exists w',
     dispatch (ButtonSpin Day down 0) (idle (picker_at 2010 1 1)) = Return tt w' /\
     shown (picker w') = (2010, 1, 1)).
Proof.
  split; [repeat split; vm_compute; (reflexivity || discriminate)|]. split.
  - destruct (january_rule_at_zero (picker_at 2023 1 1))
      as (_ & w' & E & H & _); try reflexivity.
    exists w'. split; [exact E|].
    assert (N : NumberSpinner.value (year_spinner (picker_at 2023 1 1))
                <> min (year_spinner (picker_at 2023 1 1))) by discriminate.
    destruct (H N) as (S & _ & _). exact S.
  - destruct (january_rule_at_zero (picker_at 2010 1 1))
      as (_ & w' & E & _ & H); try reflexivity.
    exists w'. split; [exact E|]. destruct (H eq_refl) as [S _]. exact S.
Qed.

(** C5, the code at a transient number below 0: the picker shows January
    and its day number has been made 0, assigned to the day spinner or
    typed into its [Input]; with all messages handled it still is 0.  The
    day's down button then announces the transient number -1, which is
    below 1.  The January rule asks for a transient number of exactly 0
    and is passed over; the rule of the day underflow into the month before
    takes one from the month, which becomes 0, and [validate] raises
    [IllegalMonthError] when the [NumberChanged] of the month is handled.
    The same happens at the minimum year, 2010. *)
Theorem january_underflow_below_zero :
  let start y := picker (assign Day 0 (idle (picker_at y 1 15))) in
  perform (NumberSpinner.set_value Day 0) 20 (picker_at 2023 1 15)
  = Some (Return tt (idle (start 2023))) /\
  shown (start 2023) = (2023, 1, 0) /\
  dispatch (ButtonPressed Day down) (idle (start 2023))
  = Return tt (mkWorld (start 2023) [ButtonSpin Day down (-1)]) /\
  (exists w,
     dispatch (ButtonSpin Day down (-1)) (idle (start 2023)) = Return tt w /\
     shown (picker w) = (2023, 0, 31)) /\
  (exists w,
     run 20 (press Day down (start 2023)) = Some (Raise (IllegalMonthError 0) w) /\
     shown (picker w) = (2023, 0, 31)) /\
  (exists w,
     run 20 (press Day down (start 2010)) = Some (Raise (IllegalMonthError 0) w) /\
     shown (picker w) = (2010, 0, 31) /\
     min (year_spinner (picker w)) = 2010).
Proof.
  cbv zeta. split; [vm_compute; reflexivity|]. split; [reflexivity|].
  split; [reflexivity|]. split; [|split].
  - eexists. split; [vm_compute; reflexivity | reflexivity].
  - eexists. split; [vm_compute; reflexivity | reflexivity].
  - eexists. split; [vm_compute; reflexivity | split; reflexivity].
Qed.

Lemma december_roll_at_rest p :
  min (day_spinner p) <= 1 ->
  0 <= NumberSpinner.value (year_spinner p) + 1 ->
  at_rest (assign Year (NumberSpinner.value (year_spinner p) + 1)
             (assign Day 1 (assign Month 1 (idle p)))).
Proof.
  intros Hmin Hy. unfold at_rest. cbv zeta.
  change (month_spinner ?p) with (spinner Month p).
  change (day_spinner ?p) with (spinner Day p).
  change (year_spinner ?p) with (spinner Year p).
  rewrite !assign_value.
  rewrite (assign_other Year Month), (assign_other Day Month), assign_value
    by discriminate.
  rewrite !(assign_other Year Day), !assign_value, !assign_spinner by discriminate.
  rewrite (assign_other Month Day) by discriminate.
  cbn [min max input_value idle picker spinner].
  split; [lia|]. split.
  - right. unfold Calendar.days_in_month. cbn. lia.
  - quiet_queue.
Qed.

(** C4: the month spinner holds 12 and the transient number of a day spin
    is one more than the number of days of December.  The handler sets the
    month to 1, the day to 1 and adds one to the year, and leaves all
    bounds as they are.  Nothing is asked of the day maximum: this is the
    outcome also when the transient number exceeds it and the month is
    within its bounds, which is where the rule for a day overflow into the
    next month, later in the chain, would apply.  When nothing was pending,
    the day minimum is at most 1 and the new year is not negative, the
    picker goes on showing the 1st of January of the next year however the
    pending messages are handled. *)
Theorem december_day_overflow (w : World) (direction : Direction) (t : Z)
  (Hm : NumberSpinner.value (month_spinner (picker w)) = 12)
  (Ht : t = Calendar.days_in_month
              (NumberSpinner.value (year_spinner (picker w))) 12 + 1) :
  exists w',
    BasicDatePicker._on_spin Day direction t w = Return tt w' /\
    shown (picker w') = (NumberSpinner.value (year_spinner (picker w)) + 1, 1, 1) /\
    (forall r, min (spinner r (picker w')) = min (spinner r (picker w)) /\
               max (spinner r (picker w')) = max (spinner r (picker w))) /\
    (queue w = [] ->
     min (day_spinner (picker w)) <= 1 ->
     0 <= NumberSpinner.value (year_spinner (picker w)) + 1 ->
     forall w'', steps w' w'' ->
       shown (picker w'')
       = (NumberSpinner.value (year_spinner (picker w)) + 1, 1, 1)).
Proof.
  assert (S0 : shown (picker (assign Year (NumberSpinner.value (year_spinner (picker w)) + 1)
                                (assign Day 1 (assign Month 1 w))))
               = (NumberSpinner.value (year_spinner (picker w)) + 1, 1, 1)).
  { unfold shown.
    change (month_spinner ?p) with (spinner Month p).
    change (day_spinner ?p) with (spinner Day p).
    change (year_spinner ?p) with (spinner Year p).
    rewrite assign_value.
    rewrite (assign_other Year Month), (assign_other Day Month), assign_value
      by discriminate.
    rewrite (assign_other Year Day), assign_value by discriminate.
    reflexivity. }
  eexists. split; [now apply on_spin_december|]. split; [exact S0|]. split.
  { intros r. destruct r; split; reflexivity. }
  intros Hq Hmin Hy w'' St. destruct w as [p q]. cbn [queue picker] in *. subst q.
  fold (idle p) in *.
  rewrite (at_rest_steps_shown _ _ (december_roll_at_rest p Hmin Hy) St).
  exact S0.
Qed.

(** C4 at work: the day goes up from 2023-12-31, where the transient number
    32 also exceeds the day maximum 31. *)
Lemma december_day_overflow_witness :
  let w := idle (picker_at 2023 12 31) in
  NumberSpinner.value (month_spinner (picker w)) = 12 /\
  32 = Calendar.days_in_month (NumberSpinner.value (year_spinner (picker w))) 12 + 1 /\
  32 > max (day_spinner (picker w)) /\
  exists w',
    BasicDatePicker._on_spin Day up 32 w = Return tt w' /\
    shown (picker w') = (2024, 1, 1).
Proof.
  cbv zeta. split; [reflexivity|]. split; [reflexivity|]. split; [reflexivity|].
  destruct (december_day_overflow (idle (picker_at 2023 12 31)) up 32)
    as (w' & E & H & _ & _); try reflexivity.
  exists w'. split; [exact E | exact H].
Defined.

(** The whole press: the up button of the day at 2023-12-31, and all
    messages handled, gives 2024-01-01. *)
Example day_up_from_2023_12_31 :
  exists w,
    run 20 (press Day up (picker_at 2023 12 31))
    = Some (Return tt w) /\
    settled w /\ shown (picker w) = (2024, 1, 1).
Proof. eexists. split; [vm_compute; reflexivity|]. split; reflexivity. Qed.

(** The day overflow rule on its own, in a month before December *)
Example day_up_from_2023_01_31 :
  exists w,
    run 20 (press Day up (picker_at 2023 1 31))
    = Some (Return tt w) /\
    settled w /\ shown (picker w) = (2023, 2, 1).
Proof. eexists. split; [vm_compute; reflexivity|]. split; reflexivity. Qed.

(** C2, the code at a year at its maximum: the picker shows 2027-12-15 and
    2027 is the year maximum.  The month's up button gives the transient
    number 13; the rollover is made all the same, and the year becomes
    2028, above its maximum. *)
Theorem month_overflow_at_year_max :
  let p := picker_at 2027 12 15 in
  NumberSpinner.value (year_spinner p) = max (year_spinner p) /\
  dispatch (ButtonPressed Month up) (idle p)
  = Return tt (mkWorld p [ButtonSpin Month up 13]) /\
  exists w,
    run 20 (press Month up p) = Some (Return tt w) /\
    settled w /\
    shown (picker w) = (2028, 1, 15) /\
    max (year_spinner (picker w)) = 2027.
Proof.
  cbv zeta. split; [reflexivity|]. split; [reflexivity|].
  eexists. split; [vm_compute; reflexivity|]. repeat split.
Qed.

(** ** [validate]: the day maximum follows month and year *)

Lemma isleap_leap y : Calendar.isleap y = Gregorian.leap y.
Proof.
  unfold Calendar.isleap, Gregorian.leap, Gregorian.divisible.
  destruct (y mod 4 =? 0), (y mod 100 =? 0), (y mod 400 =? 0); reflexivity.
Qed.

(** [calendar.monthrange] counts the days as the specification words it. *)
Lemma days_in_month_gregorian y m :
  1 <= m <= 12 -> Calendar.days_in_month y m = Gregorian.days_in_month y m.
Proof.
  intros H. unfold Calendar.days_in_month, Gregorian.days_in_month.
  rewrite isleap_leap.
  assert (C : m = 1 \/ m = 2 \/ m = 3 \/ m = 4 \/ m = 5 \/ m = 6 \/ m = 7 \/
              m = 8 \/ m = 9 \/ m = 10 \/ m = 11 \/ m = 12) by lia.
  repeat (destruct C as [->|C]); try subst m; cbn;
    try reflexivity; destruct (Gregorian.leap y); reflexivity.
Qed.

(** [highest_day] for a month number from 1 on: the month number is cut
    down to 12, nothing else changes, and the result is the number of days
    of the month then held. *)
Lemma highest_day_result w :
  1 <= NumberSpinner.value (month_spinner (picker w)) ->
  exists w1,
    BasicDatePicker.highest_day w
    = Return (Calendar.days_in_month
                (NumberSpinner.value (year_spinner (picker w1)))
                (NumberSpinner.value (month_spinner (picker w1)))) w1 /\
    day_spinner (picker w1) = day_spinner (picker w) /\
    year_spinner (picker w1) = year_spinner (picker w) /\
    NumberSpinner.value (month_spinner (picker w1))
    = Z.min (NumberSpinner.value (month_spinner (picker w))) 12 /\
    min (month_spinner (picker w1)) = min (month_spinner (picker w)) /\
    max (month_spinner (picker w1)) = max (month_spinner (picker w)).
Proof.
  intros H.
  destruct (Z_le_gt_dec (NumberSpinner.value (month_spinner (picker w))) 12) as [L|G].
  - exists w. rewrite highest_day_plain by (cbn [spinner]; lia).
    cbn [spinner]. repeat split. lia.
  - exists (assign Month 12 w). rewrite highest_day_above by exact G.
    cbn [spinner]. repeat split.
    change (NumberSpinner.value (month_spinner (picker (assign Month 12 w))))
      with 12. lia.
Qed.

Lemma validate_result w :
  1 <= NumberSpinner.value (month_spinner (picker w)) ->
  exists w',
    BasicDatePicker.validate w = Return tt w' /\
    year_spinner (picker w') = year_spinner (picker w) /\
    NumberSpinner.value (month_spinner (picker w'))
    = Z.min (NumberSpinner.value (month_spinner (picker w))) 12 /\
    min (month_spinner (picker w')) = min (month_spinner (picker w)) /\
    max (month_spinner (picker w')) = max (month_spinner (picker w)) /\
    min (day_spinner (picker w')) = min (day_spinner (picker w)) /\
    max (day_spinner (picker w'))
    = Calendar.days_in_month
        (NumberSpinner.value (year_spinner (picker w')))
        (NumberSpinner.value (month_spinner (picker w'))) /\
    (input_value (day_spinner (picker w)) = "" ->
     input_value (day_spinner (picker w')) = "") /\
    (input_value (day_spinner (picker w)) <> "" ->
     NumberSpinner.value (day_spinner (picker w'))
     = Z.max (min (day_spinner (picker w)))
         (Z.min (NumberSpinner.value (day_spinner (picker w)))
            (max (day_spinner (picker w'))))).
Proof.
  intros H. destruct (highest_day_result w H) as (w1 & E1 & Hd & Hy & Hm & Hlo & Hhi).
  unfold BasicDatePicker.validate.
  rewrite (bind_Return _ _ _ _ _ E1).
  set (h := Calendar.days_in_month _ _) in *.
  unfold bind at 1, set_max at 1.
  set (w2 := write_max Day h w1).
  assert (S2 : spinner Day (picker w2)
               = mkSpinner (min (day_spinner (picker w))) h
                   (input_value (day_spinner (picker w)))
                   (input_has_focus (day_spinner (picker w)))).
  { unfold w2. cbn [spinner]. rewrite write_max_day, Hd. reflexivity. }
  assert (V2 : NumberSpinner.value
                 (mkSpinner (min (day_spinner (picker w))) h
                    (input_value (day_spinner (picker w)))
                    (input_has_focus (day_spinner (picker w))))
               = NumberSpinner.value (day_spinner (picker w))).
  { rewrite (value_max_irrelevant _ _ (max (day_spinner (picker w)))).
    now rewrite spinner_eta. }
  assert (M2 : month_spinner (picker w2) = month_spinner (picker w1)) by reflexivity.
  assert (Y2 : year_spinner (picker w2) = year_spinner (picker w1)) by reflexivity.
  assert (Eh : h = Calendar.days_in_month
                     (NumberSpinner.value (year_spinner (picker w)))
                     (NumberSpinner.value (month_spinner (picker w1))))
    by (unfold h; now rewrite Hy).
  pose proof (constrain_value_result Day w2) as C. cbv zeta in C.
  rewrite S2 in C. cbn [min max input_value] in C. rewrite V2 in C.
  destruct C as [[E Hc]|[(E & Hne & Hv & Hb)|(w' & E & Ep & Hne & Hv)]].
  - exists w2. split; [exact E|].
    change (day_spinner (picker w2)) with (spinner Day (picker w2)).
    rewrite S2, M2, Y2, Hy, V2. cbn [min max input_value].
    repeat split; try assumption; try congruence.
    intros Hne. destruct Hc as [Hc|Hc]; [congruence | lia].
  - eexists. split; [exact E|].
    change (day_spinner (picker ?x)) with (spinner Day (picker x)).
    change (month_spinner (picker ?x)) with (spinner Month (picker x)).
    change (year_spinner (picker ?x)) with (spinner Year (picker x)).
    rewrite write_input_spinner, !write_input_other by discriminate.
    rewrite S2. cbn [min max input_value spinner]. rewrite M2, Y2, Hy, value_str.
    repeat split; try assumption; try congruence. intros _. lia.
  - exists w'. split; [exact E|]. rewrite Ep.
    change (day_spinner (picker ?x)) with (spinner Day (picker x)).
    change (month_spinner (picker ?x)) with (spinner Month (picker x)).
    change (year_spinner (picker ?x)) with (spinner Year (picker x)).
    rewrite write_input_spinner, !write_input_other by discriminate.
    rewrite S2. cbn [min max input_value spinner]. rewrite M2, Y2, Hy, value_str.
    repeat split; try assumption; try congruence. intros _. lia.
Qed.

(** An assignment to a spinner's [value] posts the [NumberChanged] that
    [validate] handles. *)
Lemma assign_posts_number_changed r v w :
  In (NumberChanged r v) (queue (assign r v w)).
Proof. unfold assign, post. cbn [queue]. apply in_or_app. right. now left. Qed.

(** From a month number of 1 or more the day maximum is renewed.  A
    [NumberChanged] of the month or of the year arrives while the
    month number is 1 or more.  Its handlers return; the year spinner is as
    before and the month number is the one before, cut down to 12; the day
    maximum is then the number of days of that month in that year, by the
    Gregorian rule; and a day spinner with a text holds its old number
    brought down to that maximum (and up to the day minimum), while an
    empty day text stays empty. *)
Lemma day_max_renewed (w : World) (r : Role) (n : Z)
  (Hr : r <> Day)
  (Hm : 1 <= NumberSpinner.value (month_spinner (picker w))) :
  exists w',
    dispatch (NumberChanged r n) w = Return tt w' /\
    year_spinner (picker w') = year_spinner (picker w) /\
    NumberSpinner.value (month_spinner (picker w'))
    = Z.min (NumberSpinner.value (month_spinner (picker w))) 12 /\
    max (day_spinner (picker w'))
    = Gregorian.days_in_month
        (NumberSpinner.value (year_spinner (picker w')))
        (NumberSpinner.value (month_spinner (picker w'))) /\
    min (day_spinner (picker w')) = min (day_spinner (picker w)) /\
    (input_value (day_spinner (picker w)) = "" ->
     input_value (day_spinner (picker w')) = "") /\
    (input_value (day_spinner (picker w)) <> "" ->
     NumberSpinner.value (day_spinner (picker w'))
     = Z.max (min (day_spinner (picker w)))
         (Z.min (NumberSpinner.value (day_spinner (picker w)))
            (max (day_spinner (picker w')))) /\
     (min (day_spinner (picker w)) <= max (day_spinner (picker w')) ->
      NumberSpinner.value (day_spinner (picker w')) <= max (day_spinner (picker w')))).
Proof.
  assert (E : dispatch (NumberChanged r n) w
              = BasicDatePicker.validate (post (Changed r n) w)).
  { destruct r; [now destruct Hr | reflexivity | reflexivity]. }
  rewrite E.
  destruct (validate_result (post (Changed r n) w) Hm)
    as (w' & Ev & Hy & Hmo & _ & _ & Hlo & Hmax & Hempty & Hday).
  rewrite post_picker in *.
  exists w'. split; [exact Ev|]. split; [exact Hy|]. split; [exact Hmo|].
  split; [|split; [exact Hlo|split; [exact Hempty|]]].
  - rewrite Hmax. apply days_in_month_gregorian. rewrite Hmo. lia.
  - intros Hne. specialize (Hday Hne). split; [exact Hday | lia].
Qed.

(** The month has just become 2 in 2024 while the day still reads 31 of a
    maximum of 31. *)
Lemma day_max_renewed_example :
  let w := idle (mkPicker (mkSpinner 1 31 "31" false) (mkSpinner 1 12 "2" false)
                   (mkSpinner 2010 2027 "2024" false)) in
  Month <> Day /\
  1 <= NumberSpinner.value (month_spinner (picker w)) /\
  exists w',
    dispatch (NumberChanged Month 2) w = Return tt w' /\
    max (day_spinner (picker w')) = 29 /\
    NumberSpinner.value (day_spinner (picker w')) = 29.
Proof.
  cbv zeta. split; [discriminate|]. split; [vm_compute; discriminate|].
  destruct (day_max_renewed
              (idle (mkPicker (mkSpinner 1 31 "31" false) (mkSpinner 1 12 "2" false)
                       (mkSpinner 2010 2027 "2024" false))) Month 2)
    as (w' & E & Hy & Hmo & Hmax & _ & _ & Hday); [discriminate | vm_compute; discriminate |].
  assert (M : max (day_spinner (picker w')) = 29) by (rewrite Hmax, Hy, Hmo; reflexivity).
  exists w'. split; [exact E|]. split; [exact M|].
  destruct Hday as [Hday _]; [discriminate|]. rewrite Hday, M. reflexivity.
Qed.

(** C6, the code at a month number of 0: the picker shows 2024-03-31 and a
    0 is typed into the month's [Input], as the first key of 02 is.  The
    change of the month is committed and announced, and [validate] raises
    [IllegalMonthError] on it: [highest_day] brings a month above 12 down
    to 12 but lets a month below 1 through to [monthrange].  The day
    maximum is not renewed and the day is not constrained. *)
Theorem month_zero_stops_validate :
  let w0 := write_input Month "0" (idle (picker_at 2024 3 31)) in
  queue w0 = [InputChanged Month "0"] /\
  shown (picker w0) = (2024, 0, 31) /\
  dispatch (InputChanged Month "0") (idle (picker w0))
  = Return tt (mkWorld (picker w0) [NumberChanged Month 0]) /\
  dispatch (NumberChanged Month 0) (idle (picker w0))
  = Raise (IllegalMonthError 0) (mkWorld (picker w0) [Changed Month 0]) /\
  run 20 w0 = Some (Raise (IllegalMonthError 0) (mkWorld (picker w0) [Changed Month 0])) /\
  max (day_spinner (picker w0)) = max (day_spinner (picker_at 2024 3 31)).
Proof.
  cbv zeta. repeat split; vm_compute; reflexivity.
Qed.

Example february_2024 : Gregorian.days_in_month 2024 2 = 29.
Proof. reflexivity. Qed.

Example february_2023 : Gregorian.days_in_month 2023 2 = 28.
Proof. reflexivity. Qed.

Example february_1900_and_2000 :
  Gregorian.days_in_month 1900 2 = 28 /\ Gregorian.days_in_month 2000 2 = 29.
Proof. split; reflexivity. Qed.

(** The month's down button at 2024-03-31, and all messages handled: the
    day comes down from 31 to 29 and the day maximum is 29. *)
Example month_down_from_2024_03_31 :
  exists w,
    run 20 (press Month down (picker_at 2024 3 31))
    = Some (Return tt w) /\
    settled w /\ shown (picker w) = (2024, 2, 29) /\
    max (day_spinner (picker w)) = 29.
Proof. eexists. split; [vm_compute; reflexivity|]. repeat split. Qed.

(** ** Bounds *)

(** C1, the code at a date before the minimum year: the picker shows
    2024-05-10, its years start at 2010 and all three spinners are within
    their bounds.  2000-01-01 is a date of the calendar; assigned through
    the setter of [date], with all messages handled and nothing pending,
    it leaves the year spinner at 2000, below its minimum: no handler
    constrains the year. *)
Theorem date_assignment_leaves_bounds :
  let p := picker_at 2024 5 10 in
  (forall r, in_bounds (spinner r p)) /\
  Date.is_valid 2000 1 1 = true /\
  exists w,
    perform (BasicDatePicker.set_date (mkDate 2000 1 1)) 20 p
    = Some (Return tt w) /\
    settled w /\
    shown (picker w) = (2000, 1, 1) /\
    min (year_spinner (picker w)) = 2010 /\
    ~ in_bounds (year_spinner (picker w)).
Proof.
  cbv zeta. split.
  { intros r. unfold in_bounds. destruct r; split; vm_compute; discriminate. }
  split; [reflexivity|].
  eexists. split; [vm_compute; reflexivity|].
  split; [reflexivity|]. split; [reflexivity|]. split; [reflexivity|].
  unfold in_bounds. vm_compute. intros [H _]. now apply H.
Qed.

(** After the assignment of a date within the bounds of the picker, the
    three spinners stay within their bounds. *)

Lemma date_assignment_within_bounds p v w' :
  Date.is_valid (year v) (month v) (day v) = true ->
  (forall r, min (spinner r p) <= part r v <= max (spinner r p)) ->
  steps (assign Year (year v) (assign Month (month v) (assign Day (day v) (idle p)))) w' ->
  forall r, in_bounds (spinner r (picker w')).
Proof.
  intros Hv Hb St.
  pose proof (set_date_at_rest p v Hv (proj1 (Hb Day))) as R.
  destruct (at_rest_steps _ _ R St) as (_ & h & -> & Hh).
  destruct (assigned_values (year v) (month v) (day v) (idle p)) as (Ey & Em & Ed).
  apply is_valid_inv in Hv as (_ & _ & Hd).
  unfold ceiling in Hh. rewrite Ey, Em in Hh.
  set (w0 := assign Year _ _) in *.
  change (max (day_spinner (picker w0))) with (max (day_spinner p)) in Hh.
  unfold in_bounds. intros r. specialize (Hb r).
  destruct r; cbn [spinner part] in *.
  - change (NumberSpinner.value (day_spinner (picker (write_max Day h (idle (picker w0))))))
      with (NumberSpinner.value (day_spinner (picker w0))).
    change (max (day_spinner (picker (write_max Day h (idle (picker w0)))))) with h.
    change (min (day_spinner (picker (write_max Day h (idle (picker w0))))))
      with (min (day_spinner p)).
    rewrite Ed. destruct Hh as [-> | ->]; lia.
  - change (month_spinner (picker (write_max Day h (idle (picker w0)))))
      with (month_spinner (picker w0)).
    rewrite Em. exact Hb.
  - change (year_spinner (picker (write_max Day h (idle (picker w0)))))
      with (year_spinner (picker w0)).
    rewrite Ey. exact Hb.
Qed.

(** * Further properties of the handlers *)

Lemma bind_Raise {A B} (c : M A) (k : A -> M B) w e w' :
  c w = Raise e w' -> bind c k w = Raise e w'.
Proof. unfold bind. now intros ->. Qed.

(** ** The buttons of a spinner *)

Lemma press_up_commits r w :
  NumberSpinner.value (spinner r (picker w)) + 1 <= max (spinner r (picker w)) ->
  NumberSpinner._up_down_btn r up w
  = Return tt (post (ButtonSpin r up (NumberSpinner.value (spinner r (picker w)) + 1))
                 (assign r (NumberSpinner.value (spinner r (picker w)) + 1) w)).
Proof.
  intros H. rewrite up_down_btn_eq. cbv zeta.
  now destruct (Z.leb_spec (NumberSpinner.value (spinner r (picker w)) + 1)
                  (max (spinner r (picker w)))); [|lia].
Qed.

Lemma press_up_blocked r w :
  max (spinner r (picker w)) < NumberSpinner.value (spinner r (picker w)) + 1 ->
  NumberSpinner._up_down_btn r up w
  = Return tt (post (ButtonSpin r up (NumberSpinner.value (spinner r (picker w)) + 1)) w).
Proof.
  intros H. rewrite up_down_btn_eq. cbv zeta.
  now destruct (Z.leb_spec (NumberSpinner.value (spinner r (picker w)) + 1)
                  (max (spinner r (picker w)))); [lia|].
Qed.

Lemma press_down_commits r w :
  min (spinner r (picker w)) <= NumberSpinner.value (spinner r (picker w)) - 1 ->
  NumberSpinner._up_down_btn r down w
  = Return tt (post (ButtonSpin r down (NumberSpinner.value (spinner r (picker w)) - 1))
                 (assign r (NumberSpinner.value (spinner r (picker w)) - 1) w)).
Proof.
  intros H. rewrite up_down_btn_eq. cbv zeta.
  now destruct (Z.geb_spec (NumberSpinner.value (spinner r (picker w)) - 1)
                  (min (spinner r (picker w)))); [|lia].
Qed.

Lemma press_down_blocked r w :
  NumberSpinner.value (spinner r (picker w)) - 1 < min (spinner r (picker w)) ->
  NumberSpinner._up_down_btn r down w
  = Return tt (post (ButtonSpin r down (NumberSpinner.value (spinner r (picker w)) - 1)) w).
Proof.
  intros H. rewrite up_down_btn_eq. cbv zeta.
  now destruct (Z.geb_spec (NumberSpinner.value (spinner r (picker w)) - 1)
                  (min (spinner r (picker w)))); [lia|].
Qed.




(** X2: when the text of a spinner is empty or no number, the spinner
    counts as holding its minimum: the up button then writes the minimum
    plus one (when that is within the maximum), and the down button writes
    nothing and announces the minimum minus one. *)
Theorem press_on_blank (r : Role) (w : World)
  (Hblank : Text.int (input_value (spinner r (picker w))) = None) :
  let s := spinner r (picker w) in
  NumberSpinner.value s = min s /\
  (min s + 1 <= max s ->
   NumberSpinner._up_down_btn r up w
   = Return tt (post (ButtonSpin r up (min s + 1)) (assign r (min s + 1) w))) /\
  (max s < min s + 1 ->
   NumberSpinner._up_down_btn r up w
   = Return tt (post (ButtonSpin r up (min s + 1)) w)) /\
  NumberSpinner._up_down_btn r down w
  = Return tt (post (ButtonSpin r down (min s - 1)) w).
Proof.
  cbv zeta.
  assert (V : NumberSpinner.value (spinner r (picker w)) = min (spinner r (picker w)))
    by (unfold NumberSpinner.value; now rewrite Hblank).
  split; [exact V|]. split; [|split].
  - intros H. rewrite press_up_commits; rewrite V; [reflexivity | exact H].
  - intros H. rewrite press_up_blocked; rewrite V; [reflexivity | exact H].
  - rewrite press_down_blocked; rewrite V; [reflexivity | lia].
Qed.

(** X2 at work: the day spinner is empty. *)
Lemma press_on_blank_witness :
  let w := idle (mkPicker (mkSpinner 1 31 "" true) (mkSpinner 1 12 "5" false)
                   (mkSpinner 2010 2027 "2024" false)) in
  Text.int (input_value (spinner Day (picker w))) = None /\
  NumberSpinner._up_down_btn Day up w
  = Return tt (post (ButtonSpin Day up 2) (assign Day 2 w)) /\
  NumberSpinner._up_down_btn Day down w
  = Return tt (post (ButtonSpin Day down 0) w).
Proof.
  cbv zeta. split; [reflexivity|].
  destruct (press_on_blank Day
              (idle (mkPicker (mkSpinner 1 31 "" true) (mkSpinner 1 12 "5" false)
                       (mkSpinner 2010 2027 "2024" false))) eq_refl)
    as (_ & Hup & _ & Hdown).
  split; [apply Hup; vm_compute; discriminate | exact Hdown].
Defined.


(** ** Typing *)

Lemma only_digits_length t :
  (String.length (Text.only_digits t) <= String.length t)%nat.
Proof.
  induction t as [|c t IH]; cbn; [lia|].
  destruct (Text.is_digit c); cbn; lia.
Qed.

Lemma only_digits_same_length t :
  String.length (Text.only_digits t) = String.length t -> Text.only_digits t = t.
Proof.
  induction t as [|c t IH]; cbn; [reflexivity|].
  destruct (Text.is_digit c); cbn.
  - intros H. f_equal. apply IH. lia.
  - intros H. pose proof (only_digits_length t). lia.
Qed.

Lemma only_digits_idem t : Text.only_digits (Text.only_digits t) = Text.only_digits t.
Proof.
  induction t as [|c t IH]; cbn; [reflexivity|].
  destruct (Text.is_digit c) eqn:D; cbn; [rewrite D, IH|]; auto.
Qed.

Lemma len_eq_iff s t : Text.len s = Text.len t <-> String.length s = String.length t.
Proof. unfold Text.len. lia. Qed.

(** X3: an [Input.Changed] arrives with the text the [Input] still holds.
    When the text consists of digits, the handler leaves the picker as it
    is, whatever the bounds and the focus, and posts [NumberChanged] with
    the number read.  When it does not, the handler writes the digits of
    the text back, which posts one more [Input.Changed] and no
    [NumberChanged]; and the handler of that one then leaves the picker as
    it is and posts [NumberChanged]. *)
Theorem typed_text (r : Role) (w : World) :
  let t := input_value (spinner r (picker w)) in
  (Text.only_digits t = t ->
   NumberSpinner._typed_anything r t w
   = Return tt (post (NumberChanged r (NumberSpinner.value (spinner r (picker w)))) w)) /\
  (Text.only_digits t <> t ->
   let w1 := mkWorld (picker (write_input r (Text.only_digits t) w))
               (queue w ++ [InputChanged r (Text.only_digits t)]) in
   NumberSpinner._typed_anything r t w = Return tt w1 /\
   input_value (spinner r (picker w1)) = Text.only_digits t /\
   dispatch (InputChanged r (Text.only_digits t)) (mkWorld (picker w1) (queue w))
   = Return tt (mkWorld (picker w1)
                  (queue w ++ [NumberChanged r (NumberSpinner.value (spinner r (picker w1)))]))).
Proof.
  cbv zeta. split.
  - intros E. apply typed_anything_quiet. cbn [quiet]. now rewrite E.
  - intros N.
    assert (L : Text.len (input_value (spinner r (picker w)))
                <> Text.len (Text.only_digits (input_value (spinner r (picker w))))).
    { intros L. apply N. apply only_digits_same_length. apply len_eq_iff. now symmetry. }
    split; [|split].
    + unfold NumberSpinner._typed_anything.
      unfold bind at 1, get_spinner at 1.
      destruct (Z.eqb_spec (Text.len (input_value (spinner r (picker w))))
                  (Text.len (Text.only_digits (input_value (spinner r (picker w))))));
        [contradiction|].
      cbn [negb]. unfold set_input_value, write_input. cbn [picker queue].
      destruct (String.eqb_spec (input_value (spinner r (picker w)))
                  (Text.only_digits (input_value (spinner r (picker w)))));
        [now destruct N|reflexivity].
    + cbn [picker]. now rewrite write_input_spinner.
    + cbn [dispatch picker]. rewrite typed_anything_quiet.
      * reflexivity.
      * cbn [quiet picker]. rewrite write_input_spinner. cbn [input_value].
        now rewrite only_digits_idem.
Qed.

(** X4: [set_value_no_msg] posts no [NumberChanged] itself, but when it
    changes the text to that of a number that is not negative, the
    [Input.Changed] it causes ends in a [NumberChanged] with that number. *)
Theorem set_value_no_msg_is_announced (r : Role) (w : World) (v : Z)
  (Hv : 0 <= v)
  (Hnew : input_value (spinner r (picker w)) <> Text.str v) :
  let w1 := mkWorld (picker (write_input r (Text.str v) w))
              (queue w ++ [InputChanged r (Text.str v)]) in
  NumberSpinner.set_value_no_msg r v w = Return tt w1 /\
  NumberSpinner.value (spinner r (picker w1)) = v /\
  dispatch (InputChanged r (Text.str v)) (mkWorld (picker w1) (queue w))
  = Return tt (mkWorld (picker w1) (queue w ++ [NumberChanged r v])).
Proof.
  cbv zeta. split; [|split].
  - unfold NumberSpinner.set_value_no_msg, set_input_value, write_input.
    cbn [picker queue].
    destruct (String.eqb_spec (input_value (spinner r (picker w))) (Text.str v));
      [contradiction | reflexivity].
  - cbn [picker]. rewrite write_input_spinner. apply value_str.
  - cbn [dispatch picker]. rewrite typed_anything_quiet.
    + cbn [picker]. rewrite write_input_spinner, value_str. reflexivity.
    + apply quiet_input_changed_str; [exact Hv|].
      cbn [picker]. now rewrite write_input_spinner.
Qed.

Lemma set_value_no_msg_is_announced_witness :
  let w := idle (picker_at 2024 5 10) in
  0 <= 7 /\ input_value (spinner Day (picker w)) <> Text.str 7 /\
  exists w1,
    NumberSpinner.set_value_no_msg Day 7 w = Return tt w1 /\
    dispatch (InputChanged Day "7") (mkWorld (picker w1) [])
    = Return tt (mkWorld (picker w1) [NumberChanged Day 7]).
Proof.
  cbv zeta. split; [lia|].
  assert (N : input_value (spinner Day (picker (idle (picker_at 2024 5 10))))
              <> Text.str 7) by discriminate.
  split; [exact N|].
  destruct (set_value_no_msg_is_announced Day (idle (picker_at 2024 5 10)) 7)
    as (E & _ & D); [lia | exact N |].
  eexists. split; [exact E | exact D].
Defined.

(** X3 at work: the day text is 1a2. *)
Lemma typed_text_witness :
  let w := idle (mkPicker (mkSpinner 1 31 "1a2" true) (mkSpinner 1 12 "5" false)
                   (mkSpinner 2010 2027 "2024" false)) in
  Text.only_digits (input_value (spinner Day (picker w)))
  <> input_value (spinner Day (picker w)) /\
  exists w1,
    NumberSpinner._typed_anything Day "1a2" w = Return tt w1 /\
    input_value (spinner Day (picker w1)) = "12" /\
    queue w1 = [InputChanged Day "12"].
Proof.
  cbv zeta.
  assert (N : Text.only_digits
                (input_value (spinner Day (picker
                   (idle (mkPicker (mkSpinner 1 31 "1a2" true) (mkSpinner 1 12 "5" false)
                            (mkSpinner 2010 2027 "2024" false))))))
              <> "1a2") by discriminate.
  split; [exact N|].
  destruct (typed_text Day
              (idle (mkPicker (mkSpinner 1 31 "1a2" true) (mkSpinner 1 12 "5" false)
                       (mkSpinner 2010 2027 "2024" false)))) as [_ H].
  destruct (H N) as (E & T & _).
  eexists. split; [exact E|]. split; [exact T | reflexivity].
Defined.

(** ** [_on_spin] as a whole *)

Lemma assign_bounds r v w r' :
  min (spinner r' (picker (assign r v w))) = min (spinner r' (picker w)) /\
  max (spinner r' (picker (assign r v w))) = max (spinner r' (picker w)) /\
  input_has_focus (spinner r' (picker (assign r v w)))
  = input_has_focus (spinner r' (picker w)).
Proof. destruct r, r'; repeat split. Qed.

Lemma reassigned_bounds ok w w' :
  reassigned ok w w' ->
  forall r, min (spinner r (picker w')) = min (spinner r (picker w)) /\
            max (spinner r (picker w')) = max (spinner r (picker w)) /\
            input_has_focus (spinner r (picker w'))
            = input_has_focus (spinner r (picker w)).
Proof.
  induction 1 as [|r v w' _ _ IH]; intros r'; [repeat split|].
  destruct (assign_bounds r v w' r') as (-> & -> & ->). apply IH.
Qed.

Lemma reassigned_other ok w w' r' :
  reassigned ok w w' -> ok r' = false ->
  spinner r' (picker w') = spinner r' (picker w).
Proof.
  induction 1 as [|r v w' Hr _ IH]; intros Hr'; [reflexivity|].
  rewrite assign_other; [now apply IH|]. intros ->. congruence.
Qed.

Lemma queue_assign_grows r v w : exists q, queue (assign r v w) = (queue w ++ q)%list.
Proof. destruct (queue_assign r v w) as (l & E & _). now exists l. Qed.

Lemma reassigned_queue ok w w' :
  reassigned ok w w' -> exists q, queue w' = (queue w ++ q)%list.
Proof.
  induction 1 as [|r v w' _ _ [q IH]]; [exists []; now rewrite app_nil_r|].
  destruct (queue_assign_grows r v w') as [q' E].
  exists (q ++ q')%list. now rewrite E, IH, app_assoc.
Qed.

Ltac run_assignments :=
  cbv beta iota; repeat (rewrite set_value_eq; cbv beta iota).

Ltac split_conditions :=
  repeat match goal with
         | |- context [if ?c then _ else _] => destruct c
         end.

Ltac close_reassigned :=
  run_assignments; eexists; (split; [reflexivity|]);
  repeat (constructor; try reflexivity).

(** What [_on_spin] does is a sequence of assignments to spinners that the
    sender of the spin message admits. *)
Lemma on_spin_reassigns r d t w :
  exists w',
    BasicDatePicker._on_spin r d t w = Return tt w' /\
    reassigned (may_assign r) w w'.
Proof.
  destruct r.
  - open_on_spin.
    destruct (NumberSpinner.value (month_spinner (picker w)) =? 12) eqn:E12.
    + apply Z.eqb_eq in E12.
      rewrite highest_day_plain by (cbn [spinner]; lia). cbn [spinner].
      destruct (t =? _); [close_reassigned|].
      cbv beta iota. split_conditions; close_reassigned.
    + cbv beta iota. split_conditions; close_reassigned.
  - open_on_spin. split_conditions; close_reassigned.
  - eexists. split; [reflexivity | constructor].
Qed.

(** X5: [_on_spin] returns for every spin message and every world: it does
    not raise.  It only appends to the pending messages, and it leaves the
    bounds and the focus of all three spinners as they are.  For a message
    of the year spinner the world is left as it is, and for a message of
    the month spinner the day spinner is. *)
Theorem on_spin_frame (r : Role) (d : Direction) (t : Z) (w : World) :
  exists w',
    BasicDatePicker._on_spin r d t w = Return tt w' /\
    (exists q, queue w' = (queue w ++ q)%list) /\
    (forall r', min (spinner r' (picker w')) = min (spinner r' (picker w)) /\
                max (spinner r' (picker w')) = max (spinner r' (picker w)) /\
                input_has_focus (spinner r' (picker w'))
                = input_has_focus (spinner r' (picker w))) /\
    (r = Year -> w' = w) /\
    (r = Month -> day_spinner (picker w') = day_spinner (picker w)).
Proof.
  destruct (on_spin_reassigns r d t w) as (w' & E & R).
  exists w'. split; [exact E|].
  split; [now apply (reassigned_queue _ _ _ R)|].
  split; [now apply (reassigned_bounds _ _ _ R)|]. split.
  - intros ->. cbn in E. now injection E.
  - intros ->. apply (reassigned_other _ _ _ Day R). reflexivity.
Qed.

(** ** Errors and blanks *)

(** X6: a [NumberChanged] of the month or of the year that arrives while
    the month number is below 1 makes its handler raise
    [IllegalMonthError] with that number, after [Changed] has been posted
    and with the picker as it was; handling the pending messages stops
    there.  A month text of 0 is enough. *)
Theorem validate_raises_below_one (w : World) (r : Role) (n : Z)
  (Hr : r <> Day)
  (Hm : NumberSpinner.value (month_spinner (picker w)) < 1) :
  dispatch (NumberChanged r n) w
  = Raise (IllegalMonthError (NumberSpinner.value (month_spinner (picker w))))
      (post (Changed r n) w) /\
  forall fuel q,
    run (S fuel) (mkWorld (picker w) (NumberChanged r n :: q))
    = Some (Raise (IllegalMonthError (NumberSpinner.value (month_spinner (picker w))))
              (post (Changed r n) (mkWorld (picker w) q))).
Proof.
  assert (E : forall w0, NumberSpinner.value (month_spinner (picker w0)) < 1 ->
              dispatch (NumberChanged r n) w0
              = Raise (IllegalMonthError (NumberSpinner.value (month_spinner (picker w0))))
                  (post (Changed r n) w0)).
  { intros w0 H0.
    assert (V : BasicDatePicker.validate (post (Changed r n) w0)
                = Raise (IllegalMonthError
                           (NumberSpinner.value (month_spinner (picker w0))))
                    (post (Changed r n) w0)).
    { unfold BasicDatePicker.validate.
      now rewrite (bind_Raise _ _ _ _ _ (highest_day_below (post (Changed r n) w0) H0)). }
    destruct r; [now destruct Hr | exact V | exact V]. }
  split; [now apply E|].
  intros fuel q. cbn [run queue picker]. now rewrite (E (mkWorld (picker w) q) Hm).
Qed.

(** X6 at work: the month text is 0. *)
Lemma validate_raises_below_one_witness :
  let w := idle (mkPicker (mkSpinner 1 31 "15" false) (mkSpinner 1 12 "0" true)
                   (mkSpinner 2010 2027 "2024" false)) in
  Month <> Day /\
  NumberSpinner.value (month_spinner (picker w)) < 1 /\
  dispatch (NumberChanged Month 0) w
  = Raise (IllegalMonthError 0) (post (Changed Month 0) w).
Proof.
  cbv zeta. split; [discriminate|]. split; [reflexivity|].
  destruct (validate_raises_below_one
              (idle (mkPicker (mkSpinner 1 31 "15" false) (mkSpinner 1 12 "0" true)
                       (mkSpinner 2010 2027 "2024" false))) Month 0)
    as [E _]; [discriminate | reflexivity | exact E].
Defined.

(** X7: a field whose text is empty or no number reads as its minimum, so
    the getter of [date] of a picker with three such fields works on the
    three minima.  When they fit C [int]s it gives the date made of them
    when that is a date of the calendar, and [None] when it is not.  When
    one of them does not fit a C [int], as with a minimum year of 2^31,
    the getter raises [OverflowError]. *)
Theorem date_of_blank_fields (w : World)
  (Hd : Text.int (input_value (day_spinner (picker w))) = None)
  (Hm : Text.int (input_value (month_spinner (picker w))) = None)
  (Hy : Text.int (input_value (year_spinner (picker w))) = None) :
  let y := min (year_spinner (picker w)) in
  let m := min (month_spinner (picker w)) in
  let d := min (day_spinner (picker w)) in
  BasicDatePicker.date w
  = if Date.c_int y && Date.c_int m && Date.c_int d
    then Return (if Date.is_valid y m d then Some (mkDate y m d) else None) w
    else Raise OverflowError w.
Proof.
  cbv zeta. rewrite date_result. unfold shown, NumberSpinner.value.
  now rewrite Hd, Hm, Hy.
Qed.

Lemma date_of_blank_fields_witness :
  let w := idle (mkPicker (mkSpinner 1 31 "" true) (mkSpinner 1 12 "" false)
                   (mkSpinner 2010 2027 "" false)) in
  Text.int (input_value (day_spinner (picker w))) = None /\
  Text.int (input_value (month_spinner (picker w))) = None /\
  Text.int (input_value (year_spinner (picker w))) = None /\
  BasicDatePicker.date w = Return (Some (mkDate 2010 1 1)) w.
Proof.
  cbv zeta. repeat (split; [reflexivity|]).
  exact (date_of_blank_fields
           (idle (mkPicker (mkSpinner 1 31 "" true) (mkSpinner 1 12 "" false)
                    (mkSpinner 2010 2027 "" false))) eq_refl eq_refl eq_refl).
Defined.

(** ** Construction *)

Lemma init_in_range lo hi v :
  lo <= v <= hi ->
  NumberSpinner.init lo hi (Some v) = mkSpinner lo hi (Text.str v) false.
Proof.
  intros H. unfold NumberSpinner.init, NumberSpinner.number_valid.
  rewrite value_str. cbn [min max].
  destruct (Z.leb_spec lo v); [|lia]. destruct (Z.leb_spec v hi); [|lia].
  reflexivity.
Qed.

Lemma init_out_of_range lo hi v :
  ~ (lo <= v <= hi) ->
  NumberSpinner.init lo hi (Some v) = mkSpinner lo hi (Text.str lo) false.
Proof.
  intros H. unfold NumberSpinner.init, NumberSpinner.number_valid.
  rewrite value_str. cbn [min max].
  destruct (Z.leb_spec lo v); destruct (Z.leb_spec v hi); try reflexivity. lia.
Qed.

(** X8: a picker made for a date of the calendar shows the day and the
    month of that date, and its year when that lies between the minimum
    year and the year after today's; a year outside is replaced by the
    minimum year.  The bounds are 1..31, 1..12 and minimum year to next
    year: the day maximum is 31 whatever the month.  With the year in range
    the getter gives the date back. *)
Theorem init_shows (today : DateTuple) (min_year : Z) (v : DateTuple)
  (Hv : Date.is_valid (year v) (month v) (day v) = true) :
  let p := BasicDatePicker.init today min_year (Some v) in
  shown p
  = (if (min_year <=? year v) && (year v <=? year today + 1)
     then year v else min_year,
     month v, day v) /\
  (min (day_spinner p), max (day_spinner p)) = (1, 31) /\
  (min (month_spinner p), max (month_spinner p)) = (1, 12) /\
  (min (year_spinner p), max (year_spinner p)) = (min_year, year today + 1) /\
  (min_year <= year v <= year today + 1 ->
   BasicDatePicker.date (idle p) = Return (Some v) (idle p)).
Proof.
  cbv zeta. apply is_valid_inv in Hv as Hr. destruct Hr as (Hy & Hm & Hd).
  assert (D31 : Calendar.days_in_month (year v) (month v) <= 31).
  { rewrite days_in_month_gregorian by exact Hm. unfold Gregorian.days_in_month.
    destruct (_ =? 2); [destruct (Gregorian.leap _); lia|].
    destruct (_ || _); lia. }
  unfold BasicDatePicker.init.
  rewrite (init_in_range 1 31) by lia. rewrite (init_in_range 1 12) by lia.
  assert (S : shown (mkPicker (mkSpinner 1 31 (Text.str (day v)) false)
                       (mkSpinner 1 12 (Text.str (month v)) false)
                       (NumberSpinner.init min_year (year today + 1) (Some (year v))))
              = (if (min_year <=? year v) && (year v <=? year today + 1)
                 then year v else min_year, month v, day v)).
  { unfold shown. cbn [day_spinner month_spinner year_spinner].
    rewrite !value_str.
    destruct (Z.leb_spec min_year (year v)); destruct (Z.leb_spec (year v) (year today + 1));
      cbn [andb];
      [rewrite init_in_range by lia | rewrite init_out_of_range by lia ..];
      now rewrite value_str. }
  split; [exact S|].
  split; [reflexivity|]. split; [reflexivity|]. split.
  - destruct (Z_le_dec min_year (year v)); destruct (Z_le_dec (year v) (year today + 1));
      [rewrite init_in_range by lia | rewrite init_out_of_range by lia ..]; reflexivity.
  - intros Hin. apply date_of_shown; [|exact Hv]. cbn [idle picker]. rewrite S.
    destruct (Z.leb_spec min_year (year v)); [|lia].
    destruct (Z.leb_spec (year v) (year today + 1)); [|lia]. reflexivity.
Qed.

Lemma init_shows_witness :
  Date.is_valid 1999 2 28 = true /\
  shown (BasicDatePicker.init (mkDate 2026 11 4) 2010 (Some (mkDate 1999 2 28)))
  = (2010, 2, 28) /\
  max (day_spinner (BasicDatePicker.init (mkDate 2026 11 4) 2010 (Some (mkDate 1999 2 28))))
  = 31.
Proof.
  split; [reflexivity|].
  destruct (init_shows (mkDate 2026 11 4) 2010 (mkDate 1999 2 28) eq_refl)
    as (S & B & _).
  split; [exact S|]. exact (f_equal snd B).
Defined.

(** ** The month rules of [_on_spin] *)

Lemma on_spin_month_underflow w d t :
  min (month_spinner (picker w)) <= max (month_spinner (picker w)) ->
  t < min (month_spinner (picker w)) ->
  BasicDatePicker._on_spin Month d t w
  = Return tt
      (if NumberSpinner.value (year_spinner (picker w)) >=? min (year_spinner (picker w))
       then assign Month (max (month_spinner (picker w)))
              (assign Year (NumberSpinner.value (year_spinner (picker w)) - 1) w)
       else w).
Proof.
  intros Hb Ht. open_on_spin.
  destruct (Z.gtb_spec t (max (month_spinner (picker w)))); [lia|].
  cbn [andb]. cbv beta iota.
  destruct (Z.ltb_spec t (min (month_spinner (picker w)))); [|lia].
  cbn [andb].
  destruct (NumberSpinner.value (year_spinner (picker w)) >=? min (year_spinner (picker w))).
  - run_assignments. reflexivity.
  - reflexivity.
Qed.

(** X9: for a spin message of the month spinner with a transient number
    below the month minimum, the rule of the month underflow applies while
    the year number is at least the year minimum, the minimum itself
    included: the year goes down by one and the month becomes the month
    maximum.  Below the minimum year nothing is changed. *)
Theorem month_underflow_rule (w : World) (d : Direction) (t : Z)
  (Hb : min (month_spinner (picker w)) <= max (month_spinner (picker w)))
  (Ht : t < min (month_spinner (picker w))) :
  (min (year_spinner (picker w)) <= NumberSpinner.value (year_spinner (picker w)) ->
   BasicDatePicker._on_spin Month d t w
   = Return tt (assign Month (max (month_spinner (picker w)))
                  (assign Year (NumberSpinner.value (year_spinner (picker w)) - 1) w))) /\
  (NumberSpinner.value (year_spinner (picker w)) < min (year_spinner (picker w)) ->
   BasicDatePicker._on_spin Month d t w = Return tt w).
Proof.
  rewrite on_spin_month_underflow by assumption.
  destruct (Z.geb_spec (NumberSpinner.value (year_spinner (picker w)))
              (min (year_spinner (picker w)))); split; intros Hy; (reflexivity || lia).
Qed.

(** X9 at work: month down from 2010-01-15, 2010 being the minimum year *)
Lemma month_underflow_rule_witness :
  let w := idle (picker_at 2010 1 15) in
  min (month_spinner (picker w)) <= max (month_spinner (picker w)) /\
  0 < min (month_spinner (picker w)) /\
  exists w',
    BasicDatePicker._on_spin Month down 0 w = Return tt w' /\
    shown (picker w') = (2009, 12, 15) /\
    min (year_spinner (picker w')) = 2010.
Proof.
  cbv zeta. split; [vm_compute; discriminate|]. split; [reflexivity|].
  destruct (month_underflow_rule (idle (picker_at 2010 1 15)) down 0) as [H _];
    [vm_compute; discriminate | reflexivity |].
  eexists. split; [apply H; vm_compute; discriminate|]. split; reflexivity.
Defined.

(** * Settling *)

(** ** The length of a month *)

Lemma days_in_month_range y m :
  1 <= m <= 12 -> 28 <= Calendar.days_in_month y m <= 31.
Proof.
  intros H. rewrite days_in_month_gregorian by exact H.
  unfold Gregorian.days_in_month.
  destruct (m =? 2); [destruct (Gregorian.leap y); lia|].
  destruct (_ || _); lia.
Qed.

Lemma len_str_two_digits n : 28 <= n <= 31 -> Text.len (Text.str n) = 2.
Proof.
  intros H. assert (C : n = 28 \/ n = 29 \/ n = 30 \/ n = 31) by lia.
  destruct C as [-> | [-> | [-> | ->]]]; reflexivity.
Qed.

(** ** What [validate] makes of a syncable picker *)

Lemma validated_value p :
  NumberSpinner.value (day_spinner (validated p))
  = if NumberSpinner.value (day_spinner p) >? ceiling p then ceiling p
    else NumberSpinner.value (day_spinner p).
Proof.
  unfold validated. cbn [day_spinner].
  destruct (_ >? _).
  - apply value_str.
  - rewrite (value_max_irrelevant _ _ (max (day_spinner p))). now rewrite spinner_eta.
Qed.

Lemma validated_value_min p :
  NumberSpinner.value (day_spinner (validated p))
  = Z.min (NumberSpinner.value (day_spinner p)) (ceiling p).
Proof.
  rewrite validated_value.
  destruct (Z.gtb_spec (NumberSpinner.value (day_spinner p)) (ceiling p)); lia.
Qed.

Lemma validated_ceiling p : ceiling (validated p) = ceiling p.
Proof. reflexivity. Qed.

Lemma validated_idem p : validated (validated p) = validated p.
Proof.
  unfold validated at 1. rewrite validated_ceiling, validated_value.
  unfold validated. cbn [day_spinner month_spinner year_spinner min input_value input_has_focus].
  destruct (Z.gtb_spec (NumberSpinner.value (day_spinner p)) (ceiling p)) as [G|G].
  - now rewrite Z.gtb_ltb, Z.ltb_irrefl.
  - destruct (Z.gtb_spec (NumberSpinner.value (day_spinner p)) (ceiling p)); [lia|].
    reflexivity.
Qed.

Lemma syncable_validated p : syncable p -> syncable (validated p).
Proof.
  intros (Hm & Hne & Hlo & Hc & Hlen). unfold syncable.
  rewrite validated_ceiling, validated_value_min.
  repeat split; try apply Hm; cbn [validated day_spinner min input_value].
  - destruct (_ >? _); [|exact Hne].
    intros E. pose proof (str_nonempty (ceiling p)) as N. rewrite E in N. discriminate N.
  - lia.
  - exact Hc.
  - lia.
Qed.

Lemma debt_validated p : debt (validated p) = O.
Proof.
  unfold debt. rewrite validated_ceiling, validated_value_min.
  destruct (Z.gtb_spec (Z.min (NumberSpinner.value (day_spinner p)) (ceiling p))
              (ceiling p)); [lia | reflexivity].
Qed.

(** [validate] on a syncable picker: the picker becomes [validated], and
    one [Input.Changed] of the day is posted at most, when the day is
    rewritten. *)
Lemma validate_syncable w :
  syncable (picker w) ->
  exists q,
    BasicDatePicker.validate w
    = Return tt (mkWorld (validated (picker w)) (queue w ++ q)) /\
    (q = [] \/
     (q = [InputChanged Day (Text.str (ceiling (picker w)))] /\
      ceiling (picker w) < NumberSpinner.value (day_spinner (picker w)))).
Proof.
  intros (Hm & Hne & Hlo & Hc & _). unfold BasicDatePicker.validate.
  rewrite (bind_Return _ _ _ _ _ (highest_day_plain w Hm)).
  change (Calendar.days_in_month _ _) with (ceiling (picker w)).
  unfold bind at 1, set_max at 1. cbv beta iota.
  set (h := ceiling (picker w)) in *. set (w2 := write_max Day h w).
  assert (S2 : spinner Day (picker w2)
               = mkSpinner (min (day_spinner (picker w))) h
                   (input_value (day_spinner (picker w)))
                   (input_has_focus (day_spinner (picker w)))) by reflexivity.
  assert (V2 : NumberSpinner.value
                 (mkSpinner (min (day_spinner (picker w))) h
                    (input_value (day_spinner (picker w)))
                    (input_has_focus (day_spinner (picker w))))
               = NumberSpinner.value (day_spinner (picker w))).
  { rewrite (value_max_irrelevant _ _ (max (day_spinner (picker w)))).
    now rewrite spinner_eta. }
  pose proof (constrain_value_result Day w2) as C. cbv zeta in C.
  rewrite S2 in C. cbn [min max input_value] in C. rewrite V2 in C.
  destruct C as [[E Hin]|[(E & _ & Hv & _)|(w' & _ & _ & _ & Hv)]].
  - exists []. split; [|now left]. rewrite E, app_nil_r. f_equal.
    unfold w2, write_max, validated. cbn [picker queue spinner with_spinner]. fold h.
    destruct Hin as [Hin|Hin]; [congruence|].
    destruct (Z.gtb_spec (NumberSpinner.value (day_spinner (picker w))) h); [lia|].
    reflexivity.
  - rewrite E. unfold write_input. rewrite S2. cbn [min max input_value input_has_focus].
    assert (P : with_spinner Day
                  (mkSpinner (min (day_spinner (picker w))) h (Text.str h)
                     (input_has_focus (day_spinner (picker w)))) (picker w2)
                = validated (picker w)).
    { unfold validated. fold h.
      destruct (Z.gtb_spec (NumberSpinner.value (day_spinner (picker w))) h); [|lia].
      reflexivity. }
    rewrite P. change (queue w2) with (queue w).
    destruct (String.eqb _ _).
    + exists []. rewrite app_nil_r. split; [reflexivity | now left].
    + eexists. split; [reflexivity|]. right. split; [reflexivity | lia].
  - lia.
Qed.

(** ** Calm worlds *)

Lemma pending_sync_app q1 q2 :
  pending_sync (q1 ++ q2) = pending_sync q1 || pending_sync q2.
Proof. apply existsb_app. Qed.

Lemma pending_sync_cons m q : pending_sync (m :: q) = is_sync m || pending_sync q.
Proof. reflexivity. Qed.

(** Handling a message keeps a message that runs [validate] pending, when
    the message handled is replaced by one that does so if it did. *)
Lemma pending_sync_replace q1 m q2 m' :
  (is_sync m = true -> is_sync m' = true) ->
  pending_sync (q1 ++ m :: q2) = true ->
  pending_sync ((q1 ++ q2) ++ [m']) = true.
Proof.
  intros Hm. rewrite !pending_sync_app, !pending_sync_cons. cbn [pending_sync existsb].
  destruct (pending_sync q1), (pending_sync q2), (is_sync m); cbn; try reflexivity;
    try discriminate.
  intros _. rewrite Hm; reflexivity.
Qed.

Lemma Forall_remove {A} (P : A -> Prop) q1 m q2 :
  Forall P (q1 ++ m :: q2) -> P m /\ Forall P (q1 ++ q2).
Proof.
  intros H. apply Forall_app in H as [H1 H2]. inversion H2; subst.
  split; [assumption|]. apply Forall_app. now split.
Qed.

Lemma Forall_snoc {A} (P : A -> Prop) q m :
  Forall P q -> P m -> Forall P (q ++ [m]).
Proof. intros Hq Hm. apply Forall_app. split; [exact Hq | now repeat constructor]. Qed.

Lemma total_weight_snoc q m :
  total_weight (q ++ [m]) = (total_weight q + weight m)%nat.
Proof. rewrite total_weight_app, total_weight_cons. change (total_weight []) with O. lia. Qed.

Lemma total_weight_remove q1 m q2 :
  total_weight (q1 ++ m :: q2) = (total_weight (q1 ++ q2) + weight m)%nat.
Proof. rewrite !total_weight_app, total_weight_cons. lia. Qed.

Lemma mild_validated p m : syncable p -> mild p m -> mild (validated p) m.
Proof.
  intros (_ & _ & _ & _ & Hlen) H.
  destruct m as [| r t | r d t | |]; try exact H.
  destruct r; try exact H. cbn [mild spinner] in *.
  unfold validated. cbn [day_spinner input_value].
  destruct (Z.gtb_spec (NumberSpinner.value (day_spinner p)) (ceiling p)) as [G|G];
    [|exact H].
  rewrite Hlen by lia. exact H.
Qed.

(** In a calm world the pending messages are mild for the picker it has. *)
Lemma calm_mild_here p0 w m : calm p0 w -> mild p0 m -> mild (picker w) m.
Proof.
  intros (Hs & _ & [[-> _]| ->]) H; [exact H | now apply mild_validated].
Qed.

Lemma on_spin_month_inside d t w :
  min (month_spinner (picker w)) <= t <= max (month_spinner (picker w)) ->
  BasicDatePicker._on_spin Month d t w = Return tt w.
Proof.
  intros H. open_on_spin.
  destruct (Z.gtb_spec t (max (month_spinner (picker w)))); [lia|].
  cbn [andb]. cbv beta iota.
  destruct (Z.ltb_spec t (min (month_spinner (picker w)))); [lia|]. reflexivity.
Qed.

Lemma calm_picker p0 w : calm p0 w -> picker w = p0 \/ picker w = validated p0.
Proof. intros (_ & _ & [[H _]|H]); [now left | now right]. Qed.

Lemma calm_month_spinner p0 w :
  calm p0 w -> month_spinner (picker w) = month_spinner p0.
Proof. intros H. destruct (calm_picker _ _ H) as [-> | ->]; reflexivity. Qed.

(** [validate] in a calm world *)
Lemma validate_calm p0 w :
  syncable p0 -> picker w = p0 \/ picker w = validated p0 ->
  exists q,
    BasicDatePicker.validate w = Return tt (mkWorld (validated p0) (queue w ++ q)) /\
    Forall (mild p0) q /\
    (total_weight q + debt (validated p0) <= debt (picker w))%nat.
Proof.
  intros Hs Hp.
  destruct Hp as [Ep|Ep].
  - destruct (validate_syncable w) as (q & E & Hq); [now rewrite Ep|].
    rewrite Ep in *. exists q. split; [exact E|].
    rewrite debt_validated.
    destruct Hq as [-> | [-> G]]; [split; [constructor | cbn; lia]|].
    split.
    + repeat constructor. cbn [mild spinner].
      destruct Hs as (Hm & _ & _ & _ & Hlen).
      rewrite only_digits_str; [symmetry; now apply Hlen|].
      pose proof (days_in_month_range (NumberSpinner.value (year_spinner p0)) _ Hm).
      unfold ceiling. lia.
    + unfold debt.
      destruct (Z.gtb_spec (NumberSpinner.value (day_spinner p0)) (ceiling p0)); [|lia].
      cbn. lia.
  - destruct (validate_syncable w) as (q & E & Hq);
      [rewrite Ep; now apply syncable_validated|].
    rewrite Ep, validated_idem in *. exists q. split; [exact E|].
    rewrite debt_validated.
    destruct Hq as [-> | [_ G]]; [split; [constructor | cbn; lia]|].
    exfalso. rewrite validated_ceiling, validated_value_min in G. lia.
Qed.

(** Handling a pending message of a calm world leaves a calm world with
    less to do. *)
Lemma calm_dispatch p0 p q1 m q2 :
  calm p0 (mkWorld p (q1 ++ m :: q2)) ->
  exists p' q',
    dispatch m (mkWorld p (q1 ++ q2)) = Return tt (mkWorld p' q') /\
    calm p0 (mkWorld p' q') /\
    (total_weight q' + debt p' < total_weight (q1 ++ m :: q2) + debt p)%nat.
Proof.
  intros C. pose proof C as (Hs & Hq & Hp). cbn [picker queue] in *.
  apply Forall_remove in Hq as [Hm Hq].
  pose proof (calm_mild_here _ _ _ C Hm) as Hm'. cbn [picker] in Hm'.
  rewrite total_weight_remove.
  (* the world left is calm when the message handled did not run [validate] *)
  assert (K : forall m', mild p0 m' -> (is_sync m = true -> is_sync m' = true) ->
                calm p0 (mkWorld p ((q1 ++ q2) ++ [m']))).
  { intros m' M S. split; [exact Hs|]. split; [now apply Forall_snoc|].
    cbn [picker queue]. destruct Hp as [[Ep Hsync]|Ep]; [left | now right].
    split; [exact Ep|]. now apply (pending_sync_replace q1 m q2 m'). }
  destruct m as [r b | r t | r d t | r n | r n].
  - contradiction.
  - (* Input.Changed *)
    exists p, ((q1 ++ q2) ++ [NumberChanged r (NumberSpinner.value (spinner r p))])%list.
    split; [|split].
    + cbn [dispatch]. now rewrite typed_anything_quiet.
    + apply K; [exact I|]. destruct r; cbn; congruence.
    + rewrite total_weight_snoc. cbn [weight]. lia.
  - (* ButtonSpin *)
    exists p, (q1 ++ q2)%list. split; [|split].
    + cbn [dispatch]. destruct r; [contradiction | | reflexivity].
      now apply on_spin_month_inside.
    + split; [exact Hs|]. split; [exact Hq|]. cbn [picker queue].
      destruct Hp as [[Ep Hsync]|Ep]; [left | now right].
      split; [exact Ep|].
      rewrite pending_sync_app, pending_sync_cons in Hsync.
      rewrite pending_sync_app. destruct r; cbn [is_sync orb] in Hsync; exact Hsync.
    + destruct r; cbn [weight]; lia.
  - (* NumberChanged *)
    destruct r.
    + exists p, ((q1 ++ q2) ++ [Changed Day n])%list. split; [reflexivity|].
      split; [now apply K|]. rewrite total_weight_snoc. cbn [weight]. lia.
    + destruct (validate_calm p0 (post (Changed Month n) (mkWorld p (q1 ++ q2))) Hs)
        as (q & E & Mq & W); [exact (calm_picker _ _ C)|].
      exists (validated p0), (((q1 ++ q2) ++ [Changed Month n]) ++ q)%list.
      split; [exact E|]. split.
      * split; [exact Hs|]. split; [|now right].
        apply Forall_app. split; [now apply Forall_snoc | exact Mq].
      * rewrite total_weight_app, total_weight_snoc. cbn [weight post picker] in *. lia.
    + destruct (validate_calm p0 (post (Changed Year n) (mkWorld p (q1 ++ q2))) Hs)
        as (q & E & Mq & W); [exact (calm_picker _ _ C)|].
      exists (validated p0), (((q1 ++ q2) ++ [Changed Year n]) ++ q)%list.
      split; [exact E|]. split.
      * split; [exact Hs|]. split; [|now right].
        apply Forall_app. split; [now apply Forall_snoc | exact Mq].
      * rewrite total_weight_app, total_weight_snoc. cbn [weight post picker] in *. lia.
  - (* Changed *)
    exists p, (q1 ++ q2)%list. split; [reflexivity|]. split.
    + split; [exact Hs|]. split; [exact Hq|]. cbn [picker queue].
      destruct Hp as [[Ep Hsync]|Ep]; [left | now right].
      split; [exact Ep|].
      rewrite pending_sync_app, pending_sync_cons in Hsync.
      rewrite pending_sync_app. exact Hsync.
    + cbn [weight]. lia.
Qed.

Lemma calm_step p0 w w' :
  calm p0 w -> step w w' ->
  calm p0 w' /\
  (total_weight (queue w') + debt (picker w')
   < total_weight (queue w) + debt (picker w))%nat.
Proof.
  intros C S. destruct S as [p q1 m q2 w' E].
  destruct (calm_dispatch p0 p q1 m q2 C) as (p' & q' & E' & C' & W).
  rewrite E' in E. injection E as <-. now split.
Qed.

Lemma calm_steps p0 w w' : calm p0 w -> steps w w' -> calm p0 w'.
Proof.
  intros C S. induction S as [w|w1 w2 w3 S12 _ IH]; [exact C|].
  apply IH. now apply (calm_step p0 w1 w2).
Qed.

(** A calm world with nothing pending has the validated picker. *)
Lemma calm_settled p0 w : calm p0 w -> settled w -> picker w = validated p0.
Proof.
  intros (_ & _ & [[_ Hs]|E]) Hq; [|exact E].
  unfold settled in Hq. rewrite Hq in Hs. discriminate Hs.
Qed.

Lemma calm_progress p0 w : calm p0 w -> settled w \/ exists w', step w w'.
Proof.
  intros C. destruct w as [p [|m q]]; [now left | right].
  destruct (calm_dispatch p0 p [] m q C) as (p' & q' & E & _).
  eexists. apply (step_dispatch p [] m q). exact E.
Qed.

Lemma calm_run p0 n w :
  calm p0 w -> (total_weight (queue w) + debt (picker w) <= n)%nat ->
  exists w', run n w = Some (Return tt w') /\ settled w' /\ calm p0 w'.
Proof.
  revert w. induction n as [|n IH]; intros [p q] C W; cbn [queue picker] in W.
  - destruct q as [|m q].
    + exists (mkWorld p []). repeat split; try reflexivity; apply C.
    + rewrite total_weight_cons in W. destruct m; cbn [weight] in W; lia.
  - destruct q as [|m q].
    + exists (mkWorld p []). repeat split; try reflexivity; apply C.
    + destruct (calm_dispatch p0 p [] m q C) as (p' & q' & E & C' & W').
      cbn [List.app] in E, W'.
      destruct (IH _ C') as (w' & Er & Hs & C''); [cbn [queue picker]; lia|].
      exists w'. split; [|split; assumption].
      cbn [run queue picker]. now rewrite E.
Qed.

(** However the messages of a calm world are handled, the picker ends as
    [validated]. *)
Lemma calm_settles p0 w : calm p0 w -> settles_at w (fun p => p = validated p0).
Proof.
  intros C. split; [|split].
  - intros p q1 m q2 S.
    destruct (calm_dispatch p0 p q1 m q2 (calm_steps p0 w _ C S)) as (p' & q' & E & _).
    now exists (mkWorld p' q').
  - intros w' S Hs. apply calm_settled; [|exact Hs]. now apply (calm_steps p0 w).
  - destruct (calm_run p0 _ w C (Nat.le_refl _)) as (w' & E & Hs & C').
    exists (total_weight (queue w) + debt (picker w))%nat, w'.
    split; [exact E|]. split; [exact Hs|]. now apply calm_settled.
Qed.

(** ** Inert worlds *)

Lemma inert_dispatch p q1 m q2 :
  inert (mkWorld p (q1 ++ m :: q2)) ->
  exists q',
    dispatch m (mkWorld p (q1 ++ q2)) = Return tt (mkWorld p q') /\
    inert (mkWorld p q') /\
    (total_weight q' < total_weight (q1 ++ m :: q2))%nat.
Proof.
  intros [Hs Hq]. cbn [picker queue] in *.
  apply Forall_remove in Hq as [Hm Hq].
  rewrite pending_sync_app, pending_sync_cons in Hs.
  apply orb_false_elim in Hs as [Hs1 Hs]. apply orb_false_elim in Hs as [Hsm Hs2].
  assert (Hs12 : pending_sync (q1 ++ q2) = false)
    by (rewrite pending_sync_app, Hs1, Hs2; reflexivity).
  rewrite total_weight_remove.
  assert (K : forall m', harmless p m' -> is_sync m' = false ->
                inert (mkWorld p ((q1 ++ q2) ++ [m']))).
  { intros m' H S. split; cbn [picker queue].
    - rewrite pending_sync_app, Hs12. cbn. now rewrite S.
    - now apply Forall_snoc. }
  destruct m as [r b | r t | r d t | r n | r n].
  - contradiction.
  - exists ((q1 ++ q2) ++ [NumberChanged r (NumberSpinner.value (spinner r p))])%list.
    split; [|split].
    + cbn [dispatch]. now rewrite typed_anything_quiet.
    + apply K; [exact I|]. destruct r; [reflexivity | discriminate Hsm ..].
    + rewrite total_weight_snoc. cbn [weight]. lia.
  - exists (q1 ++ q2)%list. split; [apply Hm|]. split; [now split|].
    cbn [weight]. lia.
  - destruct r; [|discriminate Hsm ..].
    exists ((q1 ++ q2) ++ [Changed Day n])%list. split; [reflexivity|].
    split; [now apply K|]. rewrite total_weight_snoc. cbn [weight]. lia.
  - exists (q1 ++ q2)%list. split; [reflexivity|]. split; [now split|].
    cbn [weight]. lia.
Qed.

Lemma inert_step w w' :
  inert w -> step w w' ->
  inert w' /\ picker w' = picker w /\
  (total_weight (queue w') < total_weight (queue w))%nat.
Proof.
  intros C S. destruct S as [p q1 m q2 w' E].
  destruct (inert_dispatch p q1 m q2 C) as (q' & E' & C' & W).
  rewrite E' in E. injection E as <-.
  split; [exact C' | split; [reflexivity | exact W]].
Qed.

Lemma inert_steps w w' : inert w -> steps w w' -> inert w' /\ picker w' = picker w.
Proof.
  intros C S. induction S as [w|w1 w2 w3 S12 _ IH]; [now split|].
  destruct (inert_step _ _ C S12) as (C2 & E2 & _).
  destruct (IH C2) as (C3 & E3). split; [exact C3 | congruence].
Qed.

Lemma inert_run n w :
  inert w -> (total_weight (queue w) <= n)%nat ->
  exists w', run n w = Some (Return tt w') /\ settled w' /\ picker w' = picker w.
Proof.
  revert w. induction n as [|n IH]; intros [p q] C W; cbn [queue picker] in W.
  - destruct q as [|m q].
    + exists (mkWorld p []). repeat split.
    + rewrite total_weight_cons in W. destruct m; cbn [weight] in W; lia.
  - destruct q as [|m q].
    + exists (mkWorld p []). repeat split.
    + destruct (inert_dispatch p [] m q C) as (q' & E & C' & W').
      cbn [List.app] in E, W'.
      destruct (IH _ C') as (w' & Er & Hs & Ep); [cbn [queue]; lia|].
      exists w'. split; [|split; assumption].
      cbn [run queue picker]. now rewrite E.
Qed.

(** However the messages of an inert world are handled, the picker stays
    as it is. *)
Lemma inert_settles w : inert w -> settles_at w (fun p => p = picker w).
Proof.
  intros C. split; [|split].
  - intros p q1 m q2 S. destruct (inert_steps _ _ C S) as [C' _].
    destruct (inert_dispatch p q1 m q2 C') as (q' & E & _).
    now exists (mkWorld p q').
  - intros w' S _. now destruct (inert_steps _ _ C S).
  - destruct (inert_run _ w C (Nat.le_refl _)) as (w' & E & Hs & Ep).
    now exists (total_weight (queue w)), w'.
Qed.

(** ** Reasoning with [settles_at] *)

Lemma settles_at_weaken w (P Q : BasicDatePicker -> Prop) :
  (forall p, P p -> Q p) -> settles_at w P -> settles_at w Q.
Proof.
  intros H (S1 & S2 & fuel & w' & E & Hs & HP).
  split; [exact S1|]. split; [intros w'' St Hs'; apply H; now apply S2|].
  exists fuel, w'. split; [exact E|]. split; [exact Hs | now apply H].
Qed.

Lemma step_single p m w :
  step (mkWorld p [m]) w -> dispatch m (mkWorld p []) = Return tt w.
Proof.
  intros S. remember (mkWorld p [m]) as w0 eqn:Ew.
  destruct S as [p' q1 m' q2 w' E]. injection Ew as -> Hq.
  destruct q1 as [|x q1].
  - cbn in Hq. injection Hq as -> ->. exact E.
  - cbn in Hq. injection Hq as _ Hq. destruct q1; discriminate Hq.
Qed.

(** A world with one pending message settles as the world its handler
    leaves. *)
Lemma settles_at_single p m w1 P :
  dispatch m (mkWorld p []) = Return tt w1 ->
  settles_at w1 P -> settles_at (mkWorld p [m]) P.
Proof.
  intros E (S1 & S2 & fuel & w' & Er & Hs & HP).
  assert (Inv : forall w, steps (mkWorld p [m]) w -> w = mkWorld p [m] \/ steps w1 w).
  { intros w St. inversion St as [|wa wb wc S12 S23]; subst; [now left | right].
    apply step_single in S12. rewrite E in S12. now injection S12 as <-. }
  split; [|split].
  - intros p' q1 m' q2 St. destruct (Inv _ St) as [E0 | St1]; [|now apply S1].
    injection E0 as -> Hq. destruct q1 as [|x q1].
    + cbn in Hq. injection Hq as -> ->. now exists w1.
    + cbn in Hq. injection Hq as _ Hq. destruct q1; discriminate Hq.
  - intros w St Hw. destruct (Inv w St) as [-> | St1]; [discriminate Hw|].
    now apply S2.
  - exists (S fuel), w'. split; [|split; assumption].
    cbn [run queue picker]. now rewrite E.
Qed.

(** ** From the handlers to calm worlds *)

Lemma quiet_mild p m : quiet p m -> mild p m.
Proof. destruct m as [| | r d t | |]; cbn; auto. contradiction. Qed.

Lemma Forall_quiet_mild p q : Forall (quiet p) q -> Forall (mild p) q.
Proof. apply Forall_impl. apply quiet_mild. Qed.

Lemma quiet_harmless p m : quiet p m -> harmless p m.
Proof. destruct m as [| | r d t | |]; cbn; auto. contradiction. Qed.

Lemma pending_sync_in m q : In m q -> is_sync m = true -> pending_sync q = true.
Proof. intros Hin Hs. apply existsb_exists. now exists m. Qed.

Lemma in_queue_assign m r v w : In m (queue w) -> In m (queue (assign r v w)).
Proof.
  intros H. destruct (queue_assign_grows r v w) as [q ->]. apply in_or_app. now left.
Qed.

Lemma validated_shown p :
  shown (validated p)
  = (NumberSpinner.value (year_spinner p), NumberSpinner.value (month_spinner p),
     Z.min (NumberSpinner.value (day_spinner p)) (ceiling p)).
Proof. unfold shown. now rewrite validated_value_min. Qed.

(** The day spinner of a picker whose day text is the decimal text of a
    number between the day minimum and 31, the minimum being at most 28,
    suits [validate] in every month. *)
Lemma syncable_intro p d :
  1 <= NumberSpinner.value (month_spinner p) <= 12 ->
  input_value (day_spinner p) = Text.str d ->
  min (day_spinner p) <= d <= 31 -> min (day_spinner p) <= 28 ->
  syncable p.
Proof.
  intros Hm Ht Hd Hlo.
  assert (Vd : NumberSpinner.value (day_spinner p) = d)
    by (unfold NumberSpinner.value; now rewrite Ht, int_str).
  pose proof (days_in_month_range (NumberSpinner.value (year_spinner p)) _ Hm) as Hc.
  fold (ceiling p) in Hc.
  unfold syncable. rewrite Vd, Ht. repeat split; try lia.
  - intros E. pose proof (str_nonempty d) as N. rewrite E in N. discriminate N.
  - intros G. rewrite !len_str_two_digits by lia. reflexivity.
Qed.

(** ** The setter of [date], settled *)

(** X10: after the setter of [date] has assigned a date of the calendar
    (whose day is not below the day minimum) to a picker with nothing
    pending, the handling of the pending messages, in whatever order, never
    raises and ends with the picker showing that date, the day maximum
    being the number of days of its month. *)
Theorem set_date_settles (p : BasicDatePicker) (v : DateTuple)
  (Hv : Date.is_valid (year v) (month v) (day v) = true)
  (Hd : min (day_spinner p) <= day v) :
  exists w0,
    BasicDatePicker.set_date v (idle p) = Return tt w0 /\
    settles_at w0
      (fun p' =>
         shown p' = (year v, month v, day v) /\
         max (day_spinner p') = Gregorian.days_in_month (year v) (month v)).
Proof.
  eexists. split; [apply set_date_eq|].
  set (w0 := assign Year (year v) (assign Month (month v) (assign Day (day v) (idle p)))).
  pose proof (set_date_at_rest p v Hv Hd) as (_ & _ & Hq). fold w0 in Hq.
  destruct (assigned_values (year v) (month v) (day v) (idle p)) as (Ey & Em & Ed).
  fold w0 in Ey, Em, Ed.
  apply is_valid_inv in Hv as (Hy & Hm & Hday).
  assert (Hc : ceiling (picker w0) = Calendar.days_in_month (year v) (month v))
    by (unfold ceiling; now rewrite Ey, Em).
  assert (C : calm (picker w0) w0).
  { split; [|split].
    - unfold syncable. rewrite Hc, Em, Ed. repeat split; try lia.
      + change (input_value (day_spinner (picker w0))) with (Text.str (day v)).
        intros E. pose proof (str_nonempty (day v)) as N. rewrite E in N. discriminate N.
      + change (min (day_spinner (picker w0))) with (min (day_spinner p)). lia.
      + change (min (day_spinner (picker w0))) with (min (day_spinner p)). lia.
    - now apply Forall_quiet_mild.
    - left. split; [reflexivity|].
      apply (pending_sync_in (NumberChanged Year (year v))); [|reflexivity].
      apply assign_posts_number_changed. }
  apply (settles_at_weaken w0 (fun p' => p' = validated (picker w0)));
    [|exact (calm_settles _ _ C)].
  intros p' ->. rewrite validated_shown, Hc, Ey, Em, Ed.
  split; [f_equal; lia|].
  change (max (day_spinner (validated (picker w0)))) with (ceiling (picker w0)).
  rewrite Hc. now apply days_in_month_gregorian.
Qed.

Lemma set_date_settles_witness :
  let p := mkPicker (mkSpinner 1 28 "10" false) (mkSpinner 1 12 "2" false)
             (mkSpinner 2010 2027 "2023" false) in
  Date.is_valid 2024 1 31 = true /\
  min (day_spinner p) <= 31 /\
  exists w0 fuel w',
    BasicDatePicker.set_date (mkDate 2024 1 31) (idle p) = Return tt w0 /\
    run fuel w0 = Some (Return tt w') /\ settled w' /\
    shown (picker w') = (2024, 1, 31) /\ max (day_spinner (picker w')) = 31.
Proof.
  cbv zeta. split; [reflexivity|]. split; [vm_compute; discriminate|].
  destruct (set_date_settles
              (mkPicker (mkSpinner 1 28 "10" false) (mkSpinner 1 12 "2" false)
                 (mkSpinner 2010 2027 "2023" false)) (mkDate 2024 1 31) eq_refl)
    as (w0 & E & _ & _ & fuel & w' & Er & Hs & S & M); [vm_compute; discriminate|].
  exists w0, fuel, w'. repeat split; assumption.
Defined.

(** ** A spin of the month or of the year within its bounds *)

Lemma spin_world_calm p r b n d :
  r <> Day -> 0 <= n ->
  min (spinner r p) <= n <= max (spinner r p) ->
  1 <= NumberSpinner.value (month_spinner (picker (assign r n (idle p)))) <= 12 ->
  input_value (day_spinner p) = Text.str d ->
  min (day_spinner p) <= d <= 31 -> min (day_spinner p) <= 28 ->
  calm (picker (assign r n (idle p))) (post (ButtonSpin r b n) (assign r n (idle p))).
Proof.
  intros Hr Hn Hb Hm Ht Hd Hlo.
  assert (Ed : day_spinner (picker (assign r n (idle p))) = day_spinner p).
  { change (day_spinner ?x) with (spinner Day x). now rewrite assign_other. }
  split; [|split].
  - apply (syncable_intro _ d); rewrite ?Ed; assumption.
  - cbn [post queue]. apply Forall_snoc.
    + apply Forall_quiet_mild. apply quiet_assign; [exact Hn | intros ? [] | constructor].
    + destruct r; [now destruct Hr | exact Hb | exact I].
  - left. split; [reflexivity|].
    apply (pending_sync_in (NumberChanged r n)).
    + cbn [post queue]. apply in_or_app. left. apply assign_posts_number_changed.
    + destruct r; [now destruct Hr | reflexivity | reflexivity].
Qed.

Lemma press_commits r b w :
  min (spinner r (picker w)) <= spun b (NumberSpinner.value (spinner r (picker w)))
  <= max (spinner r (picker w)) ->
  NumberSpinner._up_down_btn r b w
  = Return tt (post (ButtonSpin r b (spun b (NumberSpinner.value (spinner r (picker w)))))
                 (assign r (spun b (NumberSpinner.value (spinner r (picker w)))) w)).
Proof.
  intros H. destruct b; cbn [spun] in *.
  - apply press_up_commits. lia.
  - apply press_down_commits. lia.
Qed.

(** X11: a button of the month spinner is pressed on a picker with nothing
    pending, and the month number it makes lies within the month bounds
    and is a month.  The day text is the text of a number between the day
    minimum and 31, and the day minimum is at most 28.  Then no handler
    raises, in whatever order the pending messages are handled, and the
    picker ends showing the new month, the
    year as it was, and the day brought down to the number of days of the
    new month, which is the day maximum then. *)
Theorem month_spin_settles (p : BasicDatePicker) (b : Direction) (d : Z)
  (Hb : min (month_spinner p) <= spun b (NumberSpinner.value (month_spinner p))
        <= max (month_spinner p))
  (Hm : 1 <= spun b (NumberSpinner.value (month_spinner p)) <= 12)
  (Ht : input_value (day_spinner p) = Text.str d)
  (Hd : min (day_spinner p) <= d <= 31)
  (Hlo : min (day_spinner p) <= 28) :
  let y := NumberSpinner.value (year_spinner p) in
  let m := spun b (NumberSpinner.value (month_spinner p)) in
  settles_at (press Month b p)
    (fun p' =>
       shown p' = (y, m, Z.min d (Gregorian.days_in_month y m)) /\
       max (day_spinner p') = Gregorian.days_in_month y m).
Proof.
  cbv zeta. set (m := spun b (NumberSpinner.value (month_spinner p))) in *.
  set (p0 := picker (assign Month m (idle p))).
  assert (Vm : NumberSpinner.value (month_spinner p0) = m)
    by apply (assign_value Month m (idle p)).
  assert (C : calm p0 (post (ButtonSpin Month b m) (assign Month m (idle p)))).
  { apply (spin_world_calm p Month b m d); try assumption; try discriminate; try lia.
    fold p0. now rewrite Vm. }
  apply (settles_at_single p (ButtonPressed Month b)
           (post (ButtonSpin Month b m) (assign Month m (idle p)))).
  { cbn [dispatch]. now apply (press_commits Month b (idle p)). }
  apply (settles_at_weaken _ (fun p' => p' = validated p0)); [|exact (calm_settles _ _ C)].
  intros p' ->.
  assert (Hc : ceiling p0 = Gregorian.days_in_month (NumberSpinner.value (year_spinner p)) m).
  { unfold ceiling. rewrite Vm. now apply days_in_month_gregorian. }
  rewrite validated_shown, Hc, Vm.
  change (max (day_spinner (validated p0))) with (ceiling p0). rewrite Hc.
  split; [|reflexivity]. f_equal. f_equal.
  change (day_spinner p0) with (day_spinner p).
  unfold NumberSpinner.value. now rewrite Ht, int_str.
Qed.

(** X11 at work: month up from 2023-01-31 ends at 2023-02-28. *)
Lemma month_spin_settles_witness :
  let p := picker_at 2023 1 31 in
  (min (month_spinner p) <= spun up (NumberSpinner.value (month_spinner p))
   <= max (month_spinner p)) /\
  1 <= spun up (NumberSpinner.value (month_spinner p)) <= 12 /\
  input_value (day_spinner p) = Text.str 31 /\
  min (day_spinner p) <= 31 <= 31 /\
  min (day_spinner p) <= 28 /\
  exists fuel w',
    run fuel (press Month up p) = Some (Return tt w') /\ settled w' /\
    shown (picker w') = (2023, 2, 28) /\ max (day_spinner (picker w')) = 28.
Proof.
  cbv zeta.
  assert (H1 : min (month_spinner (picker_at 2023 1 31))
               <= spun up (NumberSpinner.value (month_spinner (picker_at 2023 1 31)))
               <= max (month_spinner (picker_at 2023 1 31)))
    by (split; vm_compute; discriminate).
  assert (H2 : 1 <= spun up (NumberSpinner.value (month_spinner (picker_at 2023 1 31))) <= 12)
    by (split; vm_compute; discriminate).
  assert (H3 : min (day_spinner (picker_at 2023 1 31)) <= 31 <= 31)
    by (split; vm_compute; discriminate).
  assert (H4 : min (day_spinner (picker_at 2023 1 31)) <= 28)
    by (vm_compute; discriminate).
  split; [exact H1|]. split; [exact H2|]. split; [reflexivity|].
  split; [exact H3|]. split; [exact H4|].
  destruct (month_spin_settles (picker_at 2023 1 31) up 31 H1 H2 eq_refl H3 H4)
    as (_ & _ & fuel & w' & E & Hs & S & M).
  exists fuel, w'. repeat split; assumption.
Defined.

(** X12: a button of the year spinner is pressed on a picker with nothing
    pending; the year number it makes lies within the year bounds and is
    not negative, and the month number is a month.  The day text is the
    text of a number between the day minimum and 31, and the day minimum
    is at most 28.  Then no handler raises, in whatever order the pending
    messages are handled, and the picker ends showing the new year, the
    month as it was, and the day brought down to the number of days of
    that month in the new year, which is the day maximum then: the 29th of
    February becomes the 28th. *)
Theorem year_spin_settles (p : BasicDatePicker) (b : Direction) (d : Z)
  (Hb : min (year_spinner p) <= spun b (NumberSpinner.value (year_spinner p))
        <= max (year_spinner p))
  (Hy : 0 <= spun b (NumberSpinner.value (year_spinner p)))
  (Hm : 1 <= NumberSpinner.value (month_spinner p) <= 12)
  (Ht : input_value (day_spinner p) = Text.str d)
  (Hd : min (day_spinner p) <= d <= 31)
  (Hlo : min (day_spinner p) <= 28) :
  let y := spun b (NumberSpinner.value (year_spinner p)) in
  let m := NumberSpinner.value (month_spinner p) in
  settles_at (press Year b p)
    (fun p' =>
       shown p' = (y, m, Z.min d (Gregorian.days_in_month y m)) /\
       max (day_spinner p') = Gregorian.days_in_month y m).
Proof.
  cbv zeta. set (y := spun b (NumberSpinner.value (year_spinner p))) in *.
  set (p0 := picker (assign Year y (idle p))).
  assert (Vy : NumberSpinner.value (year_spinner p0) = y)
    by apply (assign_value Year y (idle p)).
  assert (C : calm p0 (post (ButtonSpin Year b y) (assign Year y (idle p)))).
  { apply (spin_world_calm p Year b y d); try assumption; discriminate. }
  apply (settles_at_single p (ButtonPressed Year b)
           (post (ButtonSpin Year b y) (assign Year y (idle p)))).
  { cbn [dispatch]. now apply (press_commits Year b (idle p)). }
  apply (settles_at_weaken _ (fun p' => p' = validated p0)); [|exact (calm_settles _ _ C)].
  intros p' ->.
  assert (Hc : ceiling p0
               = Gregorian.days_in_month y (NumberSpinner.value (month_spinner p))).
  { unfold ceiling. rewrite Vy. now apply days_in_month_gregorian. }
  rewrite validated_shown, Hc, Vy.
  change (max (day_spinner (validated p0))) with (ceiling p0). rewrite Hc.
  split; [|reflexivity]. f_equal. f_equal.
  change (day_spinner p0) with (day_spinner p).
  unfold NumberSpinner.value. now rewrite Ht, int_str.
Qed.

(** X12 at work: year up from 2024-02-29 ends at 2025-02-28. *)
Lemma year_spin_settles_witness :
  let p := picker_at 2024 2 29 in
  (min (year_spinner p) <= spun up (NumberSpinner.value (year_spinner p))
   <= max (year_spinner p)) /\
  0 <= spun up (NumberSpinner.value (year_spinner p)) /\
  1 <= NumberSpinner.value (month_spinner p) <= 12 /\
  input_value (day_spinner p) = Text.str 29 /\
  min (day_spinner p) <= 29 <= 31 /\
  min (day_spinner p) <= 28 /\
  exists fuel w',
    run fuel (press Year up p) = Some (Return tt w') /\ settled w' /\
    shown (picker w') = (2025, 2, 28) /\ max (day_spinner (picker w')) = 28.
Proof.
  cbv zeta.
  assert (H1 : min (year_spinner (picker_at 2024 2 29))
               <= spun up (NumberSpinner.value (year_spinner (picker_at 2024 2 29)))
               <= max (year_spinner (picker_at 2024 2 29)))
    by (split; vm_compute; discriminate).
  assert (H2 : 0 <= spun up (NumberSpinner.value (year_spinner (picker_at 2024 2 29))))
    by (vm_compute; discriminate).
  assert (H3 : 1 <= NumberSpinner.value (month_spinner (picker_at 2024 2 29)) <= 12)
    by (split; vm_compute; discriminate).
  assert (H4 : min (day_spinner (picker_at 2024 2 29)) <= 29 <= 31)
    by (split; vm_compute; discriminate).
  assert (H5 : min (day_spinner (picker_at 2024 2 29)) <= 28)
    by (vm_compute; discriminate).
  split; [exact H1|]. split; [exact H2|]. split; [exact H3|]. split; [reflexivity|].
  split; [exact H4|]. split; [exact H5|].
  destruct (year_spin_settles (picker_at 2024 2 29) up 29 H1 H2 H3 eq_refl H4 H5)
    as (_ & _ & fuel & w' & E & Hs & S & M).
  exists fuel, w'. repeat split; assumption.
Defined.

(** ** The rollovers, settled *)

Lemma press_then_spin p r b t w2 P :
  dispatch (ButtonPressed r b) (idle p) = Return tt (mkWorld p [ButtonSpin r b t]) ->
  dispatch (ButtonSpin r b t) (mkWorld p []) = Return tt w2 ->
  settles_at w2 P -> settles_at (press r b p) P.
Proof.
  intros E1 E2 S. apply (settles_at_single p _ _ P E1).
  now apply (settles_at_single p _ _ P E2).
Qed.

(** The rule of the day overflow into the next month *)
Lemma on_spin_day_overflow w d t :
  NumberSpinner.value (month_spinner (picker w)) <> 12 ->
  t > max (day_spinner (picker w)) ->
  NumberSpinner.value (month_spinner (picker w)) <= max (month_spinner (picker w)) ->
  BasicDatePicker._on_spin Day d t w
  = Return tt (assign Day (min (day_spinner (picker w)))
                 (assign Month (NumberSpinner.value (month_spinner (picker w)) + 1) w)).
Proof.
  intros H12 Ht Hm. open_on_spin.
  destruct (Z.eqb_spec (NumberSpinner.value (month_spinner (picker w))) 12);
    [contradiction|].
  cbv beta iota.
  destruct (Z.gtb_spec t (max (day_spinner (picker w)))); [|lia].
  destruct (Z.leb_spec (NumberSpinner.value (month_spinner (picker w)))
              (max (month_spinner (picker w)))); [|lia].
  cbn [andb]. run_assignments. reflexivity.
Qed.

(** The rule of the day underflow into the month before *)
Lemma on_spin_day_underflow w d t :
  t <= 31 -> t <= max (day_spinner (picker w)) ->
  t < min (day_spinner (picker w)) ->
  NumberSpinner.value (month_spinner (picker w)) <> 1 ->
  min (month_spinner (picker w)) <= NumberSpinner.value (month_spinner (picker w)) ->
  BasicDatePicker._on_spin Day d t w
  = Return tt (assign Day (max (day_spinner (picker w)))
                 (assign Month (NumberSpinner.value (month_spinner (picker w)) - 1) w)).
Proof.
  intros H31 Hmax Ht H1 Hm. open_on_spin.
  assert (Tail :
    (if (t >? max (day_spinner (picker w)))
        && (NumberSpinner.value (month_spinner (picker w))
            <=? max (month_spinner (picker w)))
     then
       v <- NumberSpinner.get_value Month ;;
       NumberSpinner.set_value Month (v + 1) ;;
       d0 <- get_spinner Day ;; NumberSpinner.set_value Day (min d0)
     else if (t =? 0) && (NumberSpinner.value (month_spinner (picker w)) =? 1)
     then
       (if negb (NumberSpinner.value (year_spinner (picker w))
                 =? min (year_spinner (picker w)))
        then
          NumberSpinner.set_value Month 12 ;;
          v <- NumberSpinner.get_value Year ;;
          NumberSpinner.set_value Year (v - 1) ;;
          d0 <- get_spinner Day ;; NumberSpinner.set_value Day (max d0)
        else NumberSpinner.set_value Month 1 ;; NumberSpinner.set_value Day 1)
     else if (t <? min (day_spinner (picker w)))
             && (NumberSpinner.value (month_spinner (picker w))
                 >=? min (month_spinner (picker w)))
     then
       v <- NumberSpinner.get_value Month ;;
       NumberSpinner.set_value Month (v - 1) ;;
       d0 <- get_spinner Day ;; NumberSpinner.set_value Day (max d0)
     else ret tt) w
    = Return tt (assign Day (max (day_spinner (picker w)))
                   (assign Month (NumberSpinner.value (month_spinner (picker w)) - 1) w))).
  { destruct (Z.gtb_spec t (max (day_spinner (picker w)))); [lia|].
    cbn [andb].
    destruct (Z.eqb_spec (NumberSpinner.value (month_spinner (picker w))) 1);
      [contradiction|].
    rewrite andb_false_r.
    destruct (Z.ltb_spec t (min (day_spinner (picker w)))); [|lia].
    destruct (Z.geb_spec (NumberSpinner.value (month_spinner (picker w)))
                (min (month_spinner (picker w)))); [|lia].
    cbn [andb]. unfold NumberSpinner.get_value. unfold bind, get_spinner, ret.
    run_assignments. reflexivity. }
  destruct (Z.eqb_spec (NumberSpinner.value (month_spinner (picker w))) 12) as [E|E].
  - rewrite highest_day_plain by (cbn [spinner]; lia). cbn [spinner].
    replace (Calendar.days_in_month _ _) with 31 by (rewrite E; reflexivity).
    destruct (Z.eqb_spec t (31 + 1)); [lia|]. exact Tail.
  - exact Tail.
Qed.

(** X13: the day's up button is pressed on a picker with nothing pending
    while the day number is at the day maximum, in a month before December
    (a month number from 0 to 11) that is not above the month maximum; the
    day minimum is between 0 and 28.  Then no handler raises, in whatever
    order the pending messages are handled, and the picker ends showing
    the day minimum of the next month of the same year, the day maximum
    being the number of days of that month. *)
Theorem day_overflow_settles (p : BasicDatePicker)
  (Hv : max (day_spinner p) < NumberSpinner.value (day_spinner p) + 1)
  (Hm : 0 <= NumberSpinner.value (month_spinner p) <= 11)
  (Hmb : NumberSpinner.value (month_spinner p) <= max (month_spinner p))
  (Hlo : 0 <= min (day_spinner p) <= 28) :
  let y := NumberSpinner.value (year_spinner p) in
  let m := NumberSpinner.value (month_spinner p) + 1 in
  settles_at (press Day up p)
    (fun p' =>
       shown p' = (y, m, min (day_spinner p)) /\
       max (day_spinner p') = Gregorian.days_in_month y m).
Proof.
  cbv zeta.
  set (m := NumberSpinner.value (month_spinner p) + 1).
  set (w2 := assign Day (min (day_spinner p)) (assign Month m (idle p))).
  apply (press_then_spin p Day up (NumberSpinner.value (day_spinner p) + 1) w2).
  { cbn [dispatch]. now apply (press_up_blocked Day (idle p)). }
  { cbn [dispatch]. apply (on_spin_day_overflow (mkWorld p [])); cbn [picker]; lia. }
  assert (Vm : NumberSpinner.value (month_spinner (picker w2)) = m).
  { unfold w2. change (month_spinner ?x) with (spinner Month x).
    rewrite assign_other by discriminate. apply assign_value. }
  assert (Vd : NumberSpinner.value (day_spinner (picker w2)) = min (day_spinner p))
    by apply (assign_value Day).
  assert (C : calm (picker w2) w2).
  { split; [|split].
    - apply (syncable_intro _ (min (day_spinner p))).
      + rewrite Vm. unfold m. lia.
      + reflexivity.
      + change (min (day_spinner (picker w2))) with (min (day_spinner p)). lia.
      + change (min (day_spinner (picker w2))) with (min (day_spinner p)). lia.
    - apply Forall_quiet_mild. unfold w2, m. quiet_queue.
    - left. split; [reflexivity|].
      apply (pending_sync_in (NumberChanged Month m)); [|reflexivity].
      apply in_queue_assign, assign_posts_number_changed. }
  apply (settles_at_weaken _ (fun p' => p' = validated (picker w2)));
    [|exact (calm_settles _ _ C)].
  intros p' ->.
  assert (Hc : ceiling (picker w2)
               = Gregorian.days_in_month (NumberSpinner.value (year_spinner p)) m).
  { unfold ceiling. rewrite Vm. apply days_in_month_gregorian. unfold m. lia. }
  rewrite validated_shown, Hc, Vm, Vd.
  change (max (day_spinner (validated (picker w2)))) with (ceiling (picker w2)).
  rewrite Hc. split; [|reflexivity].
  assert (28 <= Gregorian.days_in_month (NumberSpinner.value (year_spinner p)) m).
  { rewrite <- days_in_month_gregorian by (unfold m; lia).
    apply days_in_month_range. unfold m. lia. }
  f_equal. lia.
Qed.

(** X13 at work: day up from 2023-01-31 ends at 2023-02-01, day maximum 28. *)
Lemma day_overflow_settles_witness :
  let p := picker_at 2023 1 31 in
  max (day_spinner p) < NumberSpinner.value (day_spinner p) + 1 /\
  0 <= NumberSpinner.value (month_spinner p) <= 11 /\
  NumberSpinner.value (month_spinner p) <= max (month_spinner p) /\
  0 <= min (day_spinner p) <= 28 /\
  exists fuel w',
    run fuel (press Day up p) = Some (Return tt w') /\ settled w' /\
    shown (picker w') = (2023, 2, 1) /\ max (day_spinner (picker w')) = 28.
Proof.
  cbv zeta.
  assert (H1 : max (day_spinner (picker_at 2023 1 31))
               < NumberSpinner.value (day_spinner (picker_at 2023 1 31)) + 1)
    by reflexivity.
  assert (H2 : 0 <= NumberSpinner.value (month_spinner (picker_at 2023 1 31)) <= 11)
    by (split; vm_compute; discriminate).
  assert (H3 : NumberSpinner.value (month_spinner (picker_at 2023 1 31))
               <= max (month_spinner (picker_at 2023 1 31)))
    by (vm_compute; discriminate).
  assert (H4 : 0 <= min (day_spinner (picker_at 2023 1 31)) <= 28)
    by (split; vm_compute; discriminate).
  split; [exact H1|]. split; [exact H2|]. split; [exact H3|]. split; [exact H4|].
  destruct (day_overflow_settles (picker_at 2023 1 31) H1 H2 H3 H4)
    as (_ & _ & fuel & w' & E & Hs & S & M).
  exists fuel, w'. repeat split; assumption.
Defined.

(** X14: the day's down button is pressed on a picker with nothing pending
    while the day number is at the day minimum, in a month from February to
    December that is within the month bounds; the day maximum is a length of
    a month.  The picker ends showing the month before, of the same year,
    and as day the day maximum it had, brought down to the number of days
    of the month before: the last day of that month when the month left is
    not shorter, and otherwise the last day of the month left (from the
    1st of April with a day maximum of 30, the 30th of March). *)
Theorem day_underflow_settles (p : BasicDatePicker)
  (Hv : NumberSpinner.value (day_spinner p) - 1 < min (day_spinner p))
  (Hm : 2 <= NumberSpinner.value (month_spinner p) <= 12)
  (Hmb : min (month_spinner p) <= NumberSpinner.value (month_spinner p))
  (Hlo : 0 <= min (day_spinner p) <= 28)
  (Hhi : 28 <= max (day_spinner p) <= 31) :
  let y := NumberSpinner.value (year_spinner p) in
  let m := NumberSpinner.value (month_spinner p) - 1 in
  settles_at (press Day down p)
    (fun p' =>
       shown p' = (y, m, Z.min (max (day_spinner p)) (Gregorian.days_in_month y m)) /\
       max (day_spinner p') = Gregorian.days_in_month y m).
Proof.
  cbv zeta.
  set (m := NumberSpinner.value (month_spinner p) - 1).
  set (w2 := assign Day (max (day_spinner p)) (assign Month m (idle p))).
  apply (press_then_spin p Day down (NumberSpinner.value (day_spinner p) - 1) w2).
  { cbn [dispatch]. now apply (press_down_blocked Day (idle p)). }
  { cbn [dispatch]. apply (on_spin_day_underflow (mkWorld p [])); cbn [picker]; lia. }
  assert (Vm : NumberSpinner.value (month_spinner (picker w2)) = m).
  { unfold w2. change (month_spinner ?x) with (spinner Month x).
    rewrite assign_other by discriminate. apply assign_value. }
  assert (Vd : NumberSpinner.value (day_spinner (picker w2)) = max (day_spinner p))
    by apply (assign_value Day).
  assert (C : calm (picker w2) w2).
  { split; [|split].
    - apply (syncable_intro _ (max (day_spinner p))).
      + rewrite Vm. unfold m. lia.
      + reflexivity.
      + change (min (day_spinner (picker w2))) with (min (day_spinner p)). lia.
      + change (min (day_spinner (picker w2))) with (min (day_spinner p)). lia.
    - apply Forall_quiet_mild. unfold w2, m. quiet_queue.
    - left. split; [reflexivity|].
      apply (pending_sync_in (NumberChanged Month m)); [|reflexivity].
      apply in_queue_assign, assign_posts_number_changed. }
  apply (settles_at_weaken _ (fun p' => p' = validated (picker w2)));
    [|exact (calm_settles _ _ C)].
  intros p' ->.
  assert (Hc : ceiling (picker w2)
               = Gregorian.days_in_month (NumberSpinner.value (year_spinner p)) m).
  { unfold ceiling. rewrite Vm. apply days_in_month_gregorian. unfold m. lia. }
  rewrite validated_shown, Hc, Vm, Vd.
  change (max (day_spinner (validated (picker w2)))) with (ceiling (picker w2)).
  rewrite Hc. split; reflexivity.
Qed.

(** X14 at work: day down from the 1st of April 2023 with a day maximum of
    30 ends at the 30th of March. *)
Lemma day_underflow_settles_witness :
  let p := mkPicker (mkSpinner 1 30 "1" false) (mkSpinner 1 12 "4" false)
             (mkSpinner 2010 2027 "2023" false) in
  NumberSpinner.value (day_spinner p) - 1 < min (day_spinner p) /\
  2 <= NumberSpinner.value (month_spinner p) <= 12 /\
  min (month_spinner p) <= NumberSpinner.value (month_spinner p) /\
  0 <= min (day_spinner p) <= 28 /\
  28 <= max (day_spinner p) <= 31 /\
  exists fuel w',
    run fuel (press Day down p) = Some (Return tt w') /\ settled w' /\
    shown (picker w') = (2023, 3, 30) /\ max (day_spinner (picker w')) = 31.
Proof.
  cbv zeta.
  set (p := mkPicker (mkSpinner 1 30 "1" false) (mkSpinner 1 12 "4" false)
              (mkSpinner 2010 2027 "2023" false)).
  assert (H1 : NumberSpinner.value (day_spinner p) - 1 < min (day_spinner p))
    by reflexivity.
  assert (H2 : 2 <= NumberSpinner.value (month_spinner p) <= 12)
    by (split; vm_compute; discriminate).
  assert (H3 : min (month_spinner p) <= NumberSpinner.value (month_spinner p))
    by (vm_compute; discriminate).
  assert (H4 : 0 <= min (day_spinner p) <= 28) by (split; vm_compute; discriminate).
  assert (H5 : 28 <= max (day_spinner p) <= 31) by (split; vm_compute; discriminate).
  split; [exact H1|]. split; [exact H2|]. split; [exact H3|]. split; [exact H4|].
  split; [exact H5|].
  destruct (day_underflow_settles p H1 H2 H3 H4 H5)
    as (_ & _ & fuel & w' & E & Hs & S & M).
  exists fuel, w'. repeat split; assumption.
Defined.

Lemma rollover_world_calm p r1 n1 r2 n2 d :
  r1 <> r2 -> r1 <> Day -> r2 <> Day -> 0 <= n1 -> 0 <= n2 ->
  1 <= NumberSpinner.value
         (month_spinner (picker (assign r2 n2 (assign r1 n1 (idle p))))) <= 12 ->
  input_value (day_spinner p) = Text.str d ->
  min (day_spinner p) <= d <= 31 -> min (day_spinner p) <= 28 ->
  calm (picker (assign r2 n2 (assign r1 n1 (idle p))))
    (assign r2 n2 (assign r1 n1 (idle p))).
Proof.
  intros H12 H1 H2 Hn1 Hn2 Hm Ht Hd Hlo.
  assert (Ed : day_spinner (picker (assign r2 n2 (assign r1 n1 (idle p))))
               = day_spinner p).
  { change (day_spinner ?x) with (spinner Day x). now rewrite !assign_other. }
  split; [|split].
  - apply (syncable_intro _ d); rewrite ?Ed; assumption.
  - apply Forall_quiet_mild.
    apply quiet_assign; [exact Hn2 | |].
    + apply no_input_changed_assign; [exact H12 | intros ? []].
    + apply quiet_assign; [exact Hn1 | intros ? [] | constructor].
  - left. split; [reflexivity|].
    apply (pending_sync_in (NumberChanged r2 n2)).
    + apply assign_posts_number_changed.
    + destruct r2; [now destruct H2 | reflexivity | reflexivity].
Qed.

Lemma day_value_of_text p d :
  input_value (day_spinner p) = Text.str d -> NumberSpinner.value (day_spinner p) = d.
Proof. intros Ht. unfold NumberSpinner.value. now rewrite Ht, int_str. Qed.

(** X15: the month's up button is pressed on a picker with nothing pending
    while the month number is at the month maximum and the year number is
    at most the year maximum and not below -1; the month minimum is a
    month.  The day text is the text of a number between the day minimum
    and 31, and the day minimum is at most 28.  Then no handler raises, in
    whatever order the pending messages are handled, and the picker ends
    showing the month minimum of the next year and the day brought down to
    the number of days of that month, which is the day maximum then. *)
Theorem month_overflow_settles (p : BasicDatePicker) (d : Z)
  (Hv : max (month_spinner p) < NumberSpinner.value (month_spinner p) + 1)
  (Hy : NumberSpinner.value (year_spinner p) <= max (year_spinner p))
  (Hy0 : 0 <= NumberSpinner.value (year_spinner p) + 1)
  (Hmin : 1 <= min (month_spinner p) <= 12)
  (Ht : input_value (day_spinner p) = Text.str d)
  (Hd : min (day_spinner p) <= d <= 31)
  (Hlo : min (day_spinner p) <= 28) :
  let y := NumberSpinner.value (year_spinner p) + 1 in
  let m := min (month_spinner p) in
  settles_at (press Month up p)
    (fun p' =>
       shown p' = (y, m, Z.min d (Gregorian.days_in_month y m)) /\
       max (day_spinner p') = Gregorian.days_in_month y m).
Proof.
  cbv zeta.
  set (y := NumberSpinner.value (year_spinner p) + 1).
  set (m := min (month_spinner p)).
  set (w2 := assign Month m (assign Year y (idle p))).
  apply (press_then_spin p Month up (NumberSpinner.value (month_spinner p) + 1) w2).
  { cbn [dispatch]. now apply (press_up_blocked Month (idle p)). }
  { cbn [dispatch]. apply (on_spin_month_overflow (mkWorld p [])); cbn [picker]; lia. }
  assert (Vm : NumberSpinner.value (month_spinner (picker w2)) = m)
    by apply (assign_value Month).
  assert (Vy : NumberSpinner.value (year_spinner (picker w2)) = y).
  { unfold w2. change (year_spinner ?x) with (spinner Year x).
    rewrite assign_other by discriminate. apply assign_value. }
  assert (C : calm (picker w2) w2).
  { apply (rollover_world_calm p Year y Month m d); try assumption; try discriminate.
    - unfold m. lia.
    - fold w2. rewrite Vm. exact Hmin. }
  apply (settles_at_weaken _ (fun p' => p' = validated (picker w2)));
    [|exact (calm_settles _ _ C)].
  intros p' ->.
  assert (Hc : ceiling (picker w2) = Gregorian.days_in_month y m).
  { unfold ceiling. rewrite Vm, Vy. now apply days_in_month_gregorian. }
  rewrite validated_shown, Hc, Vm, Vy.
  change (max (day_spinner (validated (picker w2)))) with (ceiling (picker w2)).
  rewrite Hc. split; [|reflexivity].
  change (day_spinner (picker w2)) with (day_spinner p).
  now rewrite (day_value_of_text p d Ht).
Qed.

(** X15 at work: month up from 2023-12-15 ends at 2024-01-15. *)
Lemma month_overflow_settles_witness :
  let p := picker_at 2023 12 15 in
  max (month_spinner p) < NumberSpinner.value (month_spinner p) + 1 /\
  NumberSpinner.value (year_spinner p) <= max (year_spinner p) /\
  0 <= NumberSpinner.value (year_spinner p) + 1 /\
  1 <= min (month_spinner p) <= 12 /\
  input_value (day_spinner p) = Text.str 15 /\
  min (day_spinner p) <= 15 <= 31 /\
  min (day_spinner p) <= 28 /\
  exists fuel w',
    run fuel (press Month up p) = Some (Return tt w') /\ settled w' /\
    shown (picker w') = (2024, 1, 15) /\ max (day_spinner (picker w')) = 31.
Proof.
  cbv zeta. set (p := picker_at 2023 12 15).
  assert (H1 : max (month_spinner p) < NumberSpinner.value (month_spinner p) + 1)
    by reflexivity.
  assert (H2 : NumberSpinner.value (year_spinner p) <= max (year_spinner p))
    by (vm_compute; discriminate).
  assert (H3 : 0 <= NumberSpinner.value (year_spinner p) + 1)
    by (vm_compute; discriminate).
  assert (H4 : 1 <= min (month_spinner p) <= 12) by (split; vm_compute; discriminate).
  assert (H5 : min (day_spinner p) <= 15 <= 31) by (split; vm_compute; discriminate).
  assert (H6 : min (day_spinner p) <= 28) by (vm_compute; discriminate).
  split; [exact H1|]. split; [exact H2|]. split; [exact H3|]. split; [exact H4|].
  split; [reflexivity|]. split; [exact H5|]. split; [exact H6|].
  destruct (month_overflow_settles p 15 H1 H2 H3 H4 eq_refl H5 H6)
    as (_ & _ & fuel & w' & E & Hs & S & M).
  exists fuel, w'. repeat split; assumption.
Defined.

(** X16: the month's down button is pressed on a picker with nothing
    pending while the month number is at the month minimum and the year
    number is at least the year minimum and at least 1; the month maximum
    is a month, not below the month minimum.  The day text is the text of
    a number between the day minimum and 31, and the day minimum is at most
    28.  Then no handler raises, in whatever order the pending messages are
    handled, and the picker ends showing the month maximum of the year
    before and the day brought down to the number of days of that month,
    which is the day maximum then. *)
Theorem month_underflow_settles (p : BasicDatePicker) (d : Z)
  (Hv : NumberSpinner.value (month_spinner p) - 1 < min (month_spinner p))
  (Hb : min (month_spinner p) <= max (month_spinner p))
  (Hy : min (year_spinner p) <= NumberSpinner.value (year_spinner p))
  (Hy0 : 0 <= NumberSpinner.value (year_spinner p) - 1)
  (Hmax : 1 <= max (month_spinner p) <= 12)
  (Ht : input_value (day_spinner p) = Text.str d)
  (Hd : min (day_spinner p) <= d <= 31)
  (Hlo : min (day_spinner p) <= 28) :
  let y := NumberSpinner.value (year_spinner p) - 1 in
  let m := max (month_spinner p) in
  settles_at (press Month down p)
    (fun p' =>
       shown p' = (y, m, Z.min d (Gregorian.days_in_month y m)) /\
       max (day_spinner p') = Gregorian.days_in_month y m).
Proof.
  cbv zeta.
  set (y := NumberSpinner.value (year_spinner p) - 1).
  set (m := max (month_spinner p)).
  set (w2 := assign Month m (assign Year y (idle p))).
  apply (press_then_spin p Month down (NumberSpinner.value (month_spinner p) - 1) w2).
  { cbn [dispatch]. now apply (press_down_blocked Month (idle p)). }
  { cbn [dispatch]. rewrite (on_spin_month_underflow (mkWorld p [])) by (cbn [picker]; lia).
    cbn [picker].
    destruct (Z.geb_spec (NumberSpinner.value (year_spinner p)) (min (year_spinner p)));
      [reflexivity | lia]. }
  assert (Vm : NumberSpinner.value (month_spinner (picker w2)) = m)
    by apply (assign_value Month).
  assert (Vy : NumberSpinner.value (year_spinner (picker w2)) = y).
  { unfold w2. change (year_spinner ?x) with (spinner Year x).
    rewrite assign_other by discriminate. apply assign_value. }
  assert (C : calm (picker w2) w2).
  { apply (rollover_world_calm p Year y Month m d); try assumption; try discriminate.
    - unfold m. lia.
    - fold w2. rewrite Vm. exact Hmax. }
  apply (settles_at_weaken _ (fun p' => p' = validated (picker w2)));
    [|exact (calm_settles _ _ C)].
  intros p' ->.
  assert (Hc : ceiling (picker w2) = Gregorian.days_in_month y m).
  { unfold ceiling. rewrite Vm, Vy. now apply days_in_month_gregorian. }
  rewrite validated_shown, Hc, Vm, Vy.
  change (max (day_spinner (validated (picker w2)))) with (ceiling (picker w2)).
  rewrite Hc. split; [|reflexivity].
  change (day_spinner (picker w2)) with (day_spinner p).
  now rewrite (day_value_of_text p d Ht).
Qed.

(** X16 at work: month down from 2023-01-31 ends at 2022-12-31. *)
Lemma month_underflow_settles_witness :
  let p := picker_at 2023 1 31 in
  NumberSpinner.value (month_spinner p) - 1 < min (month_spinner p) /\
  min (month_spinner p) <= max (month_spinner p) /\
  min (year_spinner p) <= NumberSpinner.value (year_spinner p) /\
  0 <= NumberSpinner.value (year_spinner p) - 1 /\
  1 <= max (month_spinner p) <= 12 /\
  input_value (day_spinner p) = Text.str 31 /\
  min (day_spinner p) <= 31 <= 31 /\
  min (day_spinner p) <= 28 /\
  exists fuel w',
    run fuel (press Month down p) = Some (Return tt w') /\ settled w' /\
    shown (picker w') = (2022, 12, 31) /\ max (day_spinner (picker w')) = 31.
Proof.
  cbv zeta. set (p := picker_at 2023 1 31).
  assert (H1 : NumberSpinner.value (month_spinner p) - 1 < min (month_spinner p))
    by reflexivity.
  assert (H2 : min (month_spinner p) <= max (month_spinner p))
    by (vm_compute; discriminate).
  assert (H3 : min (year_spinner p) <= NumberSpinner.value (year_spinner p))
    by (vm_compute; discriminate).
  assert (H4 : 0 <= NumberSpinner.value (year_spinner p) - 1)
    by (vm_compute; discriminate).
  assert (H5 : 1 <= max (month_spinner p) <= 12) by (split; vm_compute; discriminate).
  assert (H6 : min (day_spinner p) <= 31 <= 31) by (split; vm_compute; discriminate).
  assert (H7 : min (day_spinner p) <= 28) by (vm_compute; discriminate).
  split; [exact H1|]. split; [exact H2|]. split; [exact H3|]. split; [exact H4|].
  split; [exact H5|]. split; [reflexivity|]. split; [exact H6|]. split; [exact H7|].
  destruct (month_underflow_settles p 31 H1 H2 H3 H4 H5 eq_refl H6 H7)
    as (_ & _ & fuel & w' & E & Hs & S & M).
  exists fuel, w'. repeat split; assumption.
Defined.

(** ** A spin of the day inside the month *)

(** No rule of [_on_spin] fires for a day number inside the day bounds. *)
Lemma on_spin_day_inside w d t :
  1 <= t <= 31 ->
  min (day_spinner (picker w)) <= t <= max (day_spinner (picker w)) ->
  BasicDatePicker._on_spin Day d t w = Return tt w.
Proof.
  intros H31 Hb. open_on_spin.
  assert (Tail :
    (if (t >? max (day_spinner (picker w)))
        && (NumberSpinner.value (month_spinner (picker w))
            <=? max (month_spinner (picker w)))
     then
       v <- NumberSpinner.get_value Month ;;
       NumberSpinner.set_value Month (v + 1) ;;
       d0 <- get_spinner Day ;; NumberSpinner.set_value Day (min d0)
     else if (t =? 0) && (NumberSpinner.value (month_spinner (picker w)) =? 1)
     then
       (if negb (NumberSpinner.value (year_spinner (picker w))
                 =? min (year_spinner (picker w)))
        then
          NumberSpinner.set_value Month 12 ;;
          v <- NumberSpinner.get_value Year ;;
          NumberSpinner.set_value Year (v - 1) ;;
          d0 <- get_spinner Day ;; NumberSpinner.set_value Day (max d0)
        else NumberSpinner.set_value Month 1 ;; NumberSpinner.set_value Day 1)
     else if (t <? min (day_spinner (picker w)))
             && (NumberSpinner.value (month_spinner (picker w))
                 >=? min (month_spinner (picker w)))
     then
       v <- NumberSpinner.get_value Month ;;
       NumberSpinner.set_value Month (v - 1) ;;
       d0 <- get_spinner Day ;; NumberSpinner.set_value Day (max d0)
     else ret tt) w
    = Return tt w).
  { destruct (Z.gtb_spec t (max (day_spinner (picker w)))); [lia|].
    cbn [andb].
    destruct (Z.eqb_spec t 0); [lia|]. cbn [andb].
    destruct (Z.ltb_spec t (min (day_spinner (picker w)))); [lia|].
    reflexivity. }
  destruct (Z.eqb_spec (NumberSpinner.value (month_spinner (picker w))) 12) as [E|E].
  - rewrite highest_day_plain by (cbn [spinner]; lia). cbn [spinner].
    replace (Calendar.days_in_month _ _) with 31 by (rewrite E; reflexivity).
    destruct (Z.eqb_spec t (31 + 1)); [lia|]. exact Tail.
  - exact Tail.
Qed.

Lemma pending_sync_none q :
  Forall (fun m => is_sync m = false) q -> pending_sync q = false.
Proof.
  induction 1 as [|m q Hm _ IH]; [reflexivity|].
  cbn [pending_sync existsb]. rewrite Hm. exact IH.
Qed.

Lemma press_day_inside p b :
  let t := spun b (NumberSpinner.value (day_spinner p)) in
  1 <= t <= 31 -> min (day_spinner p) <= t <= max (day_spinner p) ->
  settles_at (press Day b p) (fun p' => p' = picker (assign Day t (idle p))).
Proof.
  intros t H31 Hb.
  set (w1 := post (ButtonSpin Day b t) (assign Day t (idle p))).
  apply (settles_at_single p _ w1).
  { cbn [dispatch]. apply (press_commits Day b (idle p)). exact Hb. }
  assert (I : inert w1).
  { destruct (queue_assign Day t (idle p)) as (l & El & Hl).
    assert (Eq : queue w1 = (l ++ [ButtonSpin Day b t])%list).
    { unfold w1, post. cbn [queue]. rewrite El. reflexivity. }
    split.
    - rewrite Eq. apply pending_sync_none, Forall_app. split.
      + eapply Forall_impl; [|exact Hl]. now intros m [-> | ->].
      + now constructor.
    - rewrite Eq. apply Forall_app. split.
      + eapply Forall_impl; [|exact Hl]. intros m [-> | ->]; [|exact I].
        cbn [harmless]. unfold w1. rewrite post_picker, assign_spinner.
        cbn [input_value]. rewrite only_digits_str by lia. reflexivity.
      + constructor; [|constructor]. cbn [harmless]. intros q.
        apply on_spin_day_inside; [exact H31|]. cbn [picker].
        change (day_spinner ?x) with (spinner Day x).
        unfold w1. rewrite post_picker.
        destruct (assign_bounds Day t (idle p) Day) as (-> & -> & _).
        exact Hb. }
  exact (inert_settles w1 I).
Qed.

(** X17: a button of the day spinner is pressed on a picker with nothing
    pending, and the day number one up or down is a day number from 1 to 31
    inside the day bounds.  Then that number is shown once the messages
    have been handled, in any order, and nothing else has changed: not the
    month or the year spinner, and not the bounds of the day. *)
Theorem day_spin_inside_settles (p : BasicDatePicker) (b : Direction)
  (H31 : 1 <= spun b (NumberSpinner.value (day_spinner p)) <= 31)
  (Hb : min (day_spinner p) <= spun b (NumberSpinner.value (day_spinner p))
        <= max (day_spinner p)) :
  settles_at (press Day b p)
    (fun p' =>
       NumberSpinner.value (day_spinner p')
       = spun b (NumberSpinner.value (day_spinner p)) /\
       min (day_spinner p') = min (day_spinner p) /\
       max (day_spinner p') = max (day_spinner p) /\
       month_spinner p' = month_spinner p /\
       year_spinner p' = year_spinner p).
Proof.
  apply (settles_at_weaken _
           (fun p' => p' = picker (assign Day (spun b (NumberSpinner.value (day_spinner p)))
                                     (idle p))));
    [|exact (press_day_inside p b H31 Hb)].
  intros p' ->.
  split; [apply (assign_value Day)|].
  destruct (assign_bounds Day (spun b (NumberSpinner.value (day_spinner p)))
              (idle p) Day) as (Hmin & Hmax & _).
  split; [exact Hmin|]. split; [exact Hmax|].
  split; [apply (assign_other Day Month) | apply (assign_other Day Year)]; discriminate.
Qed.

(** X17 at work: day up from 2024-02-10 ends at 2024-02-11. *)
Lemma day_spin_inside_settles_witness :
  let p := picker_at 2024 2 10 in
  1 <= spun up (NumberSpinner.value (day_spinner p)) <= 31 /\
  min (day_spinner p) <= spun up (NumberSpinner.value (day_spinner p))
  <= max (day_spinner p) /\
  exists fuel w',
    run fuel (press Day up p) = Some (Return tt w') /\ settled w' /\
    shown (picker w') = (2024, 2, 11).
Proof.
  cbv zeta. set (p := picker_at 2024 2 10).
  assert (H1 : 1 <= spun up (NumberSpinner.value (day_spinner p)) <= 31)
    by (split; vm_compute; discriminate).
  assert (H2 : min (day_spinner p) <= spun up (NumberSpinner.value (day_spinner p))
               <= max (day_spinner p)) by (split; vm_compute; discriminate).
  split; [exact H1|]. split; [exact H2|].
  destruct (day_spin_inside_settles p up H1 H2)
    as (_ & _ & fuel & w' & E & Hs & V & _ & _ & M & Y).
  exists fuel, w'. split; [exact E|]. split; [exact Hs|].
  unfold shown. now rewrite V, M, Y.
Defined.
